(** * Painel de analise de acoes: shallow embedding of [painel5222_v4.5.py]

    The development follows the Python module top to bottom: ticker
    validation and sanitisation, the data-collection functions that talk
    to the market-data provider, the valuation formulas, the per-ticker
    pipeline [processar_ticker], the batch loop with its final sort, and
    the assembly of the report from the collected lists.

    Conventions.
    - A Python [float] (and a numpy [float64]) is a binary64 value: Rocq's
      primitive [float], with the same IEEE-754 operations, NaN included.
    - A Python [str] is a [string] holding its UTF-8 encoding;
      [str.strip] and [str.upper] act on the encoded characters, with
      the white space and the upper-case mappings of CPython 3.11
      (Unicode 14.0.0).
    - A [dict] is a [gmap string _]; [d.get(k)] is a lookup.
    - [try ... except Exception] is a match on an [outcome].
    - Operations that live in numpy or pandas and have no definition in
      the module (float power, decimal rounding, [float(str)], calendar
      accessors, the default-kind [sort_values] on a float column) are
      the fields of the class [Runtime]. *)

From Stdlib Require Import ZArith List String Ascii Floats Bool Lia.
From Stdlib Require Import Permutation Sorted.
From stdpp Require Import gmap strings list fin_maps sorting.

Set Warnings "-inexact-float".

Open Scope string_scope.
Open Scope list_scope.
Open Scope Z_scope.

(** ** Python values and exceptions *)

(** The result of an expression that may raise. *)
Inductive outcome (A : Type) : Type :=
| Ok (a : A)
| Raise (msg : string).
Arguments Ok {A} a.
Arguments Raise {A} msg.

Definition bind {A B : Type} (m : outcome A) (k : A -> outcome B) : outcome B :=
  match m with
  | Ok a => k a
  | Raise e => Raise e
  end.

Notation "x <-! m ; k" := (bind m (fun x => k))
  (at level 100, m at next level, right associativity).

(** [try: m except Exception: d]. *)
Definition try_except {A : Type} (m : outcome A) (d : string -> A) : A :=
  match m with
  | Ok a => a
  | Raise e => d e
  end.

(** The values a provider mapping holds: JSON numbers, text, or [None]. *)
Inductive pyval : Type :=
| PyNone
| PyNum (x : float)
| PyStr (s : string).

(** [d.get(k)]: an absent key reads as [None]. *)
Definition dict_get (d : gmap string pyval) (k : string) : pyval :=
  match d !! k with
  | Some v => v
  | None => PyNone
  end.

(** [bool(v)]: [None], zero (of either sign) and the empty text are false;
    NaN is true. *)
Definition truthy (v : pyval) : bool :=
  match v with
  | PyNone => false
  | PyNum x => negb (x =? 0)%float
  | PyStr s => negb (String.eqb s "")
  end.

(** [a or b]. *)
Definition py_or (a b : pyval) : pyval := if truthy a then a else b.

(** ** Configuration constants *)

Definition MAX_WORKERS_THREAD_POOL : nat := 5.
Definition ANOS_PADRAO : nat := 5.
Definition MULTIPLICADOR_GRAHAM : float := 22.5%float.
Definition MAX_TICKERS_PERMITIDOS : nat := 20.

(** ** Text: [str.strip], [str.upper], [str.split(',')]

    A text is held as the bytes of its UTF-8 encoding; a character of a
    text is the run of bytes that encodes one code point.  [str.strip]
    and [str.upper] work character by character, as CPython does: the
    first drops the characters [str.isspace] accepts from both ends, the
    second replaces each character by its full upper-case mapping, which
    can be up to three characters long. *)

(** The number of bytes of the character that a first byte announces. *)
Definition tamanho (b : ascii) : nat :=
  let n := N_of_ascii b in
  if (n <? 0xC0)%N then 1%nat
  else if (n <? 0xE0)%N then 2%nat
  else if (n <? 0xF0)%N then 3%nat
  else 4%nat.

(** [corta faltam s]: the bytes of [s] that finish the character under
    way, [faltam] at most, and the characters that follow it. *)
Fixpoint corta (faltam : nat) (s : string) : string * list string :=
  match s with
  | EmptyString => (EmptyString, [])
  | String b r =>
      match faltam with
      | S n => let '(c, cs) := corta n r in (String b c, cs)
      | O => let '(c, cs) := corta (tamanho b - 1) r in (EmptyString, String b c :: cs)
      end
  end.

(** The characters of a text, in order. *)
Definition caracteres (s : string) : list string := snd (corta 0 s).

(** [''.join(cs)]. *)
Definition junta (cs : list string) : string := fold_right String.append EmptyString cs.

(** The UTF-8 encoding of a code point. *)
Definition utf8 (n : N) : string :=
  if (n <? 0x80)%N then String (ascii_of_N n) EmptyString
  else if (n <? 0x800)%N then
    String (ascii_of_N (0xC0 + n / 0x40))
      (String (ascii_of_N (0x80 + n mod 0x40)) EmptyString)
  else if (n <? 0x10000)%N then
    String (ascii_of_N (0xE0 + n / 0x1000))
      (String (ascii_of_N (0x80 + (n / 0x40) mod 0x40))
         (String (ascii_of_N (0x80 + n mod 0x40)) EmptyString))
  else
    String (ascii_of_N (0xF0 + n / 0x40000))
      (String (ascii_of_N (0x80 + (n / 0x1000) mod 0x40))
         (String (ascii_of_N (0x80 + (n / 0x40) mod 0x40))
            (String (ascii_of_N (0x80 + n mod 0x40)) EmptyString))).

(** The code points [str.isspace] accepts, which are those [str.strip]
    removes: the ASCII controls TAB..CR and FS..US, the blank, NEL, the
    no-break space and the Unicode spaces and separators. *)
Definition espacos : list N :=
  [ 0x09; 0x0A; 0x0B; 0x0C; 0x0D; 0x1C; 0x1D; 0x1E; 0x1F; 0x20; 0x85; 0xA0;
    0x1680; 0x2000; 0x2001; 0x2002; 0x2003; 0x2004; 0x2005; 0x2006; 0x2007;
    0x2008; 0x2009; 0x200A; 0x2028; 0x2029; 0x202F; 0x205F; 0x3000 ]%N.

(** The code point that the bytes of a character spell out. *)
Definition ponto (c : string) : N :=
  let o (b : ascii) (base : N) : N := (N_of_ascii b - base)%N in
  match c with
  | String b1 EmptyString => N_of_ascii b1
  | String b1 (String b2 EmptyString) =>
      (o b1 0xC0 * 0x40 + o b2 0x80)%N
  | String b1 (String b2 (String b3 EmptyString)) =>
      (o b1 0xE0 * 0x1000 + o b2 0x80 * 0x40 + o b3 0x80)%N
  | String b1 (String b2 (String b3 (String b4 EmptyString))) =>
      (o b1 0xF0 * 0x40000 + o b2 0x80 * 0x1000 + o b3 0x80 * 0x40 + o b4 0x80)%N
  | _ => 0%N
  end.

(** The bytes [c] are the encoding of a code point. *)
Definition codificado (c : string) : bool := String.eqb c (utf8 (ponto c)).

(** [c.isspace()] for a character [c]. *)
Definition py_isspace (c : string) : bool :=
  codificado c && existsb (N.eqb (ponto c)) espacos.

(** [s.lstrip()] and [s.rstrip()] on the characters of [s]. *)
Fixpoint lstrip (cs : list string) : list string :=
  match cs with
  | [] => []
  | c :: r => if py_isspace c then lstrip r else cs
  end.

Fixpoint rstrip (cs : list string) : list string :=
  match cs with
  | [] => []
  | c :: r =>
      match rstrip r with
      | [] => if py_isspace c then [] else [c]
      | r' => c :: r'
      end
  end.

Definition strip (s : string) : string := junta (rstrip (lstrip (caracteres s))).

(** The code points that [str.upper] changes, each with its full
    upper-case mapping (Unicode 14.0.0, the database of CPython 3.11):
    1525 code points, 102 of them with a mapping of two or three code
    points, such as U+00DF to SS and U+FB03 to FFI. *)
Definition maiusculas_0061 : list (N * list N) :=
  [(0x61, [0x41]); (0x62, [0x42]); (0x63, [0x43]); (0x64, [0x44]);
  (0x65, [0x45]); (0x66, [0x46]); (0x67, [0x47]); (0x68, [0x48]);
  (0x69, [0x49]); (0x6A, [0x4A]); (0x6B, [0x4B]); (0x6C, [0x4C]);
  (0x6D, [0x4D]); (0x6E, [0x4E]); (0x6F, [0x4F]); (0x70, [0x50]);
  (0x71, [0x51]); (0x72, [0x52]); (0x73, [0x53]); (0x74, [0x54]);
  (0x75, [0x55]); (0x76, [0x56]); (0x77, [0x57]); (0x78, [0x58]);
  (0x79, [0x59]); (0x7A, [0x5A]); (0xB5, [0x39C]); (0xDF, [0x53; 0x53]);
  (0xE0, [0xC0]); (0xE1, [0xC1]); (0xE2, [0xC2]); (0xE3, [0xC3]);
  (0xE4, [0xC4]); (0xE5, [0xC5]); (0xE6, [0xC6]); (0xE7, [0xC7]);
  (0xE8, [0xC8]); (0xE9, [0xC9]); (0xEA, [0xCA]); (0xEB, [0xCB]);
  (0xEC, [0xCC]); (0xED, [0xCD]); (0xEE, [0xCE]); (0xEF, [0xCF]);
  (0xF0, [0xD0]); (0xF1, [0xD1]); (0xF2, [0xD2]); (0xF3, [0xD3]);
  (0xF4, [0xD4]); (0xF5, [0xD5]); (0xF6, [0xD6]); (0xF8, [0xD8]);
  (0xF9, [0xD9]); (0xFA, [0xDA]); (0xFB, [0xDB]); (0xFC, [0xDC]);
  (0xFD, [0xDD]); (0xFE, [0xDE]); (0xFF, [0x178]) ]%N.

Definition maiusculas_0101 : list (N * list N) :=
  [(0x101, [0x100]); (0x103, [0x102]); (0x105, [0x104]); (0x107, [0x106]);
  (0x109, [0x108]); (0x10B, [0x10A]); (0x10D, [0x10C]); (0x10F, [0x10E]);
  (0x111, [0x110]); (0x113, [0x112]); (0x115, [0x114]); (0x117, [0x116]);
  (0x119, [0x118]); (0x11B, [0x11A]); (0x11D, [0x11C]); (0x11F, [0x11E]);
  (0x121, [0x120]); (0x123, [0x122]); (0x125, [0x124]); (0x127, [0x126]);
  (0x129, [0x128]); (0x12B, [0x12A]); (0x12D, [0x12C]); (0x12F, [0x12E]);
  (0x131, [0x49]); (0x133, [0x132]); (0x135, [0x134]); (0x137, [0x136]);
  (0x13A, [0x139]); (0x13C, [0x13B]); (0x13E, [0x13D]); (0x140, [0x13F]);
  (0x142, [0x141]); (0x144, [0x143]); (0x146, [0x145]); (0x148, [0x147]);
  (0x149, [0x2BC; 0x4E]); (0x14B, [0x14A]); (0x14D, [0x14C]);
  (0x14F, [0x14E]); (0x151, [0x150]); (0x153, [0x152]); (0x155, [0x154]);
  (0x157, [0x156]); (0x159, [0x158]); (0x15B, [0x15A]); (0x15D, [0x15C]);
  (0x15F, [0x15E]); (0x161, [0x160]); (0x163, [0x162]); (0x165, [0x164]);
  (0x167, [0x166]); (0x169, [0x168]); (0x16B, [0x16A]); (0x16D, [0x16C]);
  (0x16F, [0x16E]); (0x171, [0x170]); (0x173, [0x172]); (0x175, [0x174]);
  (0x177, [0x176]); (0x17A, [0x179]); (0x17C, [0x17B]); (0x17E, [0x17D]);
  (0x17F, [0x53]); (0x180, [0x243]); (0x183, [0x182]); (0x185, [0x184]);
  (0x188, [0x187]); (0x18C, [0x18B]); (0x192, [0x191]); (0x195, [0x1F6]);
  (0x199, [0x198]); (0x19A, [0x23D]); (0x19E, [0x220]); (0x1A1, [0x1A0]);
  (0x1A3, [0x1A2]); (0x1A5, [0x1A4]); (0x1A8, [0x1A7]); (0x1AD, [0x1AC]);
  (0x1B0, [0x1AF]); (0x1B4, [0x1B3]); (0x1B6, [0x1B5]); (0x1B9, [0x1B8]);
  (0x1BD, [0x1BC]); (0x1BF, [0x1F7]); (0x1C5, [0x1C4]); (0x1C6, [0x1C4]);
  (0x1C8, [0x1C7]); (0x1C9, [0x1C7]); (0x1CB, [0x1CA]); (0x1CC, [0x1CA]);
  (0x1CE, [0x1CD]); (0x1D0, [0x1CF]); (0x1D2, [0x1D1]); (0x1D4, [0x1D3]);
  (0x1D6, [0x1D5]); (0x1D8, [0x1D7]); (0x1DA, [0x1D9]); (0x1DC, [0x1DB]);
  (0x1DD, [0x18E]); (0x1DF, [0x1DE]); (0x1E1, [0x1E0]); (0x1E3, [0x1E2]);
  (0x1E5, [0x1E4]); (0x1E7, [0x1E6]); (0x1E9, [0x1E8]); (0x1EB, [0x1EA]);
  (0x1ED, [0x1EC]); (0x1EF, [0x1EE]); (0x1F0, [0x4A; 0x30C]);
  (0x1F2, [0x1F1]); (0x1F3, [0x1F1]); (0x1F5, [0x1F4]); (0x1F9, [0x1F8]);
  (0x1FB, [0x1FA]); (0x1FD, [0x1FC]); (0x1FF, [0x1FE]); (0x201, [0x200]);
  (0x203, [0x202]); (0x205, [0x204]); (0x207, [0x206]); (0x209, [0x208]);
  (0x20B, [0x20A]); (0x20D, [0x20C]); (0x20F, [0x20E]); (0x211, [0x210]);
  (0x213, [0x212]); (0x215, [0x214]); (0x217, [0x216]); (0x219, [0x218]);
  (0x21B, [0x21A]); (0x21D, [0x21C]); (0x21F, [0x21E]); (0x223, [0x222]);
  (0x225, [0x224]); (0x227, [0x226]); (0x229, [0x228]); (0x22B, [0x22A]);
  (0x22D, [0x22C]); (0x22F, [0x22E]); (0x231, [0x230]); (0x233, [0x232]);
  (0x23C, [0x23B]); (0x23F, [0x2C7E]); (0x240, [0x2C7F]); (0x242, [0x241]);
  (0x247, [0x246]); (0x249, [0x248]); (0x24B, [0x24A]); (0x24D, [0x24C]);
  (0x24F, [0x24E]) ]%N.

Definition maiusculas_0250 : list (N * list N) :=
  [(0x250, [0x2C6F]); (0x251, [0x2C6D]); (0x252, [0x2C70]); (0x253, [0x181]);
  (0x254, [0x186]); (0x256, [0x189]); (0x257, [0x18A]); (0x259, [0x18F]);
  (0x25B, [0x190]); (0x25C, [0xA7AB]); (0x260, [0x193]); (0x261, [0xA7AC]);
  (0x263, [0x194]); (0x265, [0xA78D]); (0x266, [0xA7AA]); (0x268, [0x197]);
  (0x269, [0x196]); (0x26A, [0xA7AE]); (0x26B, [0x2C62]); (0x26C, [0xA7AD]);
  (0x26F, [0x19C]); (0x271, [0x2C6E]); (0x272, [0x19D]); (0x275, [0x19F]);
  (0x27D, [0x2C64]); (0x280, [0x1A6]); (0x282, [0xA7C5]); (0x283, [0x1A9]);
  (0x287, [0xA7B1]); (0x288, [0x1AE]); (0x289, [0x244]); (0x28A, [0x1B1]);
  (0x28B, [0x1B2]); (0x28C, [0x245]); (0x292, [0x1B7]); (0x29D, [0xA7B2]);
  (0x29E, [0xA7B0]); (0x345, [0x399]) ]%N.

Definition maiusculas_0371 : list (N * list N) :=
  [(0x371, [0x370]); (0x373, [0x372]); (0x377, [0x376]); (0x37B, [0x3FD]);
  (0x37C, [0x3FE]); (0x37D, [0x3FF]); (0x390, [0x399; 0x308; 0x301]);
  (0x3AC, [0x386]); (0x3AD, [0x388]); (0x3AE, [0x389]); (0x3AF, [0x38A]);
  (0x3B0, [0x3A5; 0x308; 0x301]); (0x3B1, [0x391]); (0x3B2, [0x392]);
  (0x3B3, [0x393]); (0x3B4, [0x394]); (0x3B5, [0x395]); (0x3B6, [0x396]);
  (0x3B7, [0x397]); (0x3B8, [0x398]); (0x3B9, [0x399]); (0x3BA, [0x39A]);
  (0x3BB, [0x39B]); (0x3BC, [0x39C]); (0x3BD, [0x39D]); (0x3BE, [0x39E]);
  (0x3BF, [0x39F]); (0x3C0, [0x3A0]); (0x3C1, [0x3A1]); (0x3C2, [0x3A3]);
  (0x3C3, [0x3A3]); (0x3C4, [0x3A4]); (0x3C5, [0x3A5]); (0x3C6, [0x3A6]);
  (0x3C7, [0x3A7]); (0x3C8, [0x3A8]); (0x3C9, [0x3A9]); (0x3CA, [0x3AA]);
  (0x3CB, [0x3AB]); (0x3CC, [0x38C]); (0x3CD, [0x38E]); (0x3CE, [0x38F]);
  (0x3D0, [0x392]); (0x3D1, [0x398]); (0x3D5, [0x3A6]); (0x3D6, [0x3A0]);
  (0x3D7, [0x3CF]); (0x3D9, [0x3D8]); (0x3DB, [0x3DA]); (0x3DD, [0x3DC]);
  (0x3DF, [0x3DE]); (0x3E1, [0x3E0]); (0x3E3, [0x3E2]); (0x3E5, [0x3E4]);
  (0x3E7, [0x3E6]); (0x3E9, [0x3E8]); (0x3EB, [0x3EA]); (0x3ED, [0x3EC]);
  (0x3EF, [0x3EE]); (0x3F0, [0x39A]); (0x3F1, [0x3A1]); (0x3F2, [0x3F9]);
  (0x3F3, [0x37F]); (0x3F5, [0x395]); (0x3F8, [0x3F7]); (0x3FB, [0x3FA]) ]%N.

Definition maiusculas_0430 : list (N * list N) :=
  [(0x430, [0x410]); (0x431, [0x411]); (0x432, [0x412]); (0x433, [0x413]);
  (0x434, [0x414]); (0x435, [0x415]); (0x436, [0x416]); (0x437, [0x417]);
  (0x438, [0x418]); (0x439, [0x419]); (0x43A, [0x41A]); (0x43B, [0x41B]);
  (0x43C, [0x41C]); (0x43D, [0x41D]); (0x43E, [0x41E]); (0x43F, [0x41F]);
  (0x440, [0x420]); (0x441, [0x421]); (0x442, [0x422]); (0x443, [0x423]);
  (0x444, [0x424]); (0x445, [0x425]); (0x446, [0x426]); (0x447, [0x427]);
  (0x448, [0x428]); (0x449, [0x429]); (0x44A, [0x42A]); (0x44B, [0x42B]);
  (0x44C, [0x42C]); (0x44D, [0x42D]); (0x44E, [0x42E]); (0x44F, [0x42F]);
  (0x450, [0x400]); (0x451, [0x401]); (0x452, [0x402]); (0x453, [0x403]);
  (0x454, [0x404]); (0x455, [0x405]); (0x456, [0x406]); (0x457, [0x407]);
  (0x458, [0x408]); (0x459, [0x409]); (0x45A, [0x40A]); (0x45B, [0x40B]);
  (0x45C, [0x40C]); (0x45D, [0x40D]); (0x45E, [0x40E]); (0x45F, [0x40F]);
  (0x461, [0x460]); (0x463, [0x462]); (0x465, [0x464]); (0x467, [0x466]);
  (0x469, [0x468]); (0x46B, [0x46A]); (0x46D, [0x46C]); (0x46F, [0x46E]);
  (0x471, [0x470]); (0x473, [0x472]); (0x475, [0x474]); (0x477, [0x476]);
  (0x479, [0x478]); (0x47B, [0x47A]); (0x47D, [0x47C]); (0x47F, [0x47E]);
  (0x481, [0x480]); (0x48B, [0x48A]); (0x48D, [0x48C]); (0x48F, [0x48E]);
  (0x491, [0x490]); (0x493, [0x492]); (0x495, [0x494]); (0x497, [0x496]);
  (0x499, [0x498]); (0x49B, [0x49A]); (0x49D, [0x49C]); (0x49F, [0x49E]);
  (0x4A1, [0x4A0]); (0x4A3, [0x4A2]); (0x4A5, [0x4A4]); (0x4A7, [0x4A6]);
  (0x4A9, [0x4A8]); (0x4AB, [0x4AA]); (0x4AD, [0x4AC]); (0x4AF, [0x4AE]);
  (0x4B1, [0x4B0]); (0x4B3, [0x4B2]); (0x4B5, [0x4B4]); (0x4B7, [0x4B6]);
  (0x4B9, [0x4B8]); (0x4BB, [0x4BA]); (0x4BD, [0x4BC]); (0x4BF, [0x4BE]);
  (0x4C2, [0x4C1]); (0x4C4, [0x4C3]); (0x4C6, [0x4C5]); (0x4C8, [0x4C7]);
  (0x4CA, [0x4C9]); (0x4CC, [0x4CB]); (0x4CE, [0x4CD]); (0x4CF, [0x4C0]);
  (0x4D1, [0x4D0]); (0x4D3, [0x4D2]); (0x4D5, [0x4D4]); (0x4D7, [0x4D6]);
  (0x4D9, [0x4D8]); (0x4DB, [0x4DA]); (0x4DD, [0x4DC]); (0x4DF, [0x4DE]);
  (0x4E1, [0x4E0]); (0x4E3, [0x4E2]); (0x4E5, [0x4E4]); (0x4E7, [0x4E6]);
  (0x4E9, [0x4E8]); (0x4EB, [0x4EA]); (0x4ED, [0x4EC]); (0x4EF, [0x4EE]);
  (0x4F1, [0x4F0]); (0x4F3, [0x4F2]); (0x4F5, [0x4F4]); (0x4F7, [0x4F6]);
  (0x4F9, [0x4F8]); (0x4FB, [0x4FA]); (0x4FD, [0x4FC]); (0x4FF, [0x4FE]);
  (0x501, [0x500]); (0x503, [0x502]); (0x505, [0x504]); (0x507, [0x506]);
  (0x509, [0x508]); (0x50B, [0x50A]); (0x50D, [0x50C]); (0x50F, [0x50E]);
  (0x511, [0x510]); (0x513, [0x512]); (0x515, [0x514]); (0x517, [0x516]);
  (0x519, [0x518]); (0x51B, [0x51A]); (0x51D, [0x51C]); (0x51F, [0x51E]);
  (0x521, [0x520]); (0x523, [0x522]); (0x525, [0x524]); (0x527, [0x526]);
  (0x529, [0x528]); (0x52B, [0x52A]); (0x52D, [0x52C]); (0x52F, [0x52E]) ]%N.

Definition maiusculas_0561 : list (N * list N) :=
  [(0x561, [0x531]); (0x562, [0x532]); (0x563, [0x533]); (0x564, [0x534]);
  (0x565, [0x535]); (0x566, [0x536]); (0x567, [0x537]); (0x568, [0x538]);
  (0x569, [0x539]); (0x56A, [0x53A]); (0x56B, [0x53B]); (0x56C, [0x53C]);
  (0x56D, [0x53D]); (0x56E, [0x53E]); (0x56F, [0x53F]); (0x570, [0x540]);
  (0x571, [0x541]); (0x572, [0x542]); (0x573, [0x543]); (0x574, [0x544]);
  (0x575, [0x545]); (0x576, [0x546]); (0x577, [0x547]); (0x578, [0x548]);
  (0x579, [0x549]); (0x57A, [0x54A]); (0x57B, [0x54B]); (0x57C, [0x54C]);
  (0x57D, [0x54D]); (0x57E, [0x54E]); (0x57F, [0x54F]); (0x580, [0x550]);
  (0x581, [0x551]); (0x582, [0x552]); (0x583, [0x553]); (0x584, [0x554]);
  (0x585, [0x555]); (0x586, [0x556]); (0x587, [0x535; 0x552]) ]%N.

Definition maiusculas_10D0 : list (N * list N) :=
  [(0x10D0, [0x1C90]); (0x10D1, [0x1C91]); (0x10D2, [0x1C92]);
  (0x10D3, [0x1C93]); (0x10D4, [0x1C94]); (0x10D5, [0x1C95]);
  (0x10D6, [0x1C96]); (0x10D7, [0x1C97]); (0x10D8, [0x1C98]);
  (0x10D9, [0x1C99]); (0x10DA, [0x1C9A]); (0x10DB, [0x1C9B]);
  (0x10DC, [0x1C9C]); (0x10DD, [0x1C9D]); (0x10DE, [0x1C9E]);
  (0x10DF, [0x1C9F]); (0x10E0, [0x1CA0]); (0x10E1, [0x1CA1]);
  (0x10E2, [0x1CA2]); (0x10E3, [0x1CA3]); (0x10E4, [0x1CA4]);
  (0x10E5, [0x1CA5]); (0x10E6, [0x1CA6]); (0x10E7, [0x1CA7]);
  (0x10E8, [0x1CA8]); (0x10E9, [0x1CA9]); (0x10EA, [0x1CAA]);
  (0x10EB, [0x1CAB]); (0x10EC, [0x1CAC]); (0x10ED, [0x1CAD]);
  (0x10EE, [0x1CAE]); (0x10EF, [0x1CAF]); (0x10F0, [0x1CB0]);
  (0x10F1, [0x1CB1]); (0x10F2, [0x1CB2]); (0x10F3, [0x1CB3]);
  (0x10F4, [0x1CB4]); (0x10F5, [0x1CB5]); (0x10F6, [0x1CB6]);
  (0x10F7, [0x1CB7]); (0x10F8, [0x1CB8]); (0x10F9, [0x1CB9]);
  (0x10FA, [0x1CBA]); (0x10FD, [0x1CBD]); (0x10FE, [0x1CBE]);
  (0x10FF, [0x1CBF]); (0x13F8, [0x13F0]); (0x13F9, [0x13F1]);
  (0x13FA, [0x13F2]); (0x13FB, [0x13F3]); (0x13FC, [0x13F4]);
  (0x13FD, [0x13F5]); (0x1C80, [0x412]); (0x1C81, [0x414]); (0x1C82, [0x41E]);
  (0x1C83, [0x421]); (0x1C84, [0x422]); (0x1C85, [0x422]); (0x1C86, [0x42A]);
  (0x1C87, [0x462]); (0x1C88, [0xA64A]); (0x1D79, [0xA77D]);
  (0x1D7D, [0x2C63]); (0x1D8E, [0xA7C6]) ]%N.

Definition maiusculas_1E01 : list (N * list N) :=
  [(0x1E01, [0x1E00]); (0x1E03, [0x1E02]); (0x1E05, [0x1E04]);
  (0x1E07, [0x1E06]); (0x1E09, [0x1E08]); (0x1E0B, [0x1E0A]);
  (0x1E0D, [0x1E0C]); (0x1E0F, [0x1E0E]); (0x1E11, [0x1E10]);
  (0x1E13, [0x1E12]); (0x1E15, [0x1E14]); (0x1E17, [0x1E16]);
  (0x1E19, [0x1E18]); (0x1E1B, [0x1E1A]); (0x1E1D, [0x1E1C]);
  (0x1E1F, [0x1E1E]); (0x1E21, [0x1E20]); (0x1E23, [0x1E22]);
  (0x1E25, [0x1E24]); (0x1E27, [0x1E26]); (0x1E29, [0x1E28]);
  (0x1E2B, [0x1E2A]); (0x1E2D, [0x1E2C]); (0x1E2F, [0x1E2E]);
  (0x1E31, [0x1E30]); (0x1E33, [0x1E32]); (0x1E35, [0x1E34]);
  (0x1E37, [0x1E36]); (0x1E39, [0x1E38]); (0x1E3B, [0x1E3A]);
  (0x1E3D, [0x1E3C]); (0x1E3F, [0x1E3E]); (0x1E41, [0x1E40]);
  (0x1E43, [0x1E42]); (0x1E45, [0x1E44]); (0x1E47, [0x1E46]);
  (0x1E49, [0x1E48]); (0x1E4B, [0x1E4A]); (0x1E4D, [0x1E4C]);
  (0x1E4F, [0x1E4E]); (0x1E51, [0x1E50]); (0x1E53, [0x1E52]);
  (0x1E55, [0x1E54]); (0x1E57, [0x1E56]); (0x1E59, [0x1E58]);
  (0x1E5B, [0x1E5A]); (0x1E5D, [0x1E5C]); (0x1E5F, [0x1E5E]);
  (0x1E61, [0x1E60]); (0x1E63, [0x1E62]); (0x1E65, [0x1E64]);
  (0x1E67, [0x1E66]); (0x1E69, [0x1E68]); (0x1E6B, [0x1E6A]);
  (0x1E6D, [0x1E6C]); (0x1E6F, [0x1E6E]); (0x1E71, [0x1E70]);
  (0x1E73, [0x1E72]); (0x1E75, [0x1E74]); (0x1E77, [0x1E76]);
  (0x1E79, [0x1E78]); (0x1E7B, [0x1E7A]); (0x1E7D, [0x1E7C]);
  (0x1E7F, [0x1E7E]); (0x1E81, [0x1E80]); (0x1E83, [0x1E82]);
  (0x1E85, [0x1E84]); (0x1E87, [0x1E86]); (0x1E89, [0x1E88]);
  (0x1E8B, [0x1E8A]); (0x1E8D, [0x1E8C]); (0x1E8F, [0x1E8E]);
  (0x1E91, [0x1E90]); (0x1E93, [0x1E92]); (0x1E95, [0x1E94]);
  (0x1E96, [0x48; 0x331]); (0x1E97, [0x54; 0x308]); (0x1E98, [0x57; 0x30A]);
  (0x1E99, [0x59; 0x30A]); (0x1E9A, [0x41; 0x2BE]); (0x1E9B, [0x1E60]);
  (0x1EA1, [0x1EA0]); (0x1EA3, [0x1EA2]); (0x1EA5, [0x1EA4]);
  (0x1EA7, [0x1EA6]); (0x1EA9, [0x1EA8]); (0x1EAB, [0x1EAA]);
  (0x1EAD, [0x1EAC]); (0x1EAF, [0x1EAE]); (0x1EB1, [0x1EB0]);
  (0x1EB3, [0x1EB2]); (0x1EB5, [0x1EB4]); (0x1EB7, [0x1EB6]);
  (0x1EB9, [0x1EB8]); (0x1EBB, [0x1EBA]); (0x1EBD, [0x1EBC]);
  (0x1EBF, [0x1EBE]); (0x1EC1, [0x1EC0]); (0x1EC3, [0x1EC2]);
  (0x1EC5, [0x1EC4]); (0x1EC7, [0x1EC6]); (0x1EC9, [0x1EC8]);
  (0x1ECB, [0x1ECA]); (0x1ECD, [0x1ECC]); (0x1ECF, [0x1ECE]);
  (0x1ED1, [0x1ED0]); (0x1ED3, [0x1ED2]); (0x1ED5, [0x1ED4]);
  (0x1ED7, [0x1ED6]); (0x1ED9, [0x1ED8]); (0x1EDB, [0x1EDA]);
  (0x1EDD, [0x1EDC]); (0x1EDF, [0x1EDE]); (0x1EE1, [0x1EE0]);
  (0x1EE3, [0x1EE2]); (0x1EE5, [0x1EE4]); (0x1EE7, [0x1EE6]);
  (0x1EE9, [0x1EE8]); (0x1EEB, [0x1EEA]); (0x1EED, [0x1EEC]);
  (0x1EEF, [0x1EEE]); (0x1EF1, [0x1EF0]); (0x1EF3, [0x1EF2]);
  (0x1EF5, [0x1EF4]); (0x1EF7, [0x1EF6]); (0x1EF9, [0x1EF8]);
  (0x1EFB, [0x1EFA]); (0x1EFD, [0x1EFC]); (0x1EFF, [0x1EFE]) ]%N.

Definition maiusculas_1F00 : list (N * list N) :=
  [(0x1F00, [0x1F08]); (0x1F01, [0x1F09]); (0x1F02, [0x1F0A]);
  (0x1F03, [0x1F0B]); (0x1F04, [0x1F0C]); (0x1F05, [0x1F0D]);
  (0x1F06, [0x1F0E]); (0x1F07, [0x1F0F]); (0x1F10, [0x1F18]);
  (0x1F11, [0x1F19]); (0x1F12, [0x1F1A]); (0x1F13, [0x1F1B]);
  (0x1F14, [0x1F1C]); (0x1F15, [0x1F1D]); (0x1F20, [0x1F28]);
  (0x1F21, [0x1F29]); (0x1F22, [0x1F2A]); (0x1F23, [0x1F2B]);
  (0x1F24, [0x1F2C]); (0x1F25, [0x1F2D]); (0x1F26, [0x1F2E]);
  (0x1F27, [0x1F2F]); (0x1F30, [0x1F38]); (0x1F31, [0x1F39]);
  (0x1F32, [0x1F3A]); (0x1F33, [0x1F3B]); (0x1F34, [0x1F3C]);
  (0x1F35, [0x1F3D]); (0x1F36, [0x1F3E]); (0x1F37, [0x1F3F]);
  (0x1F40, [0x1F48]); (0x1F41, [0x1F49]); (0x1F42, [0x1F4A]);
  (0x1F43, [0x1F4B]); (0x1F44, [0x1F4C]); (0x1F45, [0x1F4D]);
  (0x1F50, [0x3A5; 0x313]); (0x1F51, [0x1F59]);
  (0x1F52, [0x3A5; 0x313; 0x300]); (0x1F53, [0x1F5B]);
  (0x1F54, [0x3A5; 0x313; 0x301]); (0x1F55, [0x1F5D]);
  (0x1F56, [0x3A5; 0x313; 0x342]); (0x1F57, [0x1F5F]); (0x1F60, [0x1F68]);
  (0x1F61, [0x1F69]); (0x1F62, [0x1F6A]); (0x1F63, [0x1F6B]);
  (0x1F64, [0x1F6C]); (0x1F65, [0x1F6D]); (0x1F66, [0x1F6E]);
  (0x1F67, [0x1F6F]); (0x1F70, [0x1FBA]); (0x1F71, [0x1FBB]);
  (0x1F72, [0x1FC8]); (0x1F73, [0x1FC9]); (0x1F74, [0x1FCA]);
  (0x1F75, [0x1FCB]); (0x1F76, [0x1FDA]); (0x1F77, [0x1FDB]);
  (0x1F78, [0x1FF8]); (0x1F79, [0x1FF9]); (0x1F7A, [0x1FEA]);
  (0x1F7B, [0x1FEB]); (0x1F7C, [0x1FFA]); (0x1F7D, [0x1FFB]);
  (0x1F80, [0x1F08; 0x399]); (0x1F81, [0x1F09; 0x399]);
  (0x1F82, [0x1F0A; 0x399]); (0x1F83, [0x1F0B; 0x399]);
  (0x1F84, [0x1F0C; 0x399]); (0x1F85, [0x1F0D; 0x399]);
  (0x1F86, [0x1F0E; 0x399]); (0x1F87, [0x1F0F; 0x399]);
  (0x1F88, [0x1F08; 0x399]); (0x1F89, [0x1F09; 0x399]);
  (0x1F8A, [0x1F0A; 0x399]); (0x1F8B, [0x1F0B; 0x399]);
  (0x1F8C, [0x1F0C; 0x399]); (0x1F8D, [0x1F0D; 0x399]);
  (0x1F8E, [0x1F0E; 0x399]); (0x1F8F, [0x1F0F; 0x399]);
  (0x1F90, [0x1F28; 0x399]); (0x1F91, [0x1F29; 0x399]);
  (0x1F92, [0x1F2A; 0x399]); (0x1F93, [0x1F2B; 0x399]);
  (0x1F94, [0x1F2C; 0x399]); (0x1F95, [0x1F2D; 0x399]);
  (0x1F96, [0x1F2E; 0x399]); (0x1F97, [0x1F2F; 0x399]);
  (0x1F98, [0x1F28; 0x399]); (0x1F99, [0x1F29; 0x399]);
  (0x1F9A, [0x1F2A; 0x399]); (0x1F9B, [0x1F2B; 0x399]);
  (0x1F9C, [0x1F2C; 0x399]); (0x1F9D, [0x1F2D; 0x399]);
  (0x1F9E, [0x1F2E; 0x399]); (0x1F9F, [0x1F2F; 0x399]);
  (0x1FA0, [0x1F68; 0x399]); (0x1FA1, [0x1F69; 0x399]);
  (0x1FA2, [0x1F6A; 0x399]); (0x1FA3, [0x1F6B; 0x399]);
  (0x1FA4, [0x1F6C; 0x399]); (0x1FA5, [0x1F6D; 0x399]);
  (0x1FA6, [0x1F6E; 0x399]); (0x1FA7, [0x1F6F; 0x399]);
  (0x1FA8, [0x1F68; 0x399]); (0x1FA9, [0x1F69; 0x399]);
  (0x1FAA, [0x1F6A; 0x399]); (0x1FAB, [0x1F6B; 0x399]);
  (0x1FAC, [0x1F6C; 0x399]); (0x1FAD, [0x1F6D; 0x399]);
  (0x1FAE, [0x1F6E; 0x399]); (0x1FAF, [0x1F6F; 0x399]); (0x1FB0, [0x1FB8]);
  (0x1FB1, [0x1FB9]); (0x1FB2, [0x1FBA; 0x399]); (0x1FB3, [0x391; 0x399]);
  (0x1FB4, [0x386; 0x399]); (0x1FB6, [0x391; 0x342]);
  (0x1FB7, [0x391; 0x342; 0x399]); (0x1FBC, [0x391; 0x399]);
  (0x1FBE, [0x399]); (0x1FC2, [0x1FCA; 0x399]); (0x1FC3, [0x397; 0x399]);
  (0x1FC4, [0x389; 0x399]); (0x1FC6, [0x397; 0x342]);
  (0x1FC7, [0x397; 0x342; 0x399]); (0x1FCC, [0x397; 0x399]);
  (0x1FD0, [0x1FD8]); (0x1FD1, [0x1FD9]); (0x1FD2, [0x399; 0x308; 0x300]);
  (0x1FD3, [0x399; 0x308; 0x301]); (0x1FD6, [0x399; 0x342]);
  (0x1FD7, [0x399; 0x308; 0x342]); (0x1FE0, [0x1FE8]); (0x1FE1, [0x1FE9]);
  (0x1FE2, [0x3A5; 0x308; 0x300]); (0x1FE3, [0x3A5; 0x308; 0x301]);
  (0x1FE4, [0x3A1; 0x313]); (0x1FE5, [0x1FEC]); (0x1FE6, [0x3A5; 0x342]);
  (0x1FE7, [0x3A5; 0x308; 0x342]); (0x1FF2, [0x1FFA; 0x399]);
  (0x1FF3, [0x3A9; 0x399]); (0x1FF4, [0x38F; 0x399]);
  (0x1FF6, [0x3A9; 0x342]); (0x1FF7, [0x3A9; 0x342; 0x399]);
  (0x1FFC, [0x3A9; 0x399]) ]%N.

Definition maiusculas_214E : list (N * list N) :=
  [(0x214E, [0x2132]); (0x2170, [0x2160]); (0x2171, [0x2161]);
  (0x2172, [0x2162]); (0x2173, [0x2163]); (0x2174, [0x2164]);
  (0x2175, [0x2165]); (0x2176, [0x2166]); (0x2177, [0x2167]);
  (0x2178, [0x2168]); (0x2179, [0x2169]); (0x217A, [0x216A]);
  (0x217B, [0x216B]); (0x217C, [0x216C]); (0x217D, [0x216D]);
  (0x217E, [0x216E]); (0x217F, [0x216F]); (0x2184, [0x2183]);
  (0x24D0, [0x24B6]); (0x24D1, [0x24B7]); (0x24D2, [0x24B8]);
  (0x24D3, [0x24B9]); (0x24D4, [0x24BA]); (0x24D5, [0x24BB]);
  (0x24D6, [0x24BC]); (0x24D7, [0x24BD]); (0x24D8, [0x24BE]);
  (0x24D9, [0x24BF]); (0x24DA, [0x24C0]); (0x24DB, [0x24C1]);
  (0x24DC, [0x24C2]); (0x24DD, [0x24C3]); (0x24DE, [0x24C4]);
  (0x24DF, [0x24C5]); (0x24E0, [0x24C6]); (0x24E1, [0x24C7]);
  (0x24E2, [0x24C8]); (0x24E3, [0x24C9]); (0x24E4, [0x24CA]);
  (0x24E5, [0x24CB]); (0x24E6, [0x24CC]); (0x24E7, [0x24CD]);
  (0x24E8, [0x24CE]); (0x24E9, [0x24CF]) ]%N.

Definition maiusculas_2C30 : list (N * list N) :=
  [(0x2C30, [0x2C00]); (0x2C31, [0x2C01]); (0x2C32, [0x2C02]);
  (0x2C33, [0x2C03]); (0x2C34, [0x2C04]); (0x2C35, [0x2C05]);
  (0x2C36, [0x2C06]); (0x2C37, [0x2C07]); (0x2C38, [0x2C08]);
  (0x2C39, [0x2C09]); (0x2C3A, [0x2C0A]); (0x2C3B, [0x2C0B]);
  (0x2C3C, [0x2C0C]); (0x2C3D, [0x2C0D]); (0x2C3E, [0x2C0E]);
  (0x2C3F, [0x2C0F]); (0x2C40, [0x2C10]); (0x2C41, [0x2C11]);
  (0x2C42, [0x2C12]); (0x2C43, [0x2C13]); (0x2C44, [0x2C14]);
  (0x2C45, [0x2C15]); (0x2C46, [0x2C16]); (0x2C47, [0x2C17]);
  (0x2C48, [0x2C18]); (0x2C49, [0x2C19]); (0x2C4A, [0x2C1A]);
  (0x2C4B, [0x2C1B]); (0x2C4C, [0x2C1C]); (0x2C4D, [0x2C1D]);
  (0x2C4E, [0x2C1E]); (0x2C4F, [0x2C1F]); (0x2C50, [0x2C20]);
  (0x2C51, [0x2C21]); (0x2C52, [0x2C22]); (0x2C53, [0x2C23]);
  (0x2C54, [0x2C24]); (0x2C55, [0x2C25]); (0x2C56, [0x2C26]);
  (0x2C57, [0x2C27]); (0x2C58, [0x2C28]); (0x2C59, [0x2C29]);
  (0x2C5A, [0x2C2A]); (0x2C5B, [0x2C2B]); (0x2C5C, [0x2C2C]);
  (0x2C5D, [0x2C2D]); (0x2C5E, [0x2C2E]); (0x2C5F, [0x2C2F]);
  (0x2C61, [0x2C60]); (0x2C65, [0x23A]); (0x2C66, [0x23E]);
  (0x2C68, [0x2C67]); (0x2C6A, [0x2C69]); (0x2C6C, [0x2C6B]);
  (0x2C73, [0x2C72]); (0x2C76, [0x2C75]); (0x2C81, [0x2C80]);
  (0x2C83, [0x2C82]); (0x2C85, [0x2C84]); (0x2C87, [0x2C86]);
  (0x2C89, [0x2C88]); (0x2C8B, [0x2C8A]); (0x2C8D, [0x2C8C]);
  (0x2C8F, [0x2C8E]); (0x2C91, [0x2C90]); (0x2C93, [0x2C92]);
  (0x2C95, [0x2C94]); (0x2C97, [0x2C96]); (0x2C99, [0x2C98]);
  (0x2C9B, [0x2C9A]); (0x2C9D, [0x2C9C]); (0x2C9F, [0x2C9E]);
  (0x2CA1, [0x2CA0]); (0x2CA3, [0x2CA2]); (0x2CA5, [0x2CA4]);
  (0x2CA7, [0x2CA6]); (0x2CA9, [0x2CA8]); (0x2CAB, [0x2CAA]);
  (0x2CAD, [0x2CAC]); (0x2CAF, [0x2CAE]); (0x2CB1, [0x2CB0]);
  (0x2CB3, [0x2CB2]); (0x2CB5, [0x2CB4]); (0x2CB7, [0x2CB6]);
  (0x2CB9, [0x2CB8]); (0x2CBB, [0x2CBA]); (0x2CBD, [0x2CBC]);
  (0x2CBF, [0x2CBE]); (0x2CC1, [0x2CC0]); (0x2CC3, [0x2CC2]);
  (0x2CC5, [0x2CC4]); (0x2CC7, [0x2CC6]); (0x2CC9, [0x2CC8]);
  (0x2CCB, [0x2CCA]); (0x2CCD, [0x2CCC]); (0x2CCF, [0x2CCE]);
  (0x2CD1, [0x2CD0]); (0x2CD3, [0x2CD2]); (0x2CD5, [0x2CD4]);
  (0x2CD7, [0x2CD6]); (0x2CD9, [0x2CD8]); (0x2CDB, [0x2CDA]);
  (0x2CDD, [0x2CDC]); (0x2CDF, [0x2CDE]); (0x2CE1, [0x2CE0]);
  (0x2CE3, [0x2CE2]); (0x2CEC, [0x2CEB]); (0x2CEE, [0x2CED]);
  (0x2CF3, [0x2CF2]); (0x2D00, [0x10A0]); (0x2D01, [0x10A1]);
  (0x2D02, [0x10A2]); (0x2D03, [0x10A3]); (0x2D04, [0x10A4]);
  (0x2D05, [0x10A5]); (0x2D06, [0x10A6]); (0x2D07, [0x10A7]);
  (0x2D08, [0x10A8]); (0x2D09, [0x10A9]); (0x2D0A, [0x10AA]);
  (0x2D0B, [0x10AB]); (0x2D0C, [0x10AC]); (0x2D0D, [0x10AD]);
  (0x2D0E, [0x10AE]); (0x2D0F, [0x10AF]); (0x2D10, [0x10B0]);
  (0x2D11, [0x10B1]); (0x2D12, [0x10B2]); (0x2D13, [0x10B3]);
  (0x2D14, [0x10B4]); (0x2D15, [0x10B5]); (0x2D16, [0x10B6]);
  (0x2D17, [0x10B7]); (0x2D18, [0x10B8]); (0x2D19, [0x10B9]);
  (0x2D1A, [0x10BA]); (0x2D1B, [0x10BB]); (0x2D1C, [0x10BC]);
  (0x2D1D, [0x10BD]); (0x2D1E, [0x10BE]); (0x2D1F, [0x10BF]);
  (0x2D20, [0x10C0]); (0x2D21, [0x10C1]); (0x2D22, [0x10C2]);
  (0x2D23, [0x10C3]); (0x2D24, [0x10C4]); (0x2D25, [0x10C5]);
  (0x2D27, [0x10C7]); (0x2D2D, [0x10CD]) ]%N.

Definition maiusculas_A641 : list (N * list N) :=
  [(0xA641, [0xA640]); (0xA643, [0xA642]); (0xA645, [0xA644]);
  (0xA647, [0xA646]); (0xA649, [0xA648]); (0xA64B, [0xA64A]);
  (0xA64D, [0xA64C]); (0xA64F, [0xA64E]); (0xA651, [0xA650]);
  (0xA653, [0xA652]); (0xA655, [0xA654]); (0xA657, [0xA656]);
  (0xA659, [0xA658]); (0xA65B, [0xA65A]); (0xA65D, [0xA65C]);
  (0xA65F, [0xA65E]); (0xA661, [0xA660]); (0xA663, [0xA662]);
  (0xA665, [0xA664]); (0xA667, [0xA666]); (0xA669, [0xA668]);
  (0xA66B, [0xA66A]); (0xA66D, [0xA66C]); (0xA681, [0xA680]);
  (0xA683, [0xA682]); (0xA685, [0xA684]); (0xA687, [0xA686]);
  (0xA689, [0xA688]); (0xA68B, [0xA68A]); (0xA68D, [0xA68C]);
  (0xA68F, [0xA68E]); (0xA691, [0xA690]); (0xA693, [0xA692]);
  (0xA695, [0xA694]); (0xA697, [0xA696]); (0xA699, [0xA698]);
  (0xA69B, [0xA69A]); (0xA723, [0xA722]); (0xA725, [0xA724]);
  (0xA727, [0xA726]); (0xA729, [0xA728]); (0xA72B, [0xA72A]);
  (0xA72D, [0xA72C]); (0xA72F, [0xA72E]); (0xA733, [0xA732]);
  (0xA735, [0xA734]); (0xA737, [0xA736]); (0xA739, [0xA738]);
  (0xA73B, [0xA73A]); (0xA73D, [0xA73C]); (0xA73F, [0xA73E]);
  (0xA741, [0xA740]); (0xA743, [0xA742]); (0xA745, [0xA744]);
  (0xA747, [0xA746]); (0xA749, [0xA748]); (0xA74B, [0xA74A]);
  (0xA74D, [0xA74C]); (0xA74F, [0xA74E]); (0xA751, [0xA750]);
  (0xA753, [0xA752]); (0xA755, [0xA754]); (0xA757, [0xA756]);
  (0xA759, [0xA758]); (0xA75B, [0xA75A]); (0xA75D, [0xA75C]);
  (0xA75F, [0xA75E]); (0xA761, [0xA760]); (0xA763, [0xA762]);
  (0xA765, [0xA764]); (0xA767, [0xA766]); (0xA769, [0xA768]);
  (0xA76B, [0xA76A]); (0xA76D, [0xA76C]); (0xA76F, [0xA76E]);
  (0xA77A, [0xA779]); (0xA77C, [0xA77B]); (0xA77F, [0xA77E]);
  (0xA781, [0xA780]); (0xA783, [0xA782]); (0xA785, [0xA784]);
  (0xA787, [0xA786]); (0xA78C, [0xA78B]); (0xA791, [0xA790]);
  (0xA793, [0xA792]); (0xA794, [0xA7C4]); (0xA797, [0xA796]);
  (0xA799, [0xA798]); (0xA79B, [0xA79A]); (0xA79D, [0xA79C]);
  (0xA79F, [0xA79E]); (0xA7A1, [0xA7A0]); (0xA7A3, [0xA7A2]);
  (0xA7A5, [0xA7A4]); (0xA7A7, [0xA7A6]); (0xA7A9, [0xA7A8]);
  (0xA7B5, [0xA7B4]); (0xA7B7, [0xA7B6]); (0xA7B9, [0xA7B8]);
  (0xA7BB, [0xA7BA]); (0xA7BD, [0xA7BC]); (0xA7BF, [0xA7BE]);
  (0xA7C1, [0xA7C0]); (0xA7C3, [0xA7C2]); (0xA7C8, [0xA7C7]);
  (0xA7CA, [0xA7C9]); (0xA7D1, [0xA7D0]); (0xA7D7, [0xA7D6]);
  (0xA7D9, [0xA7D8]); (0xA7F6, [0xA7F5]) ]%N.

Definition maiusculas_AB53 : list (N * list N) :=
  [(0xAB53, [0xA7B3]); (0xAB70, [0x13A0]); (0xAB71, [0x13A1]);
  (0xAB72, [0x13A2]); (0xAB73, [0x13A3]); (0xAB74, [0x13A4]);
  (0xAB75, [0x13A5]); (0xAB76, [0x13A6]); (0xAB77, [0x13A7]);
  (0xAB78, [0x13A8]); (0xAB79, [0x13A9]); (0xAB7A, [0x13AA]);
  (0xAB7B, [0x13AB]); (0xAB7C, [0x13AC]); (0xAB7D, [0x13AD]);
  (0xAB7E, [0x13AE]); (0xAB7F, [0x13AF]); (0xAB80, [0x13B0]);
  (0xAB81, [0x13B1]); (0xAB82, [0x13B2]); (0xAB83, [0x13B3]);
  (0xAB84, [0x13B4]); (0xAB85, [0x13B5]); (0xAB86, [0x13B6]);
  (0xAB87, [0x13B7]); (0xAB88, [0x13B8]); (0xAB89, [0x13B9]);
  (0xAB8A, [0x13BA]); (0xAB8B, [0x13BB]); (0xAB8C, [0x13BC]);
  (0xAB8D, [0x13BD]); (0xAB8E, [0x13BE]); (0xAB8F, [0x13BF]);
  (0xAB90, [0x13C0]); (0xAB91, [0x13C1]); (0xAB92, [0x13C2]);
  (0xAB93, [0x13C3]); (0xAB94, [0x13C4]); (0xAB95, [0x13C5]);
  (0xAB96, [0x13C6]); (0xAB97, [0x13C7]); (0xAB98, [0x13C8]);
  (0xAB99, [0x13C9]); (0xAB9A, [0x13CA]); (0xAB9B, [0x13CB]);
  (0xAB9C, [0x13CC]); (0xAB9D, [0x13CD]); (0xAB9E, [0x13CE]);
  (0xAB9F, [0x13CF]); (0xABA0, [0x13D0]); (0xABA1, [0x13D1]);
  (0xABA2, [0x13D2]); (0xABA3, [0x13D3]); (0xABA4, [0x13D4]);
  (0xABA5, [0x13D5]); (0xABA6, [0x13D6]); (0xABA7, [0x13D7]);
  (0xABA8, [0x13D8]); (0xABA9, [0x13D9]); (0xABAA, [0x13DA]);
  (0xABAB, [0x13DB]); (0xABAC, [0x13DC]); (0xABAD, [0x13DD]);
  (0xABAE, [0x13DE]); (0xABAF, [0x13DF]); (0xABB0, [0x13E0]);
  (0xABB1, [0x13E1]); (0xABB2, [0x13E2]); (0xABB3, [0x13E3]);
  (0xABB4, [0x13E4]); (0xABB5, [0x13E5]); (0xABB6, [0x13E6]);
  (0xABB7, [0x13E7]); (0xABB8, [0x13E8]); (0xABB9, [0x13E9]);
  (0xABBA, [0x13EA]); (0xABBB, [0x13EB]); (0xABBC, [0x13EC]);
  (0xABBD, [0x13ED]); (0xABBE, [0x13EE]); (0xABBF, [0x13EF]) ]%N.

Definition maiusculas_FB00 : list (N * list N) :=
  [(0xFB00, [0x46; 0x46]); (0xFB01, [0x46; 0x49]); (0xFB02, [0x46; 0x4C]);
  (0xFB03, [0x46; 0x46; 0x49]); (0xFB04, [0x46; 0x46; 0x4C]);
  (0xFB05, [0x53; 0x54]); (0xFB06, [0x53; 0x54]); (0xFB13, [0x544; 0x546]);
  (0xFB14, [0x544; 0x535]); (0xFB15, [0x544; 0x53B]);
  (0xFB16, [0x54E; 0x546]); (0xFB17, [0x544; 0x53D]); (0xFF41, [0xFF21]);
  (0xFF42, [0xFF22]); (0xFF43, [0xFF23]); (0xFF44, [0xFF24]);
  (0xFF45, [0xFF25]); (0xFF46, [0xFF26]); (0xFF47, [0xFF27]);
  (0xFF48, [0xFF28]); (0xFF49, [0xFF29]); (0xFF4A, [0xFF2A]);
  (0xFF4B, [0xFF2B]); (0xFF4C, [0xFF2C]); (0xFF4D, [0xFF2D]);
  (0xFF4E, [0xFF2E]); (0xFF4F, [0xFF2F]); (0xFF50, [0xFF30]);
  (0xFF51, [0xFF31]); (0xFF52, [0xFF32]); (0xFF53, [0xFF33]);
  (0xFF54, [0xFF34]); (0xFF55, [0xFF35]); (0xFF56, [0xFF36]);
  (0xFF57, [0xFF37]); (0xFF58, [0xFF38]); (0xFF59, [0xFF39]);
  (0xFF5A, [0xFF3A]) ]%N.

Definition maiusculas_10428 : list (N * list N) :=
  [(0x10428, [0x10400]); (0x10429, [0x10401]); (0x1042A, [0x10402]);
  (0x1042B, [0x10403]); (0x1042C, [0x10404]); (0x1042D, [0x10405]);
  (0x1042E, [0x10406]); (0x1042F, [0x10407]); (0x10430, [0x10408]);
  (0x10431, [0x10409]); (0x10432, [0x1040A]); (0x10433, [0x1040B]);
  (0x10434, [0x1040C]); (0x10435, [0x1040D]); (0x10436, [0x1040E]);
  (0x10437, [0x1040F]); (0x10438, [0x10410]); (0x10439, [0x10411]);
  (0x1043A, [0x10412]); (0x1043B, [0x10413]); (0x1043C, [0x10414]);
  (0x1043D, [0x10415]); (0x1043E, [0x10416]); (0x1043F, [0x10417]);
  (0x10440, [0x10418]); (0x10441, [0x10419]); (0x10442, [0x1041A]);
  (0x10443, [0x1041B]); (0x10444, [0x1041C]); (0x10445, [0x1041D]);
  (0x10446, [0x1041E]); (0x10447, [0x1041F]); (0x10448, [0x10420]);
  (0x10449, [0x10421]); (0x1044A, [0x10422]); (0x1044B, [0x10423]);
  (0x1044C, [0x10424]); (0x1044D, [0x10425]); (0x1044E, [0x10426]);
  (0x1044F, [0x10427]); (0x104D8, [0x104B0]); (0x104D9, [0x104B1]);
  (0x104DA, [0x104B2]); (0x104DB, [0x104B3]); (0x104DC, [0x104B4]);
  (0x104DD, [0x104B5]); (0x104DE, [0x104B6]); (0x104DF, [0x104B7]);
  (0x104E0, [0x104B8]); (0x104E1, [0x104B9]); (0x104E2, [0x104BA]);
  (0x104E3, [0x104BB]); (0x104E4, [0x104BC]); (0x104E5, [0x104BD]);
  (0x104E6, [0x104BE]); (0x104E7, [0x104BF]); (0x104E8, [0x104C0]);
  (0x104E9, [0x104C1]); (0x104EA, [0x104C2]); (0x104EB, [0x104C3]);
  (0x104EC, [0x104C4]); (0x104ED, [0x104C5]); (0x104EE, [0x104C6]);
  (0x104EF, [0x104C7]); (0x104F0, [0x104C8]); (0x104F1, [0x104C9]);
  (0x104F2, [0x104CA]); (0x104F3, [0x104CB]); (0x104F4, [0x104CC]);
  (0x104F5, [0x104CD]); (0x104F6, [0x104CE]); (0x104F7, [0x104CF]);
  (0x104F8, [0x104D0]); (0x104F9, [0x104D1]); (0x104FA, [0x104D2]);
  (0x104FB, [0x104D3]); (0x10597, [0x10570]); (0x10598, [0x10571]);
  (0x10599, [0x10572]); (0x1059A, [0x10573]); (0x1059B, [0x10574]);
  (0x1059C, [0x10575]); (0x1059D, [0x10576]); (0x1059E, [0x10577]);
  (0x1059F, [0x10578]); (0x105A0, [0x10579]); (0x105A1, [0x1057A]);
  (0x105A3, [0x1057C]); (0x105A4, [0x1057D]); (0x105A5, [0x1057E]);
  (0x105A6, [0x1057F]); (0x105A7, [0x10580]); (0x105A8, [0x10581]);
  (0x105A9, [0x10582]); (0x105AA, [0x10583]); (0x105AB, [0x10584]);
  (0x105AC, [0x10585]); (0x105AD, [0x10586]); (0x105AE, [0x10587]);
  (0x105AF, [0x10588]); (0x105B0, [0x10589]); (0x105B1, [0x1058A]);
  (0x105B3, [0x1058C]); (0x105B4, [0x1058D]); (0x105B5, [0x1058E]);
  (0x105B6, [0x1058F]); (0x105B7, [0x10590]); (0x105B8, [0x10591]);
  (0x105B9, [0x10592]); (0x105BB, [0x10594]); (0x105BC, [0x10595]) ]%N.

Definition maiusculas_10CC0 : list (N * list N) :=
  [(0x10CC0, [0x10C80]); (0x10CC1, [0x10C81]); (0x10CC2, [0x10C82]);
  (0x10CC3, [0x10C83]); (0x10CC4, [0x10C84]); (0x10CC5, [0x10C85]);
  (0x10CC6, [0x10C86]); (0x10CC7, [0x10C87]); (0x10CC8, [0x10C88]);
  (0x10CC9, [0x10C89]); (0x10CCA, [0x10C8A]); (0x10CCB, [0x10C8B]);
  (0x10CCC, [0x10C8C]); (0x10CCD, [0x10C8D]); (0x10CCE, [0x10C8E]);
  (0x10CCF, [0x10C8F]); (0x10CD0, [0x10C90]); (0x10CD1, [0x10C91]);
  (0x10CD2, [0x10C92]); (0x10CD3, [0x10C93]); (0x10CD4, [0x10C94]);
  (0x10CD5, [0x10C95]); (0x10CD6, [0x10C96]); (0x10CD7, [0x10C97]);
  (0x10CD8, [0x10C98]); (0x10CD9, [0x10C99]); (0x10CDA, [0x10C9A]);
  (0x10CDB, [0x10C9B]); (0x10CDC, [0x10C9C]); (0x10CDD, [0x10C9D]);
  (0x10CDE, [0x10C9E]); (0x10CDF, [0x10C9F]); (0x10CE0, [0x10CA0]);
  (0x10CE1, [0x10CA1]); (0x10CE2, [0x10CA2]); (0x10CE3, [0x10CA3]);
  (0x10CE4, [0x10CA4]); (0x10CE5, [0x10CA5]); (0x10CE6, [0x10CA6]);
  (0x10CE7, [0x10CA7]); (0x10CE8, [0x10CA8]); (0x10CE9, [0x10CA9]);
  (0x10CEA, [0x10CAA]); (0x10CEB, [0x10CAB]); (0x10CEC, [0x10CAC]);
  (0x10CED, [0x10CAD]); (0x10CEE, [0x10CAE]); (0x10CEF, [0x10CAF]);
  (0x10CF0, [0x10CB0]); (0x10CF1, [0x10CB1]); (0x10CF2, [0x10CB2]);
  (0x118C0, [0x118A0]); (0x118C1, [0x118A1]); (0x118C2, [0x118A2]);
  (0x118C3, [0x118A3]); (0x118C4, [0x118A4]); (0x118C5, [0x118A5]);
  (0x118C6, [0x118A6]); (0x118C7, [0x118A7]); (0x118C8, [0x118A8]);
  (0x118C9, [0x118A9]); (0x118CA, [0x118AA]); (0x118CB, [0x118AB]);
  (0x118CC, [0x118AC]); (0x118CD, [0x118AD]); (0x118CE, [0x118AE]);
  (0x118CF, [0x118AF]); (0x118D0, [0x118B0]); (0x118D1, [0x118B1]);
  (0x118D2, [0x118B2]); (0x118D3, [0x118B3]); (0x118D4, [0x118B4]);
  (0x118D5, [0x118B5]); (0x118D6, [0x118B6]); (0x118D7, [0x118B7]);
  (0x118D8, [0x118B8]); (0x118D9, [0x118B9]); (0x118DA, [0x118BA]);
  (0x118DB, [0x118BB]); (0x118DC, [0x118BC]); (0x118DD, [0x118BD]);
  (0x118DE, [0x118BE]); (0x118DF, [0x118BF]); (0x16E60, [0x16E40]);
  (0x16E61, [0x16E41]); (0x16E62, [0x16E42]); (0x16E63, [0x16E43]);
  (0x16E64, [0x16E44]); (0x16E65, [0x16E45]); (0x16E66, [0x16E46]);
  (0x16E67, [0x16E47]); (0x16E68, [0x16E48]); (0x16E69, [0x16E49]);
  (0x16E6A, [0x16E4A]); (0x16E6B, [0x16E4B]); (0x16E6C, [0x16E4C]);
  (0x16E6D, [0x16E4D]); (0x16E6E, [0x16E4E]); (0x16E6F, [0x16E4F]);
  (0x16E70, [0x16E50]); (0x16E71, [0x16E51]); (0x16E72, [0x16E52]);
  (0x16E73, [0x16E53]); (0x16E74, [0x16E54]); (0x16E75, [0x16E55]);
  (0x16E76, [0x16E56]); (0x16E77, [0x16E57]); (0x16E78, [0x16E58]);
  (0x16E79, [0x16E59]); (0x16E7A, [0x16E5A]); (0x16E7B, [0x16E5B]);
  (0x16E7C, [0x16E5C]); (0x16E7D, [0x16E5D]); (0x16E7E, [0x16E5E]);
  (0x16E7F, [0x16E5F]) ]%N.

Definition maiusculas_1E922 : list (N * list N) :=
  [(0x1E922, [0x1E900]); (0x1E923, [0x1E901]); (0x1E924, [0x1E902]);
  (0x1E925, [0x1E903]); (0x1E926, [0x1E904]); (0x1E927, [0x1E905]);
  (0x1E928, [0x1E906]); (0x1E929, [0x1E907]); (0x1E92A, [0x1E908]);
  (0x1E92B, [0x1E909]); (0x1E92C, [0x1E90A]); (0x1E92D, [0x1E90B]);
  (0x1E92E, [0x1E90C]); (0x1E92F, [0x1E90D]); (0x1E930, [0x1E90E]);
  (0x1E931, [0x1E90F]); (0x1E932, [0x1E910]); (0x1E933, [0x1E911]);
  (0x1E934, [0x1E912]); (0x1E935, [0x1E913]); (0x1E936, [0x1E914]);
  (0x1E937, [0x1E915]); (0x1E938, [0x1E916]); (0x1E939, [0x1E917]);
  (0x1E93A, [0x1E918]); (0x1E93B, [0x1E919]); (0x1E93C, [0x1E91A]);
  (0x1E93D, [0x1E91B]); (0x1E93E, [0x1E91C]); (0x1E93F, [0x1E91D]);
  (0x1E940, [0x1E91E]); (0x1E941, [0x1E91F]); (0x1E942, [0x1E920]);
  (0x1E943, [0x1E921]) ]%N.

Definition maiusculas : list (N * list N) :=
  maiusculas_0061
  ++ maiusculas_0101
  ++ maiusculas_0250
  ++ maiusculas_0371
  ++ maiusculas_0430
  ++ maiusculas_0561
  ++ maiusculas_10D0
  ++ maiusculas_1E01
  ++ maiusculas_1F00
  ++ maiusculas_214E
  ++ maiusculas_2C30
  ++ maiusculas_A641
  ++ maiusculas_AB53
  ++ maiusculas_FB00
  ++ maiusculas_10428
  ++ maiusculas_10CC0
  ++ maiusculas_1E922.

Fixpoint procura (n : N) (tabela : list (N * list N)) : option (list N) :=
  match tabela with
  | [] => None
  | (k, v) :: r => if (n =? k)%N then Some v else procura n r
  end.

(** The upper-case mapping of the character [c], when [str.upper]
    changes it. *)
Definition mapa_maiusculo (c : string) : option (list N) :=
  if codificado c then procura (ponto c) maiusculas else None.

(** The characters of [c.upper()] for a character [c]. *)
Definition upper_char (c : string) : list string :=
  match mapa_maiusculo c with
  | Some v => map utf8 v
  | None => [c]
  end.

Definition upper (s : string) : string := junta (flat_map upper_char (caracteres s)).

#[global] Arguments strip : simpl never.
#[global] Arguments upper : simpl never.
#[global] Arguments py_isspace : simpl never.
#[global] Arguments upper_char : simpl never.

(** [s.split(sep)] for a one-character separator: one more piece than
    there are separators. *)
Fixpoint split_on (sep : ascii) (s : string) : list string :=
  match s with
  | EmptyString => [EmptyString]
  | String c r =>
      if Ascii.eqb c sep then EmptyString :: split_on sep r
      else match split_on sep r with
           | h :: t => String c h :: t
           | [] => [String c EmptyString]
           end
  end.

Fixpoint string_forallb (p : ascii -> bool) (s : string) : bool :=
  match s with
  | EmptyString => true
  | String c r => p c && string_forallb p r
  end.

(** ** Validation and sanitisation *)

(** The character class [[A-Z0-9\.\-]]. *)
Definition classe_ticker (c : ascii) : bool :=
  let n := nat_of_ascii c in
  ((65 <=? n)%nat && (n <=? 90)%nat) || ((48 <=? n)%nat && (n <=? 57)%nat)
  || (n =? 46)%nat || (n =? 45)%nat.

(** The text without one final line feed, when it ends in one. *)
Fixpoint sem_lf_final (s : string) : string :=
  match s with
  | EmptyString => EmptyString
  | String c EmptyString => if Ascii.eqb c "010" then EmptyString else s
  | String c r => String c (sem_lf_final r)
  end.

(** [re.compile(r'^[A-Z0-9\.\-]+$').match(s)]: a non-empty run of the class
    up to the end of the text, where [$] also matches before a final line
    feed. *)
Definition padrao_match (s : string) : bool :=
  let corpo := sem_lf_final s in
  negb (String.eqb corpo "") && string_forallb classe_ticker corpo.

Definition validar_ticker (ticker : string) : bool :=
  if String.eqb ticker "" then false
  else padrao_match (upper (strip ticker)).

(** The two warnings [sanitizar_tickers] shows. *)
Inductive aviso : Type :=
| AvisoInvalidos (removidos : gset string)
| AvisoLimite (excedentes : nat).

Definition tickers_brutos (ticker_input : string) : list string :=
  map (fun t => upper (strip t))
      (List.filter (fun t => negb (String.eqb (strip t) ""))
                   (split_on "," ticker_input)).

Definition sanitizar_tickers (ticker_input : string) : list string * list aviso :=
  if String.eqb ticker_input "" then ([], [])
  else
    let brutos := tickers_brutos ticker_input in
    let validos := List.filter validar_ticker brutos in
    let avisos1 :=
      if (length validos <? length brutos)%nat
      then [AvisoInvalidos (list_to_set brutos ∖ list_to_set validos)]
      else [] in
    if (MAX_TICKERS_PERMITIDOS <? length validos)%nat
    then (firstn MAX_TICKERS_PERMITIDOS validos,
          avisos1 ++ [AvisoLimite (length validos - MAX_TICKERS_PERMITIDOS)])
    else (validos, avisos1).

(** ** Valuation formulas *)

Definition calcular_preco_teto_bazin (media_dpa taxa_retorno : float) : float :=
  if (0 <? media_dpa)%float && (0 <? taxa_retorno)%float
  then (media_dpa / taxa_retorno)%float
  else 0%float.

Definition calcular_margem_seguranca (preco_teto preco_atual : float) : float :=
  if (0 <? preco_atual)%float && (0 <? preco_teto)%float
  then (((preco_teto / preco_atual) - 1) * 100)%float
  else (-100)%float.

(** [x > 0] on a provider value; comparing text with a number raises. *)
Definition py_gt0 (v : pyval) : outcome bool :=
  match v with
  | PyNum x => Ok (0 <? x)%float
  | PyNone => Raise "TypeError"
  | PyStr _ => Raise "TypeError"
  end.

Definition py_num (v : pyval) : outcome float :=
  match v with
  | PyNum x => Ok x
  | _ => Raise "TypeError"
  end.

(** [lpa and vpa and lpa > 0 and vpa > 0] short-circuits left to right. *)
Definition calcular_preco_graham (lpa vpa : pyval) : outcome float :=
  if negb (truthy lpa) then Ok 0%float
  else if negb (truthy vpa) then Ok 0%float
  else
    l_pos <-! py_gt0 lpa;
    if negb l_pos then Ok 0%float
    else
      v_pos <-! py_gt0 vpa;
      if negb v_pos then Ok 0%float
      else
        l <-! py_num lpa;
        v <-! py_num vpa;
        Ok (sqrt (MULTIPLICADOR_GRAHAM * l * v))%float.

(** ** Library operations

    What the module calls in numpy, pandas and the Python runtime and does
    not define itself.  Nothing is assumed about these operations beyond
    their types; where a result needs a property of one of them, the
    property is a hypothesis of that result. *)
Class Runtime : Type := {
  (** [x ** y] on numpy [float64] scalars. *)
  np_power : float -> float -> float;
  (** [round(x, 2)] on a numpy [float64]. *)
  np_round2 : float -> float;
  (** [round(x, 2)] on a Python [float]. *)
  py_round2 : float -> float;
  (** [float(s)] on text; [None] when it raises [ValueError]. *)
  py_float_of_str : string -> option float;
  (** [.year] and [.month] of an instant, in its index's time zone. *)
  dt_year : Z -> Z;
  dt_month : Z -> Z;
  (** [df.sort_values(col, ascending=False)] on a float column, with the
      default [kind] (quicksort). *)
  sort_values_desc : forall A : Type, (A -> float) -> list A -> list A;
  (** [hist.groupby(['Month', year])['Close'].mean().unstack().mean(axis=1)
      .nsmallest(3).index.sort_values()]: the three cheapest months. *)
  pd_meses_baratos : list (Z * float) -> outcome (list Z)
}.

(** The contract pandas documents for [sort_values]: the rows are
    rearranged, by non-increasing key, missing keys (NaN) last.  The
    default [kind] promises nothing about rows with equal keys. *)
Definition desc_nan_last (x y : float) : bool :=
  is_nan y || (y <=? x)%float.

Definition contrato_sort_values
    (sort : forall A : Type, (A -> float) -> list A -> list A) : Prop :=
  forall (A : Type) (key : A -> float) (l : list A),
    Permutation (sort A key l) l /\
    StronglySorted (fun a b => desc_nan_last (key a) (key b) = true) (sort A key l).

(** [int] to [float]. *)
Definition float_of_nat (n : nat) : float :=
  of_uint63 (Uint63.of_Z (Z.of_nat n)).

(** ** Provider access

    Every read of a [yf.Ticker] attribute is recorded, so that a result
    can say which statements a function asked the provider for. *)
Inductive acesso : Type :=
| AcInfo | AcBalanceSheet | AcFinancials | AcCashflow | AcDividends | AcHistory.

Definition io (A : Type) : Type := list acesso * outcome A.

Definition ret {A : Type} (a : A) : io A := ([], Ok a).

Definition bind_io {A B : Type} (m : io A) (k : A -> io B) : io B :=
  match m with
  | (t, Ok a) => let '(t', r) := k a in (t ++ t', r)
  | (t, Raise e) => (t, Raise e)
  end.

Notation "x <- m ;; k" := (bind_io m (fun x => k))
  (at level 100, m at next level, right associativity).

(** A pure expression that may raise, inside the provider monad. *)
Definition lift {A : Type} (r : outcome A) : io A := ([], r).

(** Reading attribute [a], whose value (or exception) is [r]. *)
Definition fetch {A : Type} (a : acesso) (r : outcome A) : io A := ([a], r).

(** [try: m except Exception as e: h e]. *)
Definition try_io {A : Type} (m : io A) (h : string -> io A) : io A :=
  match m with
  | (t, Ok a) => (t, Ok a)
  | (t, Raise e) => let '(t', r) := h e in (t ++ t', r)
  end.

Definition trace {A : Type} (m : io A) : list acesso := fst m.
Definition result {A : Type} (m : io A) : outcome A := snd m.

(** A financial statement: the period-end instants that label its
    columns, and one row of values per line item. *)
Record DataFrame : Type := {
  df_columns : list Z;
  df_index : gmap string (list float)
}.

Definition df_empty (df : DataFrame) : bool :=
  match df_columns df with
  | [] => true
  | _ => bool_decide (df_index df = ∅)
  end.

(** [next((k for k in chaves if k in df.index), None)]. *)
Definition primeira_chave (df : DataFrame) (chaves : list string) : option string :=
  List.find (fun k => bool_decide (is_Some (df_index df !! k))) chaves.

(** [df.loc[k].iloc[0]]. *)
Definition loc_iloc0 (df : DataFrame) (k : string) : outcome float :=
  match df_index df !! k with
  | Some (x :: _) => Ok x
  | Some [] => Raise "IndexError"
  | None => Raise "KeyError"
  end.

(** What [yf.Ticker(symbol)] answers: each attribute is a value or an
    exception. *)
Record Ticker : Type := {
  info : outcome (gmap string pyval);
  balance_sheet : outcome (option DataFrame);
  financials : outcome (option DataFrame);
  cashflow : outcome (option DataFrame);
  dividends : outcome (list (Z * float));
  history : nat -> outcome (list (Z * float))
}.

Definition Gateway : Type := string -> Ticker.

(** [datetime.now(fuso_horario)]: the instant, and its calendar year. *)
Record Relogio : Type := {
  agora : Z;
  ano_corrente : Z
}.

(** [float(v)]. *)
Definition py_float `{Runtime} (v : pyval) : outcome float :=
  match v with
  | PyNum x => Ok x
  | PyStr s => match py_float_of_str s with
               | Some x => Ok x
               | None => Raise "ValueError"
               end
  | PyNone => Raise "TypeError"
  end.

Definition opt_pyval (o : option float) : pyval :=
  match o with
  | Some x => PyNum x
  | None => PyNone
  end.

(** ** Fundamental indicators *)

Definition chaves_divida : list string :=
  ["Total Debt"; "Long Term Debt"; "Short Long Term Debt"].
Definition chaves_pl : list string :=
  ["Stockholders Equity"; "Total Stockholder Equity"; "Common Stock Equity"].
Definition chaves_ebit : list string := ["EBIT"; "Operating Income"].
Definition chaves_da : list string :=
  ["Depreciation And Amortization"; "Depreciation"; "Reconciled Depreciation"].

Definition nao_vazio (o : option DataFrame) : option DataFrame :=
  match o with
  | Some df => if df_empty df then None else Some df
  | None => None
  end.

(** The balance-sheet fallback for debt to equity. *)
Definition fallback_divida_pl (tk : Ticker) : io (option float) :=
  try_io
    (bs <- fetch AcBalanceSheet (balance_sheet tk) ;;
     match nao_vazio bs with
     | Some bs =>
         match primeira_chave bs chaves_divida, primeira_chave bs chaves_pl with
         | Some chave_divida, Some chave_pl =>
             divida_valor <- lift (loc_iloc0 bs chave_divida) ;;
             pl_valor <- lift (loc_iloc0 bs chave_pl) ;;
             if negb (pl_valor =? 0)%float
             then ret (Some (divida_valor / pl_valor)%float)
             else ret None
         | _, _ => ret None
         end
     | None => ret None
     end)
    (fun _ => ret None).

(** The three-statement fallback for debt to EBITDA. *)
Definition fallback_divida_ebitda (tk : Ticker) : io pyval :=
  try_io
    (bs <- fetch AcBalanceSheet (balance_sheet tk) ;;
     fin <- fetch AcFinancials (financials tk) ;;
     cf <- fetch AcCashflow (cashflow tk) ;;
     match nao_vazio bs, nao_vazio fin, nao_vazio cf with
     | Some bs, Some fin, Some cf =>
         match primeira_chave bs chaves_divida,
               primeira_chave fin chaves_ebit,
               primeira_chave cf chaves_da with
         | Some chave_divida, Some chave_ebit, Some chave_da =>
             divida_valor <- lift (loc_iloc0 bs chave_divida) ;;
             ebit_valor <- lift (loc_iloc0 fin chave_ebit) ;;
             da_valor <- lift (loc_iloc0 cf chave_da) ;;
             let ebitda_valor := (ebit_valor + abs da_valor)%float in
             if negb (ebitda_valor =? 0)%float
             then ret (PyNum (divida_valor / ebitda_valor)%float)
             else ret PyNone
         | _, _, _ => ret PyNone
         end
     | _, _, _ => ret PyNone
     end)
    (fun _ => ret PyNone).

(** [float(info.get('debtToEquity')) / 100] when the field is not [None];
    [None] when it is, or when the conversion raises. *)
Definition divida_pl_do_info `{Runtime} (info : gmap string pyval) : option float :=
  match dict_get info "debtToEquity" with
  | PyNone => None
  | v => try_except (x <-! py_float v; Ok (Some (x / 100)%float)) (fun _ => None)
  end.

Definition obter_dados_fundamentalistas `{Runtime}
    (gw : Gateway) (ticker_symbol : string) : io (gmap string pyval) :=
  let ticker := gw ticker_symbol in
  try_io
    (info <- fetch AcInfo (info ticker) ;;
     let divida_pl := divida_pl_do_info info in
     divida_pl <-
       match divida_pl with
       | None => fallback_divida_pl ticker
       | Some x => ret (Some x)
       end ;;
     divida_ebitda <-
       match dict_get info "debtToEbitda" with
       | PyNone => fallback_divida_ebitda ticker
       | v => ret v
       end ;;
     ret (<["Ticker" := PyStr ticker_symbol]>
          (<["P/L" := dict_get info "trailingPE"]>
          (<["P/VP" := dict_get info "priceToBook"]>
          (<["ROE" := dict_get info "returnOnEquity"]>
          (<["DY" := dict_get info "dividendYield"]>
          (<["Setor" := dict_get info "sector"]>
          (<["Dívida/PL" := opt_pyval divida_pl]>
          (<["Dívida/EBITDA" := divida_ebitda]>
          (<["EV/EBITDA" := dict_get info "enterpriseToEbitda"]>
          (<["LPA" := dict_get info "trailingEps"]>
          (<["VPA" := dict_get info "bookValue"]>
          (<["_dividendRate" := dict_get info "dividendRate"]> ∅)))))))))))))
    (fun _ => ret {["Ticker" := PyStr ticker_symbol]}).

(** ** Sorting on an integer or a float column

    [por_chave key] orders rows by a non-decreasing integer key, and
    [por_valor] orders floats without NaN; the sorts on such keys are
    stdpp's [merge_sort].  The module only sorts integer keys that are
    pairwise distinct (calendar years of one series, period ends of one
    statement), where every sorting algorithm gives the same answer. *)
Definition por_chave {A : Type} (key : A -> Z) : relation A :=
  fun a b => key a <= key b.

Definition por_chave_desc {A : Type} (key : A -> Z) : relation A :=
  fun a b => key b <= key a.

Definition por_valor : relation float :=
  fun a b => (a <=? b)%float = true.

#[global] Instance por_chave_dec {A : Type} (key : A -> Z) : RelDecision (por_chave key) :=
  fun a b => decide (key a <= key b).

#[global] Instance por_chave_desc_dec {A : Type} (key : A -> Z) : RelDecision (por_chave_desc key) :=
  fun a b => decide (key b <= key a).

#[global] Instance por_valor_dec : RelDecision por_valor :=
  fun a b => decide ((a <=? b)%float = true).

Definition por_valor_de {A : Type} (val : A -> float) : relation A :=
  fun a b => (val a <=? val b)%float = true.

#[global] Instance por_valor_de_dec {A : Type} (val : A -> float) : RelDecision (por_valor_de val) :=
  fun a b => decide ((val a <=? val b)%float = true).

(** ** Growth of revenue and net income *)

Definition dropna {A : Type} (l : list (A * float)) : list (A * float) :=
  List.filter (fun p => negb (is_nan (snd p))) l.

(** [s.sort_index()] on a row labelled by instants. *)
Definition sort_index {A : Type} (l : list (Z * A)) : list (Z * A) :=
  merge_sort (por_chave fst) l.

(** [s.iloc[-n:]] for [n >= 1]. *)
Definition ultimos {A : Type} (n : nat) (l : list A) : list A :=
  skipn (length l - n) l.

(** [df.loc[chave].sort_index().iloc[-years-1:].dropna()]. *)
Definition serie_cagr (years : nat) (df : DataFrame) (chave : string) : list (Z * float) :=
  let linha := default [] (df_index df !! chave) in
  dropna (ultimos (S years) (sort_index (zip (df_columns df) linha))).

(** The function nested in [obter_dados_cagr]; [years] is the argument of
    the enclosing call. *)
Definition calcular_cagr `{Runtime}
    (years : nat) (df : DataFrame) (chaves_possiveis : list string) : option float :=
  match primeira_chave df chaves_possiveis with
  | None => None
  | Some chave =>
      let serie := serie_cagr years df chave in
      if (length serie <? 2)%nat then None
      else
        match head serie, last serie with
        | Some (_, valor_inicial), Some (_, valor_final) =>
            let n_periodos := (length serie - 1)%nat in
            if (valor_inicial =? 0)%float then None
            else Some (np_power (valor_final / valor_inicial)
                                (1 / float_of_nat n_periodos) - 1)%float
        | _, _ => None
        end
  end.

Definition obter_dados_cagr `{Runtime}
    (gw : Gateway) (ticker_symbol : string) (years : nat) : io (gmap string pyval) :=
  let ticker := gw ticker_symbol in
  try_io
    (financials <- fetch AcFinancials (financials ticker) ;;
     match nao_vazio financials with
     | None =>
         ret (<["CAGR Receita 5a" := PyNone]> (<["CAGR Lucro 5a" := PyNone]> ∅))
     | Some financials =>
         let cagr_receita := calcular_cagr years financials ["Total Revenue"] in
         let cagr_lucro := calcular_cagr years financials ["Net Income"] in
         ret (<["CAGR Receita 5a" := opt_pyval cagr_receita]>
              (<["CAGR Lucro 5a" := opt_pyval cagr_lucro]> ∅))
     end)
    (fun _ => ret ∅).

(** ** Current price *)

Definition obter_preco_atual `{Runtime}
    (gw : Gateway) (ticker_symbol : string) : io float :=
  let ticker := gw ticker_symbol in
  try_io
    (info <- fetch AcInfo (info ticker) ;;
     let preco :=
       py_or (py_or (dict_get info "regularMarketPrice")
                    (dict_get info "currentPrice"))
             (PyNum 0) in
     lift (py_float preco))
    (fun _ => ret 0%float).

(** ** Dividends per share *)

Record DpaRow : Type := {
  Ano : Z;
  DPA : float;
  Ticker_ : string
}.

(** Column reductions skip missing values and add from left to right. *)
Definition validos (l : list float) : list float :=
  List.filter (fun x => negb (is_nan x)) l.

Definition soma (l : list float) : float :=
  fold_left add (validos l) 0%float.

Definition media (l : list float) : float :=
  (soma l / float_of_nat (length (validos l)))%float.

Definition mediana (l : list float) : float :=
  let v := merge_sort por_valor (validos l) in
  let n := length v in
  if (n =? 0)%nat then nan
  else if Nat.odd n then nth (n / 2) v nan
  else ((nth (n / 2 - 1) v nan + nth (n / 2) v nan) / 2)%float.

(** [s.resample('YE').sum()]: one bin per calendar year from the earliest
    to the latest observation, an empty bin summing to zero. *)
Definition resample_YE_sum `{Runtime} (obs : list (Z * float)) : list (Z * float) :=
  match map (fun o => dt_year (fst o)) obs with
  | [] => []
  | y :: ys =>
      let lo := fold_right Z.min y ys in
      let hi := fold_right Z.max y ys in
      map (fun a =>
             (a, soma (map snd (List.filter (fun o => dt_year (fst o) =? a) obs))))
          (seqZ lo (hi - lo + 1))
  end.

(** [df.sort_values('Ano', ascending=...)]. *)
Definition sort_ano (ascending : bool) (df : list DpaRow) : list DpaRow :=
  if ascending
  then merge_sort (por_chave Ano) df
  else merge_sort (por_chave_desc Ano) df.

Definition segundos_por_dia : Z := 86400.

(** The yearly sums of the dividends paid in the trailing [anos * 365]
    days, without the current (incomplete) year. *)
Definition dpa_anos_completos `{Runtime}
    (clk : Relogio) (ticker_symbol : string) (anos : nat)
    (dividends : list (Z * float)) : list DpaRow :=
  let end_date := agora clk in
  let start_date := end_date - Z.of_nat anos * 365 * segundos_por_dia in
  let div_filtrado :=
    List.filter (fun o => (start_date <=? fst o) && (fst o <=? end_date)) dividends in
  let div_anual :=
    map (fun p => {| Ano := fst p; DPA := snd p; Ticker_ := ticker_symbol |})
        (resample_YE_sum div_filtrado) in
  List.filter (fun r => Ano r <? ano_corrente clk) div_anual.

Definition obter_dados_dpa `{Runtime}
    (gw : Gateway) (clk : Relogio) (ticker_symbol : string) (anos : nat)
    : io (list DpaRow * float * float * string) :=
  let ticker := gw ticker_symbol in
  try_io
    (dividends <- fetch AcDividends (dividends ticker) ;;
     match dividends with
     | [] => ret ([], 0%float, 0%float, "")
     | _ =>
         let div_completo := dpa_anos_completos clk ticker_symbol anos dividends in
         let div_completo := firstn anos (sort_ano false div_completo) in
         let '(media_dpa, mediana_dpa) :=
           match div_completo with
           | [] => (0%float, 0%float)
           | _ => (media (map DPA div_completo), mediana (map DPA div_completo))
           end in
         let div_completo := sort_ano true div_completo in
         ret (div_completo, media_dpa, mediana_dpa, "")
     end)
    (fun e => ret ([], 0%float, 0%float, "Erro: " +:+ e)).

(** ** Dividend growth, payout and payment streak *)

Definition calcular_cagr_dpa `{Runtime}
    (clk : Relogio) (df_dpa : list DpaRow) (anos : nat) : float :=
  if (length df_dpa <? 2)%nat then 0%float
  else
    let df_completo := List.filter (fun r => Ano r <? ano_corrente clk) df_dpa in
    if (length df_completo <? 2)%nat then 0%float
    else
      let df_completo := firstn anos (sort_ano false df_completo) in
      if (length df_completo <? 2)%nat then 0%float
      else
        let df_completo := sort_ano true df_completo in
        match head df_completo, last df_completo with
        | Some primeiro, Some ultimo =>
            let valor_inicial := DPA primeiro in
            let valor_final := DPA ultimo in
            if (valor_inicial <=? 0)%float || (valor_final <=? 0)%float then 0%float
            else
              let num_anos := (length df_completo - 1)%nat in
              np_round2
                ((np_power (valor_final / valor_inicial)
                           (1 / float_of_nat num_anos) - 1) * 100)%float
        | _, _ => 0%float
        end.

(** [x <= 0] on a provider value. *)
Definition py_le0 (v : pyval) : outcome bool :=
  match v with
  | PyNum x => Ok (x <=? 0)%float
  | _ => Raise "TypeError"
  end.

Definition calcular_payout_ratio `{Runtime} (dados_info : gmap string pyval) : float :=
  try_except
    (let dividendos_anuais := py_or (dict_get dados_info "_dividendRate") (PyNum 0) in
     let lucro_por_acao := py_or (dict_get dados_info "LPA") (PyNum 0) in
     l_le <-! py_le0 lucro_por_acao;
     if l_le then Ok 0%float
     else
       d_le <-! py_le0 dividendos_anuais;
       if d_le then Ok 0%float
       else
         d <-! py_num dividendos_anuais;
         l <-! py_num lucro_por_acao;
         Ok (py_round2 ((d / l) * 100)%float))
    (fun _ => 0%float).

(** The loop of [calcular_anos_consecutivos]: count while [DPA > 0], leave
    at the first row that is not. *)
Fixpoint contar_consecutivos (linhas : list DpaRow) : nat :=
  match linhas with
  | [] => 0%nat
  | row :: resto =>
      if (0 <? DPA row)%float then S (contar_consecutivos resto) else 0%nat
  end.

Definition calcular_anos_consecutivos (clk : Relogio) (df_dpa : list DpaRow) : nat :=
  match df_dpa with
  | [] => 0%nat
  | _ =>
      let df_completo := List.filter (fun r => Ano r <? ano_corrente clk) df_dpa in
      match df_completo with
      | [] => 0%nat
      | _ => contar_consecutivos (sort_ano false df_completo)
      end
  end.

(** ** Seasonality and dividend months *)

Definition nomes_meses : list string :=
  ["Jan"; "Feb"; "Mar"; "Apr"; "May"; "Jun";
   "Jul"; "Aug"; "Sep"; "Oct"; "Nov"; "Dec"].

(** [datetime(2000, m, 1).strftime('%b')]. *)
Definition nome_mes (m : Z) : outcome string :=
  if (1 <=? m) && (m <=? 12)
  then match nth_error nomes_meses (Z.to_nat (m - 1)) with
       | Some n => Ok n
       | None => Raise "ValueError"
       end
  else Raise "ValueError".

Fixpoint nomes_dos_meses (ms : list Z) : outcome (list string) :=
  match ms with
  | [] => Ok []
  | m :: resto =>
      n <-! nome_mes m;
      ns <-! nomes_dos_meses resto;
      Ok (n :: ns)
  end.

(** [", ".join(l)]. *)
Fixpoint join_virgula (l : list string) : string :=
  match l with
  | [] => ""
  | [x] => x
  | x :: resto => x +:+ ", " +:+ join_virgula resto
  end.

(** The months whose count in [dividends.index.month.value_counts()] is
    at least [anos * 0.3], in ascending order. *)
Definition meses_de_pagamento `{Runtime} (dividends : list (Z * float)) (anos : nat) : list Z :=
  let meses := map (fun o => dt_month (fst o)) dividends in
  let threshold_recorrencia := (float_of_nat anos * 0.3)%float in
  List.filter
    (fun m => (threshold_recorrencia
               <=? float_of_nat (length (List.filter (Z.eqb m) meses)))%float)
    (merge_sort Z.le (remove_dups meses)).

Definition obter_sazonalidade_e_dividendos `{Runtime}
    (gw : Gateway) (ticker_symbol : string) (anos : nat) : io (string * string) :=
  let ticker := gw ticker_symbol in
  try_io
    (hist <- fetch AcHistory (history ticker anos) ;;
     dividends <- fetch AcDividends (dividends ticker) ;;
     match hist with
     | [] => ret ("N/A", "N/A")
     | _ =>
         col_pagto <-
           match dividends with
           | [] => ret "Sem Div."
           | _ =>
               nomes_meses_pagto <-
                 lift (nomes_dos_meses (meses_de_pagamento dividends anos)) ;;
               match nomes_meses_pagto with
               | [] => ret "Sem Div."
               | _ => ret (join_virgula nomes_meses_pagto)
               end
           end ;;
         meses_baratos <- lift (pd_meses_baratos hist) ;;
         nomes_meses_baratos <- lift (nomes_dos_meses meses_baratos) ;;
         ret (col_pagto, join_virgula nomes_meses_baratos)
     end)
    (fun _ => ret ("Erro", "Erro")).

(** ** The per-ticker pipeline *)

Record Valuation : Type := {
  v_ticker : string;
  v_preco_atual : float;
  v_preco_teto : float;
  v_preco_graham : float;
  v_margem_seguranca : float;
  v_pagamento_dividendos : string;
  v_melhor_mes : string
}.

Record Extras : Type := {
  x_ticker : string;
  x_payout_ratio : float
}.

Record Estatisticas : Type := {
  s_ticker : string;
  s_preco_atual : float;
  s_media_dpa : float;
  s_mediana_dpa : float;
  s_cagr_dpa : float;
  s_anos_consecutivos : nat
}.

(** The opportunity alert; its text is built from these three values. *)
Record Alerta : Type := {
  al_ticker : string;
  al_preco_atual : float;
  al_preco_teto : float
}.

(** The dictionary [processar_ticker] returns, by section. *)
Record Resultado : Type := {
  r_v : Valuation;
  r_i : gmap string pyval;
  r_i_extras : Extras;
  r_s : Estatisticas;
  r_g : list DpaRow;
  r_a : option Alerta
}.

(** The minimal structure of the [except] branch. *)
Definition resultado_minimo (ticker : string) : Resultado := {|
  r_v := {| v_ticker := ticker; v_preco_atual := 0; v_preco_teto := 0;
            v_preco_graham := 0; v_margem_seguranca := -100;
            v_pagamento_dividendos := "Erro"; v_melhor_mes := "Erro" |};
  r_i := {["Ticker" := PyStr ticker]};
  r_i_extras := {| x_ticker := ticker; x_payout_ratio := 0 |};
  r_s := {| s_ticker := ticker; s_preco_atual := 0; s_media_dpa := 0;
            s_mediana_dpa := 0; s_cagr_dpa := 0; s_anos_consecutivos := 0 |};
  r_g := [];
  r_a := None
|}.

Definition processar_ticker `{Runtime}
    (gw : Gateway) (clk : Relogio) (ticker : string) (anos : nat) (taxa_retorno : float)
    : io Resultado :=
  try_io
    (dpa <- obter_dados_dpa gw clk ticker anos ;;
     let '(df_dpa, media_dpa, mediana_dpa, _) := dpa in
     dados_fundamentalistas <- obter_dados_fundamentalistas gw ticker ;;
     dados_cagr <- obter_dados_cagr gw ticker 5 ;;
     let dados_fundamentalistas := dados_cagr ∪ dados_fundamentalistas in
     meses <- obter_sazonalidade_e_dividendos gw ticker anos ;;
     let '(meses_pagamento, meses_baratos) := meses in
     preco_atual <- obter_preco_atual gw ticker ;;
     let preco_teto := calcular_preco_teto_bazin media_dpa taxa_retorno in
     let lpa := dict_get dados_fundamentalistas "LPA" in
     let vpa := dict_get dados_fundamentalistas "VPA" in
     preco_graham <- lift (calcular_preco_graham lpa vpa) ;;
     let margem_seguranca := calcular_margem_seguranca preco_teto preco_atual in
     let cagr_dpa := calcular_cagr_dpa clk df_dpa anos in
     let payout_ratio := calcular_payout_ratio dados_fundamentalistas in
     let anos_consecutivos := calcular_anos_consecutivos clk df_dpa in
     let alerta :=
       if (0 <? margem_seguranca)%float
       then Some {| al_ticker := ticker; al_preco_atual := preco_atual;
                    al_preco_teto := preco_teto |}
       else None in
     ret {|
       r_v := {| v_ticker := ticker; v_preco_atual := preco_atual;
                 v_preco_teto := preco_teto; v_preco_graham := preco_graham;
                 v_margem_seguranca := margem_seguranca;
                 v_pagamento_dividendos := meses_pagamento;
                 v_melhor_mes := meses_baratos |};
       r_i := dados_fundamentalistas;
       r_i_extras := {| x_ticker := ticker; x_payout_ratio := payout_ratio |};
       r_s := {| s_ticker := ticker; s_preco_atual := preco_atual;
                 s_media_dpa := media_dpa; s_mediana_dpa := mediana_dpa;
                 s_cagr_dpa := cagr_dpa; s_anos_consecutivos := anos_consecutivos |};
       r_g := df_dpa;
       r_a := alerta
     |})
    (fun _ => ret (resultado_minimo ticker)).

(** ** The batch *)

(** The lists the report collects. *)
Record Lote : Type := {
  data_valuation : list Valuation;
  data_indicadores : list (gmap string pyval);
  data_indicadores_extras : list Extras;
  data_estatisticas : list Estatisticas;
  data_grafico : list (list DpaRow);
  alertas : list Alerta
}.

Definition lote_vazio : Lote := {|
  data_valuation := []; data_indicadores := []; data_indicadores_extras := [];
  data_estatisticas := []; data_grafico := []; alertas := []
|}.

(** The body of the [as_completed] loop for one finished future; a future
    whose [result()] raises leaves the lists as they are. *)
Definition coletar (acc : Lote) (future : outcome Resultado) : Lote :=
  match future with
  | Ok resultado => {|
      data_valuation := data_valuation acc ++ [r_v resultado];
      data_indicadores := data_indicadores acc ++ [r_i resultado];
      data_indicadores_extras := data_indicadores_extras acc ++ [r_i_extras resultado];
      data_estatisticas := data_estatisticas acc ++ [r_s resultado];
      data_grafico :=
        match r_g resultado with
        | [] => data_grafico acc
        | g => data_grafico acc ++ [g]
        end;
      alertas :=
        match r_a resultado with
        | Some a => alertas acc ++ [a]
        | None => alertas acc
        end
    |}
  | Raise _ => acc
  end.

(** [min(len(tickers), MAX_WORKERS_THREAD_POOL)]: the size of the pool. *)
Definition workers_dinamicos (tickers : list string) : nat :=
  Nat.min (length tickers) MAX_WORKERS_THREAD_POOL.

(** The thread pool: one future per submitted ticker, consumed in the
    order [ordem] in which they complete (positions in [tickers]).  The
    clock is read while a ticker is processed, hence per ticker. *)
Definition executar_lote `{Runtime}
    (gw : Gateway) (clk : string -> Relogio) (tickers : list string)
    (anos_input : nat) (taxa_retorno_input : float) (ordem : list nat) : Lote :=
  let taxa_retorno_decimal := (taxa_retorno_input / 100)%float in
  let futures :=
    map (fun t => result (processar_ticker gw (clk t) t anos_input taxa_retorno_decimal))
        tickers in
  fold_left
    (fun acc idx =>
       match nth_error futures idx with
       | Some future => coletar acc future
       | None => acc
       end)
    ordem lote_vazio.

(** [df_valuation.sort_values('Margem Segurança (%)', ascending=False)
    .reset_index(drop=True)]. *)
Definition ordenar_valuation `{Runtime} (data_valuation : list Valuation) : list Valuation :=
  sort_values_desc Valuation v_margem_seguranca data_valuation.

(** ** Report assembly

    What the script does with the collected lists once the pool is
    done, and the input it starts from. *)

(** [",".join(l)]: the text the CSV upload hands to [sanitizar_tickers]. *)
Fixpoint juntar_virgulas (l : list string) : string :=
  match l with
  | [] => ""
  | [x] => x
  | x :: resto => x +:+ "," +:+ juntar_virgulas resto
  end.

(** A number as the sidebar hands it over: [int] or [float]. *)
Inductive numero : Type :=
| NInt (n : Z)
| NFloat (x : float).

(** [int(x)] on a float: truncation toward zero; NaN and the infinities
    raise. *)
Definition py_int_of_float (x : float) : outcome Z :=
  match Prim2SF x with
  | S754_zero _ => Ok 0
  | S754_nan => Raise "ValueError"
  | S754_infinity _ => Raise "OverflowError"
  | S754_finite s m e =>
      let modulo := if 0 <=? e then Z.pos m * 2 ^ e else Z.pos m / 2 ^ (- e) in
      Ok (if s then - modulo else modulo)
  end.

(** [isinstance(anos, (int, float)) and 1 <= int(anos) <= 20]. *)
Definition validar_anos (anos : numero) : outcome bool :=
  n <-! match anos with
        | NInt n => Ok n
        | NFloat x => py_int_of_float x
        end;
  Ok ((1 <=? n) && (n <=? 20)).

(** [isinstance(taxa, (int, float)) and 0.1 <= taxa <= 100.0]; an [int]
    compares with a float by value. *)
Definition validar_taxa_retorno (taxa : numero) : bool :=
  match taxa with
  | NInt n => (1 <=? n) && (n <=? 100)
  | NFloat x => (0.1 <=? x)%float && (x <=? 100)%float
  end.

(** [tickers_sem_dados]: the tickers of the rows with price 0 and
    ceiling 0. *)
Definition tickers_sem_dados (data_valuation : list Valuation) : list string :=
  map v_ticker
      (List.filter (fun r => (v_preco_atual r =? 0)%float && (v_preco_teto r =? 0)%float)
                   data_valuation).

(** [oportunidades]: the rows with a margin above zero. *)
Definition oportunidades (data_valuation : list Valuation) : list Valuation :=
  List.filter (fun r => (0 <? v_margem_seguranca r)%float) data_valuation.

(** A table built by [pd.DataFrame(rows)] from dictionaries is kept as
    its rows; its columns are the keys of some row, and a row without a
    key shows a missing value there. *)
Definition tem_coluna (linhas : list (gmap string pyval)) (col : string) : bool :=
  existsb (fun d => bool_decide (is_Some (d !! col))) linhas.

(** [df.drop(columns=[c for c in ['LPA', 'VPA', '_dividendRate'] if c in
    df.columns])]. *)
Definition remover_colunas (linhas : list (gmap string pyval)) : list (gmap string pyval) :=
  map (fun d => delete "LPA" (delete "VPA" (delete "_dividendRate" d))) linhas.

Definition mesmo_ticker (linha : gmap string pyval) (e : Extras) : bool :=
  match linha !! "Ticker" with
  | Some (PyStr t) => String.eqb t (x_ticker e)
  | _ => false
  end.

(** [pd.merge(df_indicadores, df_indicadores_extras, on='Ticker',
    how='left')]: the left rows in their order, each once per right row
    with the same ticker (in the right order), or once without the right
    columns when there is none. *)
Definition merge_payout (df_indicadores : list (gmap string pyval))
    (df_indicadores_extras : list Extras) : list (gmap string pyval) :=
  flat_map
    (fun linha =>
       match List.filter (mesmo_ticker linha) df_indicadores_extras with
       | [] => [linha]
       | pares =>
           map (fun e => <["Payout Ratio (%)" := PyNum (x_payout_ratio e)]> linha) pares
       end)
    df_indicadores.

(** [dados['Ticker'].iloc[0]]: the name of a series of the chart. *)
Definition nome_da_serie (dados : list DpaRow) : outcome string :=
  match dados with
  | [] => Raise "IndexError"
  | r :: _ => Ok (Ticker_ r)
  end.

(** The median ceiling and margin of one row of the statistics table. *)
Definition preco_teto_mediana (taxa_retorno_decimal : float) (s : Estatisticas) : float :=
  if (0 <? taxa_retorno_decimal)%float
  then (s_mediana_dpa s / taxa_retorno_decimal)%float
  else 0%float.

Definition margem_seguranca_mediana (taxa_retorno_decimal : float) (s : Estatisticas) : float :=
  let teto := preco_teto_mediana taxa_retorno_decimal s in
  if (0 <? s_preco_atual s)%float && (0 <? teto)%float
  then (((teto / s_preco_atual s) - 1) * 100)%float
  else (-100)%float.

(** The columns of the indicators tab, in display order. *)
Definition colunas_indicadores : list string :=
  ["Ticker"; "P/L"; "P/VP"; "ROE"; "DY"; "Payout Ratio (%)";
   "Dívida/PL"; "Dívida/EBITDA"; "EV/EBITDA"; "CAGR Receita 5a"; "CAGR Lucro 5a"].

(** [[col for col in colunas_indicadores if col in df_indicadores.columns]]. *)
Definition colunas_existentes (df_indicadores : list (gmap string pyval)) : list string :=
  List.filter (tem_coluna df_indicadores) colunas_indicadores.

(** One row of [df['Ticker'].isin(df_valuation['Ticker'])]. *)
Definition isin_ticker (df_valuation : list Valuation) (linha : gmap string pyval) : bool :=
  match linha !! "Ticker" with
  | Some (PyStr t) => existsb (String.eqb t) (map v_ticker df_valuation)
  | _ => false
  end.

(** [df[mask][colunas_existentes]]: the rows of the mask, cut to the
    columns. *)
Definition df_indicadores_filtrado (df_indicadores : list (gmap string pyval))
    (df_valuation : list Valuation) : list (gmap string pyval) :=
  map (fun linha =>
         filter (fun kv => fst kv ∈ colunas_existentes df_indicadores) linha)
      (List.filter (isin_ticker df_valuation) df_indicadores).

(** What the page shows after [Gerar Relatório]. *)
Inductive Tela : Type :=
| ErroAnos
| ErroTaxa
| ErroTickers (avisos : list aviso)
| Excecao (avisos : list aviso) (e : string)
| NaoProcessado (avisos : list aviso)
| Relatorio (avisos : list aviso) (workers : nat) (sem_dados : list string)
            (df_valuation : list Valuation) (df_indicadores : list (gmap string pyval))
            (tem_setor_financeiro : bool) (lote : Lote).

Section Relatorio.

(** [Series.str.contains('Financial', case=False)] on one text. *)
Variable contem_financial : string -> bool.

(** [any(df['Setor'].str.contains('Financial', case=False, na=False))]:
    the column must exist, and hold text (a column of numbers has no
    [.str]); what is not text counts as no match. *)
Definition tem_setor_financeiro (df_indicadores : list (gmap string pyval)) : outcome bool :=
  if negb (tem_coluna df_indicadores "Setor") then Raise "KeyError"
  else if existsb (fun d => match d !! "Setor" with Some (PyNum _) => true | _ => false end)
                  df_indicadores
          && negb (existsb (fun d => match d !! "Setor" with Some (PyStr _) => true | _ => false end)
                           df_indicadores)
  then Raise "AttributeError"
  else Ok (existsb (fun d => match d !! "Setor" with
                             | Some (PyStr s) => contem_financial s
                             | _ => false
                             end)
                   df_indicadores).

(** The script from the button on; [ordem] is the order in which the
    pool completes the futures of a list of tickers. *)
Definition gerar_relatorio `{Runtime}
    (gw : Gateway) (clk : string -> Relogio) (ordem : list string -> list nat)
    (ticker_input : string) (anos_input : Z) (taxa_retorno_input : float) : Tela :=
  match validar_anos (NInt anos_input) with
  | Raise e => Excecao [] e
  | Ok false => ErroAnos
  | Ok true =>
      if negb (validar_taxa_retorno (NFloat taxa_retorno_input)) then ErroTaxa
      else
        let '(tickers, avisos) := sanitizar_tickers ticker_input in
        match tickers with
        | [] => ErroTickers avisos
        | _ =>
            let workers := workers_dinamicos tickers in
            if (workers =? 0)%nat then Excecao avisos "ValueError"
            else
              let lote := executar_lote gw clk tickers (Z.to_nat anos_input)
                            taxa_retorno_input (ordem tickers) in
              match data_valuation lote with
              | [] => NaoProcessado avisos
              | _ =>
                  let sem_dados := tickers_sem_dados (data_valuation lote) in
                  let df_valuation := ordenar_valuation (data_valuation lote) in
                  let df_indicadores :=
                    merge_payout (remover_colunas (data_indicadores lote))
                                 (data_indicadores_extras lote) in
                  match tem_setor_financeiro df_indicadores with
                  | Raise e => Excecao avisos e
                  | Ok nota =>
                      Relatorio avisos workers sem_dados df_valuation df_indicadores nota lote
                  end
              end
        end
  end.

End Relatorio.

(** A token of the class: not empty, and made of class characters. *)
Definition token_limpo (t : string) : Prop :=
  String.eqb t "" = false /\ string_forallb classe_ticker t = true.

(** ** A runtime for evaluating the model

    It gives the library operations a concrete, executable reading: the
    proleptic Gregorian calendar on instants counted in seconds, rounding
    to two decimals by scaling and rounding to the nearest integer, the
    power function on the one exponent where it is exact ([x ** 1.0] is
    [x]), and a merge sort for [sort_values]. *)

(** Year, month and day of a day count from 1970-01-01. *)
Definition civil_de_dias (dias : Z) : Z * Z * Z :=
  let z := dias + 719468 in
  let era := z / 146097 in
  let doe := z - era * 146097 in
  let yoe := (doe - doe / 1460 + doe / 36524 - doe / 146096) / 365 in
  let doy := doe - (365 * yoe + yoe / 4 - yoe / 100) in
  let mp := (5 * doy + 2) / 153 in
  let d := doy - (153 * mp + 2) / 5 + 1 in
  let m := if mp <? 10 then mp + 3 else mp - 9 in
  let y := yoe + era * 400 in
  (if m <=? 2 then y + 1 else y, m, d).

Definition dias_de_civil (y m d : Z) : Z :=
  let y := if m <=? 2 then y - 1 else y in
  let era := y / 400 in
  let yoe := y - era * 400 in
  let doy := (153 * (if 2 <? m then m - 3 else m + 9) + 2) / 5 + d - 1 in
  let doe := yoe * 365 + yoe / 4 - yoe / 100 + doy in
  era * 146097 + doe - 719468.

(** Midnight of a calendar day, as an instant in seconds. *)
Definition instante (y m d : Z) : Z := dias_de_civil y m d * segundos_por_dia.

Definition ano_civil (t : Z) : Z := fst (fst (civil_de_dias (t / segundos_por_dia))).
Definition mes_civil (t : Z) : Z := snd (fst (civil_de_dias (t / segundos_por_dia))).

(** Round to the nearest integer, ties to even. *)
Definition rint (x : float) : float :=
  let c := 4503599627370496%float in
  if (abs x <? c)%float
  then if (0 <=? x)%float then ((x + c) - c)%float else ((x - c) + c)%float
  else x.

Definition round2_escala (x : float) : float := (rint (x * 100) / 100)%float.

Definition potencia_unitaria (x y : float) : float :=
  if (y =? 1)%float then x else nan.

Definition desc_por {A : Type} (key : A -> float) : relation A :=
  fun a b => desc_nan_last (key a) (key b) = true.

#[global] Instance desc_por_dec {A : Type} (key : A -> float) : RelDecision (desc_por key) :=
  fun a b => decide (desc_nan_last (key a) (key b) = true).

(** Rows by non-increasing key, missing keys last. *)
Definition sort_desc_estavel (A : Type) (key : A -> float) (l : list A) : list A :=
  merge_sort (desc_por key) l.

(** The mean close of each month (mean over years of the yearly means),
    the three smallest, in calendar order. *)
Definition meses_baratos_civil (hist : list (Z * float)) : outcome (list Z) :=
  let anos := merge_sort Z.le (remove_dups (map (fun o => ano_civil (fst o)) hist)) in
  let media_mes (m : Z) : float :=
    media (map (fun a =>
                  media (map snd (List.filter
                    (fun o => (mes_civil (fst o) =? m) && (ano_civil (fst o) =? a)) hist)))
               anos) in
  let meses := merge_sort Z.le (remove_dups (map (fun o => mes_civil (fst o)) hist)) in
  let por_media :=
    merge_sort (por_valor_de snd)
      (List.filter (fun p => negb (is_nan (snd p))) (map (fun m => (m, media_mes m)) meses)) in
  Ok (merge_sort Z.le (map fst (firstn 3 por_media))).

Definition runtime_estavel : Runtime := {|
  np_power := potencia_unitaria;
  np_round2 := round2_escala;
  py_round2 := round2_escala;
  py_float_of_str := fun _ => None;
  dt_year := ano_civil;
  dt_month := mes_civil;
  sort_values_desc := sort_desc_estavel;
  pd_meses_baratos := meses_baratos_civil
|}.

(** ** Predicates of the statements and example data *)

(** A field that is absent, [None], or a number equal to zero. *)
Definition campo_ausente_ou_zero (i : gmap string pyval) (k : string) : Prop :=
  i !! k = None \/ i !! k = Some PyNone \/
  exists z, i !! k = Some (PyNum z) /\ (z =? 0)%float = true.

(** A provider that reports a regular market price of zero next to a
    current price of 12.5. *)
Definition gw_preco_zero : Gateway := fun _ => {|
  info := Ok (<["regularMarketPrice" := PyNum 0]> (<["currentPrice" := PyNum 12.5]> ∅));
  balance_sheet := Ok None; financials := Ok None; cashflow := Ok None;
  dividends := Ok []; history := fun _ => Ok []
|}.

(** A provider that reports debt to EBITDA itself (1.8) and also every
    statement line the fallback would need (100 / (40 + |-10|) = 2). *)
Definition gw_ebitda_completo : Gateway := fun _ => {|
  info := Ok (<["debtToEbitda" := PyNum 1.8]> ∅);
  balance_sheet :=
    Ok (Some {| df_columns := [instante 2025 12 31];
                df_index := <["Total Debt" := [100%float]]>
                            (<["Stockholders Equity" := [50%float]]> ∅) |});
  financials :=
    Ok (Some {| df_columns := [instante 2025 12 31];
                df_index := <["EBIT" := [40%float]]> ∅ |});
  cashflow :=
    Ok (Some {| df_columns := [instante 2025 12 31];
                df_index := <["Depreciation" := [(-10)%float]]> ∅ |});
  dividends := Ok [];
  history := fun _ => Ok []
|}.

(** An income statement as the provider lays it out, latest period first:
    revenue grew from 100 to 200, the net result went from -100 to -200. *)
Definition dre_exemplo : DataFrame := {|
  df_columns := [instante 2025 12 31; instante 2024 12 31];
  df_index := <["Total Revenue" := [200%float; 100%float]]>
              (<["Net Income" := [(-200)%float; (-100)%float]]> ∅)
|}.

(** Seven annual revenues, the one of 2021 missing. *)
Definition dre_com_lacuna : DataFrame := {|
  df_columns := [instante 2025 12 31; instante 2024 12 31; instante 2023 12 31;
                 instante 2022 12 31; instante 2021 12 31; instante 2020 12 31;
                 instante 2019 12 31];
  df_index := <["Total Revenue" := [7; 6; 5; 4; nan; 2; 1]%float]> ∅
|}.

(** The rows of a window with DPA above zero. *)
Definition positivos (df : list DpaRow) : list DpaRow :=
  List.filter (fun r => (0 <? DPA r)%float) df.

(** The growth rate as the specification words it: the formula between the
    first and the last positive value of the window, 0 with fewer than two
    positive points. *)
Definition cagr_dpa_entre_positivos `{Runtime} (janela : list DpaRow) : float :=
  let pos := positivos janela in
  match head pos, last pos with
  | Some primeiro, Some ultimo =>
      if (length pos <? 2)%nat then 0%float
      else np_round2
             ((np_power (DPA ultimo / DPA primeiro)
                        (1 / float_of_nat (length pos - 1)) - 1) * 100)%float
  | _, _ => 0%float
  end.

(** The clock at midnight of 3 November 2026. *)
Definition clk_2026 : Relogio :=
  {| agora := instante 2026 11 3; ano_corrente := 2026 |}.

(** Annual series used in the examples. *)
Definition dpa_um_dois_zero : list DpaRow :=
  [ {| Ano := 2023; DPA := 1; Ticker_ := "PETR4.SA" |};
    {| Ano := 2024; DPA := 2; Ticker_ := "PETR4.SA" |};
    {| Ano := 2025; DPA := 0; Ticker_ := "PETR4.SA" |} ].

(** A company that paid in 2023 and 2024, skipped 2025 and paid again in
    2026. *)
Definition gw_pausa_2025 : Gateway := fun _ => {|
  info := Ok ∅; balance_sheet := Ok None; financials := Ok None; cashflow := Ok None;
  dividends :=
    Ok [ (instante 2023 12 1, 1%float); (instante 2024 6 3, 2%float);
         (instante 2026 3 2, 1%float) ];
  history := fun _ => Ok []
|}.

Definition dpa_um_dois : list DpaRow :=
  [ {| Ano := 2024; DPA := 1; Ticker_ := "PETR4.SA" |};
    {| Ano := 2025; DPA := 2; Ticker_ := "PETR4.SA" |} ].

(** A character with all the bytes its first byte announces, one cut
    short by the end of the text, and a text cut into characters: all
    complete, but possibly the last. *)
Definition completo (c : string) : bool :=
  match c with
  | EmptyString => false
  | String b r => (String.length r =? tamanho b - 1)%nat
  end.

Definition truncado (c : string) : bool :=
  match c with
  | EmptyString => false
  | String b r => (String.length r <? tamanho b - 1)%nat
  end.

Inductive regular : list string -> Prop :=
| regular_nil : regular []
| regular_cauda (c : string) : truncado c = true -> regular [c]
| regular_cons (c : string) (cs : list string) :
    completo c = true -> regular cs -> regular (c :: cs).

(** Two lists agree element by element under [p]. *)
Fixpoint forallb2 {A : Type} (p : A -> A -> bool) (l1 l2 : list A) : bool :=
  match l1, l2 with
  | [], [] => true
  | x :: r1, y :: r2 => p x y && forallb2 p r1 r2
  | _, _ => false
  end.

(** What the proofs need of an entry of the table of upper-case
    mappings: the entry is what [mapa_maiusculo] finds for the encoded
    code point, the code point and its images are encoded in full, the
    image is not empty, no image is itself changed by [str.upper], and
    neither the code point nor an image is white space. *)
Definition entrada_ok (e : N * list N) : bool :=
  match mapa_maiusculo (utf8 (fst e)) with
  | Some v => forallb2 N.eqb v (snd e)
  | None => false
  end
  && completo (utf8 (fst e))
  && negb (py_isspace (utf8 (fst e)))
  && match snd e with [] => false | _ => true end
  && forallb (fun d => completo (utf8 d)
                       && negb (py_isspace (utf8 d))
                       && match mapa_maiusculo (utf8 d) with
                          | None => true
                          | Some _ => false
                          end)
             (snd e).

(** Nothing to strip on the left: no character, or a first character
    that is not white space. *)
Definition sem_espaco_inicial (cs : list string) : Prop :=
  match cs with
  | [] => True
  | c :: _ => py_isspace c = false
  end.

(** The one-byte characters of a text of ASCII bytes. *)
Fixpoint unitarios (s : string) : list string :=
  match s with
  | EmptyString => []
  | String b r => String b EmptyString :: unitarios r
  end.

(** The IEEE-754 decomposition of a float that is a number; its place in
    the order of floats, as a triple compared lexicographically (sign
    class, then exponent, then mantissa, the last two negated below
    zero). *)
Definition sf_num (f : spec_float) : bool :=
  match f with
  | S754_nan => false
  | _ => true
  end.

Definition posto (f : spec_float) : Z * Z * Z :=
  match f with
  | S754_zero _ => (0, 0, 0)
  | S754_infinity false => (2, 0, 0)
  | S754_infinity true => (-2, 0, 0)
  | S754_nan => (0, 0, 0)
  | S754_finite false m e => (1, e, Z.pos m)
  | S754_finite true m e => (-1, - e, - Z.pos m)
  end.

Definition lex_le (p q : Z * Z * Z) : Prop :=
  let '(a, b, c) := p in
  let '(d, e, f) := q in
  a < d \/ (a = d /\ (b < e \/ (b = e /\ c <= f))).

(** Every attribute read of the ticker raises. *)
Definition provedor_em_falha (tk : Ticker) : Prop :=
  (exists e, info tk = Raise e) /\
  (exists e, balance_sheet tk = Raise e) /\
  (exists e, financials tk = Raise e) /\
  (exists e, cashflow tk = Raise e) /\
  (exists e, dividends tk = Raise e) /\
  (forall n, exists e, history tk n = Raise e).

(** The result a ticker's future holds. *)
Definition resultado_de `{Runtime}
    (gw : Gateway) (clk : string -> Relogio) (anos : nat) (taxa : float)
    (ticker : string) : Resultado :=
  match result (processar_ticker gw (clk ticker) ticker anos taxa) with
  | Ok r => r
  | Raise _ => resultado_minimo ticker
  end.

(** What the loop appends to a list for the future at position [idx]. *)
Definition entrada {X : Type} (proj : Resultado -> X) (rs : list Resultado) (idx : nat) : list X :=
  match nth_error rs idx with
  | Some r => [proj r]
  | None => []
  end.

(** A symbol for which every provider call times out, and one for which
    the provider answers. *)
Definition ticker_em_falha : Ticker := {|
  info := Raise "timeout"; balance_sheet := Raise "timeout";
  financials := Raise "timeout"; cashflow := Raise "timeout";
  dividends := Raise "timeout"; history := fun _ => Raise "timeout"
|}.

Definition ticker_saudavel : Ticker := {|
  info := Ok (<["regularMarketPrice" := PyNum 15]>
              (<["trailingEps" := PyNum 2]> (<["bookValue" := PyNum 10]> ∅)));
  balance_sheet := Ok None; financials := Ok None; cashflow := Ok None;
  dividends :=
    Ok [ (instante 2023 12 1, 1%float); (instante 2024 5 1, 1%float);
         (instante 2024 11 1, 0.5%float); (instante 2025 5 1, 1.5%float);
         (instante 2026 5 1, 2%float) ];
  history :=
    fun _ => Ok [ (instante 2025 1 3, 10%float); (instante 2025 2 3, 9%float);
                  (instante 2025 3 3, 11%float); (instante 2025 4 3, 8%float) ]
|}.

(** A provider that fails on one symbol and answers for every other. *)
Definition gw_uma_falha : Gateway :=
  fun t => if String.eqb t "FALHA3.SA" then ticker_em_falha else ticker_saudavel.

(** ** Further predicates and example data *)

(** The dictionary [obter_dados_fundamentalistas] builds once the two debt
    ratios are known. *)
Definition dicionario_fundamentalista (ticker_symbol : string) (info : gmap string pyval)
    (divida_pl : option float) (divida_ebitda : pyval) : gmap string pyval :=
  <["Ticker" := PyStr ticker_symbol]>
  (<["P/L" := dict_get info "trailingPE"]>
  (<["P/VP" := dict_get info "priceToBook"]>
  (<["ROE" := dict_get info "returnOnEquity"]>
  (<["DY" := dict_get info "dividendYield"]>
  (<["Setor" := dict_get info "sector"]>
  (<["Dívida/PL" := opt_pyval divida_pl]>
  (<["Dívida/EBITDA" := divida_ebitda]>
  (<["EV/EBITDA" := dict_get info "enterpriseToEbitda"]>
  (<["LPA" := dict_get info "trailingEps"]>
  (<["VPA" := dict_get info "bookValue"]>
  (<["_dividendRate" := dict_get info "dividendRate"]> ∅))))))))))).

(** No row of the statement is labelled by one of the names. *)
Definition sem_linha (df : DataFrame) (chaves : list string) : Prop :=
  Forall (fun k => df_index df !! k = None) chaves.

(** The statement is unusable: reading it raises, or it is [None] or
    empty. *)
Definition indisponivel (demonstrativo : outcome (option DataFrame)) : Prop :=
  match demonstrativo with
  | Raise _ => True
  | Ok None => True
  | Ok (Some df) => df_empty df = true
  end.

(** A provider that reports a debt-to-equity of 0.0 next to a balance
    sheet from which the fallback would compute 2. *)
Definition gw_divida_zero : Gateway := fun _ => {|
  info := Ok (<["debtToEquity" := PyNum 0]> (<["debtToEbitda" := PyNum 1.8]> ∅));
  balance_sheet :=
    Ok (Some {| df_columns := [instante 2025 12 31];
                df_index := <["Total Debt" := [100%float]]>
                            (<["Stockholders Equity" := [50%float]]> ∅) |});
  financials := Raise "timeout"; cashflow := Raise "timeout";
  dividends := Ok []; history := fun _ => Ok []
|}.

(** A provider without the two debt fields, whose statements label the
    lines by their second or third names. *)
Definition balanco_nomes_alternativos : DataFrame := {|
  df_columns := [instante 2025 12 31; instante 2024 12 31];
  df_index := <["Long Term Debt" := [30%float; 20%float]]>
              (<["Short Long Term Debt" := [7%float; 7%float]]>
              (<["Common Stock Equity" := [60%float; 50%float]]> ∅))
|}.

Definition gw_so_demonstrativos : Gateway := fun _ => {|
  info := Ok (<["trailingPE" := PyNum 8]> ∅);
  balance_sheet := Ok (Some balanco_nomes_alternativos);
  financials :=
    Ok (Some {| df_columns := [instante 2025 12 31];
                df_index := <["Operating Income" := [10%float]]> ∅ |});
  cashflow :=
    Ok (Some {| df_columns := [instante 2025 12 31];
                df_index := <["Reconciled Depreciation" := [(-5)%float]]> ∅ |});
  dividends := Ok []; history := fun _ => Ok []
|}.

(** The calendar year of the first row of a frame (0 for the empty
    frame). *)
Definition primeiro_ano (df : list DpaRow) : Z :=
  match df with
  | [] => 0
  | r :: _ => Ano r
  end.

(** The dividends of the trailing window, as [obter_dados_dpa] cuts
    them. *)
Definition dividendos_da_janela (clk : Relogio) (anos : nat)
    (dividends : list (Z * float)) : list (Z * float) :=
  List.filter
    (fun o => (agora clk - Z.of_nat anos * 365 * segundos_por_dia <=? fst o)
              && (fst o <=? agora clk))
    dividends.

(** A provider that answers for everything, with the earnings per share
    as text. *)
Definition gw_lpa_textual : Gateway := fun _ => {|
  info := Ok (<["regularMarketPrice" := PyNum 15]>
              (<["trailingEps" := PyStr "Infinity"]> (<["bookValue" := PyNum 10]> ∅)));
  balance_sheet := Ok None; financials := Ok None; cashflow := Ok None;
  dividends :=
    Ok [ (instante 2023 12 1, 1%float); (instante 2024 5 1, 1%float);
         (instante 2025 5 1, 1.5%float) ];
  history := fun _ => Ok [ (instante 2025 1 3, 10%float); (instante 2025 2 3, 9%float) ]
|}.

(** The results of a batch in the order their futures completed. *)
Definition concluidos `{Runtime}
    (gw : Gateway) (clk : string -> Relogio) (tickers : list string)
    (anos : nat) (taxa_retorno_input : float) (ordem : list nat) : list Resultado :=
  flat_map
    (entrada (fun r => r)
       (map (resultado_de gw clk anos (taxa_retorno_input / 100)%float) tickers))
    ordem.

(** A provider whose [info] is out of reach while dividends and prices
    are served. *)
Definition gw_info_fora_do_ar : Gateway := fun _ => {|
  info := Raise "timeout";
  balance_sheet := Ok None; financials := Ok None; cashflow := Ok None;
  dividends :=
    Ok [ (instante 2023 12 1, 1%float); (instante 2024 5 1, 1%float);
         (instante 2025 5 1, 1.5%float) ];
  history := fun _ => Ok [ (instante 2025 1 3, 10%float); (instante 2025 2 3, 9%float) ]
|}.

(** A complete calendar year that the payments of the trailing window
    reach: a year before the current one, not before the year of the
    first payment of the window and not after the year of its last. *)
Definition ano_coberto `{Runtime} (clk : Relogio) (anos : nat)
    (dividends : list (Z * float)) (a : Z) : bool :=
  (a <? ano_corrente clk)
  && existsb (fun o => dt_year (fst o) <=? a) (dividendos_da_janela clk anos dividends)
  && existsb (fun o => a <=? dt_year (fst o)) (dividendos_da_janela clk anos dividends).

(** One payment on every 1 March from 2016 to 2026. *)
Definition pagamentos_de_marco : list (Z * float) :=
  map (fun y => (instante y 3 1, 1%float)) (seqZ 2016 11).

Definition gw_pagador_de_marco : Gateway := fun _ => {|
  info := Ok ∅; balance_sheet := Ok None; financials := Ok None; cashflow := Ok None;
  dividends := Ok pagamentos_de_marco;
  history := fun _ => Ok []
|}.

(** A company that paid in 2021, 2022 and 2023 and not since. *)
Definition pagamentos_ate_2023 : list (Z * float) :=
  [ (instante 2021 5 3, 1%float); (instante 2022 5 2, 1%float);
    (instante 2023 5 2, 2%float) ].

Definition gw_parou_em_2023 : Gateway := fun _ => {|
  info := Ok ∅; balance_sheet := Ok None; financials := Ok None; cashflow := Ok None;
  dividends := Ok pagamentos_ate_2023;
  history := fun _ => Ok []
|}.

(** * Properties *)

#[global] Arguments primeira_chave : simpl never.
#[global] Arguments loc_iloc0 : simpl never.
#[global] Arguments df_empty : simpl never.

(** ** The provider monad *)

Lemma bind_io_ok {A B : Type} (t : list acesso) (a : A) (k : A -> io B) :
  bind_io (t, Ok a) k = (t ++ trace (k a), result (k a)).
Proof. unfold bind_io, trace, result. destruct (k a). reflexivity. Qed.

Lemma bind_io_raise {A B : Type} (t : list acesso) (e : string) (k : A -> io B) :
  bind_io (t, Raise e) k = (t, Raise e).
Proof. reflexivity. Qed.

(** ** Floating-point facts *)

Lemma prim2sf_zero : Prim2SF 0%float = S754_zero false.
Proof. reflexivity. Qed.

(** A float that compares equal to zero is not above zero. *)
Lemma eqb_zero_not_pos (z : float) :
  (z =? 0)%float = true -> (0 <? z)%float = false.
Proof.
  rewrite FloatAxioms.eqb_spec, FloatAxioms.ltb_spec, prim2sf_zero.
  destruct (Prim2SF z) as [s | s | | s m e]; simpl; try discriminate; auto.
  - destruct s; discriminate.
  - destruct s; discriminate.
Qed.

(** ** Margin of safety *)

(** C4. The margin of safety is ((ceiling / price) - 1) * 100 when both
    arguments are strictly positive and exactly -100.0 otherwise; it is
    -100.0 as soon as one argument is zero, and within 0.01 of 33.33 for a
    ceiling of 20 and a price of 15. *)
Theorem margem_seguranca_formula_e_sentinela (preco_teto preco_atual : float) :
  ((0 <? preco_teto)%float = true -> (0 <? preco_atual)%float = true ->
   calcular_margem_seguranca preco_teto preco_atual
   = (((preco_teto / preco_atual) - 1) * 100)%float) /\
  ((0 <? preco_teto)%float = false \/ (0 <? preco_atual)%float = false ->
   calcular_margem_seguranca preco_teto preco_atual = (-100)%float) /\
  ((preco_teto =? 0)%float = true \/ (preco_atual =? 0)%float = true ->
   calcular_margem_seguranca preco_teto preco_atual = (-100)%float) /\
  (abs (calcular_margem_seguranca 20 15 - 33.33) <=? 0.01)%float = true /\
  calcular_margem_seguranca 0 15 = (-100)%float /\
  calcular_margem_seguranca 20 0 = (-100)%float.
Proof.
  unfold calcular_margem_seguranca.
  split; [| split; [| split; [| split; [| split]]]].
  - intros Ht Ha. rewrite Ht, Ha. reflexivity.
  - intros [Ht | Ha].
    + rewrite Ht, andb_false_r. reflexivity.
    + rewrite Ha. reflexivity.
  - intros [Ht | Ha].
    + rewrite (eqb_zero_not_pos _ Ht), andb_false_r. reflexivity.
    + rewrite (eqb_zero_not_pos _ Ha). reflexivity.
  - vm_compute. reflexivity.
  - vm_compute. reflexivity.
  - vm_compute. reflexivity.
Qed.

(** ** Current price *)

Lemma dict_get_ausente_ou_zero (i : gmap string pyval) (k : string) :
  campo_ausente_ou_zero i k -> truthy (dict_get i k) = false.
Proof.
  unfold dict_get.
  intros [-> | [-> | (z & -> & Hz)]]; simpl; auto.
  rewrite Hz. reflexivity.
Qed.

(** C10. The price is the regular-market-price field when it is a
    nonzero number; when that field is absent, [None] or zero the price is
    the current-price field if that is a nonzero number, and 0.0 if it is
    absent, [None] or zero too.  A mapping that reports a regular market
    price of zero gives the same answer as the mapping without the
    field. *)
Theorem preco_atual_prioridade_dos_campos `{Runtime}
    (gw : Gateway) (ticker_symbol : string) (i : gmap string pyval) :
  info (gw ticker_symbol) = Ok i ->
  (forall x, i !! "regularMarketPrice" = Some (PyNum x) -> (x =? 0)%float = false ->
     obter_preco_atual gw ticker_symbol = ([AcInfo], Ok x)) /\
  (campo_ausente_ou_zero i "regularMarketPrice" ->
   forall y, i !! "currentPrice" = Some (PyNum y) -> (y =? 0)%float = false ->
     obter_preco_atual gw ticker_symbol = ([AcInfo], Ok y)) /\
  (campo_ausente_ou_zero i "regularMarketPrice" ->
   campo_ausente_ou_zero i "currentPrice" ->
     obter_preco_atual gw ticker_symbol = ([AcInfo], Ok 0%float)) /\
  (forall (gw' : Gateway) z,
     i !! "regularMarketPrice" = Some (PyNum z) -> (z =? 0)%float = true ->
     info (gw' ticker_symbol) = Ok (delete "regularMarketPrice" i) ->
     obter_preco_atual gw' ticker_symbol = obter_preco_atual gw ticker_symbol).
Proof.
  intros Hinfo. unfold obter_preco_atual. rewrite Hinfo.
  split; [| split; [| split]].
  - intros x Hx Hnz. cbn. unfold py_or.
    assert (Hrmp : dict_get i "regularMarketPrice" = PyNum x).
    { unfold dict_get. rewrite Hx. reflexivity. }
    rewrite Hrmp. cbn. rewrite Hnz. cbn. rewrite Hnz. reflexivity.
  - intros Hr y Hy Hnz. cbn. unfold py_or.
    rewrite (dict_get_ausente_ou_zero _ _ Hr).
    unfold dict_get. rewrite Hy. cbn. rewrite Hnz. reflexivity.
  - intros Hr Hc. cbn. unfold py_or.
    rewrite (dict_get_ausente_ou_zero _ _ Hr), (dict_get_ausente_ou_zero _ _ Hc).
    reflexivity.
  - intros gw' z Hz Hzero Hinfo'. rewrite Hinfo'. cbn. unfold py_or.
    assert (Hdel : dict_get (delete "regularMarketPrice" i) "regularMarketPrice" = PyNone).
    { unfold dict_get. rewrite lookup_delete_eq. reflexivity. }
    assert (Hcp : dict_get (delete "regularMarketPrice" i) "currentPrice"
                  = dict_get i "currentPrice").
    { unfold dict_get. rewrite lookup_delete_ne by discriminate. reflexivity. }
    rewrite Hdel, Hcp. cbn.
    assert (Hrmp : dict_get i "regularMarketPrice" = PyNum z).
    { unfold dict_get. rewrite Hz. reflexivity. }
    rewrite Hrmp. cbn. rewrite Hzero. reflexivity.
Qed.

Lemma preco_atual_zero_cai_para_current_price :
  obter_preco_atual (H := runtime_estavel) gw_preco_zero "PETR4.SA" = ([AcInfo], Ok 12.5%float).
Proof.
  refine (proj1 (proj2 (preco_atual_prioridade_dos_campos
            (H := runtime_estavel) gw_preco_zero "PETR4.SA" _ eq_refl)) _ 12.5%float _ _).
  - right; right. exists 0%float. split; reflexivity.
  - reflexivity.
  - reflexivity.
Defined.

(** ** Debt to EBITDA *)

(** The debt-to-equity fallback reads the balance sheet, and nothing
    else, whatever it finds there. *)
Lemma fallback_divida_pl_acessos (tk : Ticker) :
  exists o, fallback_divida_pl tk = ([AcBalanceSheet], Ok o).
Proof.
  unfold fallback_divida_pl, fetch, try_io, bind_io, lift, ret, nao_vazio.
  destruct (balance_sheet tk) as [[bs |] | e]; cbn; eauto.
  destruct (df_empty bs); cbn; eauto.
  destruct (primeira_chave bs chaves_divida) as [kd |]; cbn; eauto.
  destruct (primeira_chave bs chaves_pl) as [kp |]; cbn; eauto.
  destruct (loc_iloc0 bs kd) as [dv | e]; cbn; eauto.
  destruct (loc_iloc0 bs kp) as [pv | e]; cbn; eauto.
  destruct (negb (pv =? 0)%float); cbn; eauto.
Qed.

Lemma fallback_divida_ebitda_retorna (tk : Ticker) :
  exists t w, fallback_divida_ebitda tk = (t, Ok w).
Proof.
  unfold fallback_divida_ebitda, fetch, try_io, bind_io, lift, ret, nao_vazio.
  destruct (balance_sheet tk) as [bs | e]; cbn; eauto.
  destruct (financials tk) as [fin | e]; cbn; eauto.
  destruct (cashflow tk) as [cf | e]; cbn; eauto.
  destruct bs as [bs |]; cbn; eauto.
  destruct (df_empty bs); cbn; eauto.
  destruct fin as [fin |]; cbn; eauto.
  destruct (df_empty fin); cbn; eauto.
  destruct cf as [cf |]; cbn; eauto.
  destruct (df_empty cf); cbn; eauto.
  destruct (primeira_chave bs chaves_divida) as [kd |]; cbn; eauto.
  destruct (primeira_chave fin chaves_ebit) as [ke |]; cbn; eauto.
  destruct (primeira_chave cf chaves_da) as [ka |]; cbn; eauto.
  destruct (loc_iloc0 bs kd) as [dv | e]; cbn; eauto.
  destruct (loc_iloc0 fin ke) as [ev | e]; cbn; eauto.
  destruct (loc_iloc0 cf ka) as [av | e]; cbn; eauto.
  destruct (negb _); cbn; eauto.
Qed.

(** C5. When the provider mapping holds a debt-to-EBITDA value, the
    collector returns it unchanged under [Dívida/EBITDA] and reads neither
    the income statement nor the cash-flow statement, whatever those
    statements and the balance sheet contain; the three-statement
    fallback decides the value only when the field reads as [None]. *)
Theorem divida_ebitda_primario_prevalece `{Runtime}
    (gw : Gateway) (ticker_symbol : string) (i : gmap string pyval) (v : pyval) :
  info (gw ticker_symbol) = Ok i ->
  dict_get i "debtToEbitda" = v ->
  (v <> PyNone ->
   exists d,
     result (obter_dados_fundamentalistas gw ticker_symbol) = Ok d /\
     d !! "Dívida/EBITDA" = Some v /\
     trace (obter_dados_fundamentalistas gw ticker_symbol)
     = AcInfo :: match divida_pl_do_info i with
                 | Some _ => []
                 | None => [AcBalanceSheet]
                 end /\
     ~ In AcFinancials (trace (obter_dados_fundamentalistas gw ticker_symbol)) /\
     ~ In AcCashflow (trace (obter_dados_fundamentalistas gw ticker_symbol))) /\
  (v = PyNone ->
   exists d w t,
     result (obter_dados_fundamentalistas gw ticker_symbol) = Ok d /\
     fallback_divida_ebitda (gw ticker_symbol) = (t, Ok w) /\
     d !! "Dívida/EBITDA" = Some w).
Proof.
  intros Hinfo Hv.
  unfold obter_dados_fundamentalistas. rewrite Hinfo.
  set (t2 := match divida_pl_do_info i with
             | Some _ => []
             | None => [AcBalanceSheet]
             end).
  assert (Hpl2 : exists o2,
             match divida_pl_do_info i with
             | None => fallback_divida_pl (gw ticker_symbol)
             | Some x => ret (Some x)
             end = (t2, Ok o2)).
  { subst t2. destruct (divida_pl_do_info i) as [x |].
    - exists (Some x). reflexivity.
    - apply fallback_divida_pl_acessos. }
  assert (Hfin : ~ In AcFinancials t2)
    by (subst t2; destruct (divida_pl_do_info i); cbn; intuition discriminate).
  assert (Hcf : ~ In AcCashflow t2)
    by (subst t2; destruct (divida_pl_do_info i); cbn; intuition discriminate).
  destruct Hpl2 as (o2 & Hpl2).
  unfold fetch. rewrite bind_io_ok, Hpl2, bind_io_ok, Hv.
  split.
  - intros Hne.
    destruct v as [| x | s]; [congruence | |];
      (unfold ret at 1; rewrite bind_io_ok; cbn;
       eexists; split; [reflexivity |]; split;
       [ do 7 (rewrite lookup_insert_ne by discriminate); apply lookup_insert_eq
       | rewrite !app_nil_r; split; [reflexivity |];
         split; intros [Hd | Hin]; try discriminate; auto ]).
  - intros ->.
    destruct (fallback_divida_ebitda_retorna (gw ticker_symbol)) as (t & w & Hfb).
    rewrite Hfb, bind_io_ok. cbn.
    eexists _, w, t.
    split; [reflexivity |]. split; [reflexivity |].
    do 7 (rewrite lookup_insert_ne by discriminate).
    apply lookup_insert_eq.
Qed.

Lemma divida_ebitda_primario_com_fallback_disponivel :
  exists d,
    result (obter_dados_fundamentalistas (H := runtime_estavel) gw_ebitda_completo "PETR4.SA")
    = Ok d /\
    d !! "Dívida/EBITDA" = Some (PyNum 1.8) /\
    trace (obter_dados_fundamentalistas (H := runtime_estavel) gw_ebitda_completo "PETR4.SA")
    = [AcInfo; AcBalanceSheet] /\
    ~ In AcFinancials
        (trace (obter_dados_fundamentalistas (H := runtime_estavel) gw_ebitda_completo "PETR4.SA")) /\
    ~ In AcCashflow
        (trace (obter_dados_fundamentalistas (H := runtime_estavel) gw_ebitda_completo "PETR4.SA")).
Proof.
  apply (proj1 (divida_ebitda_primario_prevalece (H := runtime_estavel)
                  gw_ebitda_completo "PETR4.SA" _ (PyNum 1.8) eq_refl eq_refl)).
  discriminate.
Defined.

(** The same statements decide the ratio once the primary field is gone:
    100 / (40 + |-10|) = 2. *)
Example fallback_divida_ebitda_exemplo :
  fallback_divida_ebitda (gw_ebitda_completo "PETR4.SA")
  = ([AcBalanceSheet; AcFinancials; AcCashflow], Ok (PyNum 2)).
Proof. vm_compute. reflexivity. Qed.

(** ** Growth of revenue and net income *)

Lemma length_ultimos {A : Type} (n : nat) (l : list A) :
  (length (ultimos n l) <= n)%nat.
Proof. unfold ultimos. rewrite length_skipn. lia. Qed.

Lemma length_dropna {A : Type} (l : list (A * float)) :
  (length (dropna l) <= length l)%nat.
Proof. unfold dropna. apply List.filter_length_le. Qed.

Lemma dropna_sem_nan {A : Type} (l : list (A * float)) :
  Forall (fun p => is_nan (snd p) = false) (dropna l).
Proof.
  unfold dropna. apply List.Forall_forall. intros p Hp.
  apply List.filter_In in Hp. destruct Hp as [_ Hp].
  now apply negb_true_iff in Hp.
Qed.

Lemma primeira_chave_Some (df : DataFrame) (chaves : list string) (k : string) :
  primeira_chave df chaves = Some k ->
  In k chaves /\ is_Some (df_index df !! k).
Proof.
  unfold primeira_chave. intros Hf. apply List.find_some in Hf.
  destruct Hf as [Hin Hb]. split; [exact Hin |].
  now apply bool_decide_eq_true in Hb.
Qed.

Lemma head_last_of_two {A : Type} (l : list A) :
  (2 <= length l)%nat -> exists a b, head l = Some a /\ last l = Some b.
Proof.
  destruct l as [| a l]; cbn; [lia |]. intros _.
  exists a. destruct (last (a :: l)) as [b |] eqn:Hl; [eauto |].
  apply last_None in Hl. discriminate.
Qed.

(** C8 (as the code has it). For revenue and for net income
    independently, the metric is looked up under its accepted alias; the
    trailing [years + 1] points of the row are taken and the missing ones
    dropped; the result is [None] when fewer than two points remain or the
    starting value equals zero, and otherwise it is
    (final / initial) ** (1 / periods) - 1 with periods the number of
    points minus one.  The starting value is only required to be nonzero:
    a negative one is accepted. *)
Theorem cagr_receita_e_lucro `{Runtime}
    (years : nat) (df : DataFrame) (chaves : list string) :
  (primeira_chave df chaves = None -> calcular_cagr years df chaves = None) /\
  (forall chave, primeira_chave df chaves = Some chave ->
     In chave chaves /\ is_Some (df_index df !! chave) /\
     let serie := serie_cagr years df chave in
     (length serie <= S years)%nat /\
     Forall (fun p => is_nan (snd p) = false) serie /\
     ((length serie < 2)%nat -> calcular_cagr years df chaves = None) /\
     ((2 <= length serie)%nat ->
      exists inicial final,
        head serie = Some inicial /\ last serie = Some final /\
        ((snd inicial =? 0)%float = true -> calcular_cagr years df chaves = None) /\
        ((snd inicial =? 0)%float = false ->
         calcular_cagr years df chaves
         = Some (np_power (snd final / snd inicial)
                          (1 / float_of_nat (length serie - 1)) - 1)%float))) /\
  (forall (gw : Gateway) (ticker_symbol : string) (fin : DataFrame),
     financials (gw ticker_symbol) = Ok (Some fin) -> df_empty fin = false ->
     obter_dados_cagr gw ticker_symbol years
     = ([AcFinancials],
        Ok (<["CAGR Receita 5a" := opt_pyval (calcular_cagr years fin ["Total Revenue"])]>
            (<["CAGR Lucro 5a" := opt_pyval (calcular_cagr years fin ["Net Income"])]> ∅)))).
Proof.
  split; [| split].
  - intros Hk. unfold calcular_cagr. rewrite Hk. reflexivity.
  - intros chave Hk.
    destruct (primeira_chave_Some _ _ _ Hk) as [Hin Hsome].
    split; [exact Hin |]. split; [exact Hsome |].
    cbv zeta. split; [| split; [| split]].
    + unfold serie_cagr. etransitivity; [apply length_dropna |]. apply length_ultimos.
    + apply dropna_sem_nan.
    + intros Hlt. unfold calcular_cagr. rewrite Hk. cbv zeta.
      apply Nat.ltb_lt in Hlt. rewrite Hlt. reflexivity.
    + intros Hge.
      destruct (head_last_of_two _ Hge) as ([ti vi] & [tf vf] & Hhead & Hlast).
      exists (ti, vi), (tf, vf). split; [exact Hhead |]. split; [exact Hlast |].
      assert (Hnlt : (length (serie_cagr years df chave) <? 2)%nat = false)
        by (apply Nat.ltb_ge; exact Hge).
      unfold calcular_cagr. rewrite Hk. cbv zeta. rewrite Hnlt, Hhead, Hlast. cbn [snd].
      split; intros Hz; rewrite Hz; reflexivity.
  - intros gw ticker_symbol fin Hfin Hne.
    unfold obter_dados_cagr, fetch. rewrite Hfin, bind_io_ok.
    unfold nao_vazio. rewrite Hne. reflexivity.
Qed.

Lemma cagr_receita_dobrou :
  calcular_cagr (H := runtime_estavel) 5 dre_exemplo ["Total Revenue"] = Some 1%float.
Proof.
  destruct (cagr_receita_e_lucro (H := runtime_estavel) 5 dre_exemplo ["Total Revenue"])
    as (_ & Hk & _).
  destruct (Hk "Total Revenue" eq_refl) as (_ & _ & _ & _ & _ & Hge).
  destruct (Hge ltac:(vm_compute; lia)) as (inicial & final & Hi & Hf & _ & Hnz).
  vm_compute in Hi, Hf.
  injection Hi as <-. injection Hf as <-.
  rewrite (Hnz eq_refl). vm_compute. reflexivity.
Defined.

(** A loss that doubles, from -100 to -200, has a negative starting value
    and still gets a growth rate: (-200 / -100) ** (1 / 1) - 1 = 1.0. *)
Lemma cagr_com_valor_inicial_negativo :
  serie_cagr 5 dre_exemplo "Net Income"
  = [(instante 2024 12 31, (-100)%float); (instante 2025 12 31, (-200)%float)] /\
  calcular_cagr (H := runtime_estavel) 5 dre_exemplo ["Net Income"] = Some 1%float.
Proof. split; vm_compute; reflexivity. Qed.

(** The same for every power function: the result is a number, not
    [None]. *)
Lemma cagr_com_valor_inicial_negativo_geral `{Runtime} :
  calcular_cagr 5 dre_exemplo ["Net Income"] = Some (np_power 2 1 - 1)%float.
Proof. vm_compute. reflexivity. Qed.

(** The trailing [years + 1] points are cut first and the missing ones
    dropped afterwards: of seven yearly revenues with 2021 missing, the
    six latest years are 2020 to 2025 and five points remain, starting
    at the revenue of 2020. *)
Example serie_cagr_corta_e_depois_descarta :
  map snd (serie_cagr 5 dre_com_lacuna "Total Revenue") = [2; 4; 5; 6; 7]%float.
Proof. vm_compute. reflexivity. Qed.

(** ** Sorting by calendar year *)

#[global] Instance por_chave_trans {A : Type} (key : A -> Z) : Transitive (por_chave key).
Proof. unfold por_chave. intros a b c. lia. Qed.

#[global] Instance por_chave_total {A : Type} (key : A -> Z) : Total (por_chave key).
Proof. unfold por_chave. intros a b. lia. Qed.

#[global] Instance por_chave_desc_trans {A : Type} (key : A -> Z) : Transitive (por_chave_desc key).
Proof. unfold por_chave_desc. intros a b c. lia. Qed.

#[global] Instance por_chave_desc_total {A : Type} (key : A -> Z) : Total (por_chave_desc key).
Proof. unfold por_chave_desc. intros a b. lia. Qed.

Lemma sort_ano_Permutation (ascending : bool) (df : list DpaRow) :
  Permutation (sort_ano ascending df) df.
Proof. destruct ascending; apply merge_sort_Permutation. Qed.

Lemma sort_ano_length (ascending : bool) (df : list DpaRow) :
  length (sort_ano ascending df) = length df.
Proof. apply Permutation_length, sort_ano_Permutation. Qed.

Lemma sort_ano_desc_sorted (df : list DpaRow) :
  StronglySorted (por_chave_desc Ano) (sort_ano false df).
Proof. apply StronglySorted_merge_sort; apply _. Qed.

Lemma sort_ano_asc_sorted (df : list DpaRow) :
  StronglySorted (por_chave Ano) (sort_ano true df).
Proof. apply StronglySorted_merge_sort; apply _. Qed.

Lemma sort_ano_nil (ascending : bool) : sort_ano ascending [] = [].
Proof. destruct ascending; reflexivity. Qed.

(** ** Consecutive dividend-paying years *)

Lemma contar_consecutivos_prefixo (linhas : list DpaRow) :
  exists sequencia resto,
    linhas = sequencia ++ resto /\
    Forall (fun r => (0 <? DPA r)%float = true) sequencia /\
    match resto with
    | [] => True
    | r :: _ => (0 <? DPA r)%float = false
    end /\
    contar_consecutivos linhas = length sequencia.
Proof.
  induction linhas as [| row resto IH].
  - exists [], []. cbn. auto.
  - cbn. destruct (0 <? DPA row)%float eqn:Hpos.
    + destruct IH as (s & r & -> & Hs & Hr & Hc).
      exists (row :: s), r. cbn. rewrite Hc. auto.
    + exists [], (row :: resto). cbn. auto.
Qed.

(** C7. The count is the length of the unbroken run of rows with
    DPA > 0 at the head of the series read from its most recent complete
    year backward: the run ends at the first row whose DPA is zero or
    missing, and rows further back do not count, positive or not.  On
    2020: 1.0, 2021: 1.0, 2022: 0.0, 2023: 1.0 the count is 1. *)
Theorem anos_consecutivos_sequencia_recente (clk : Relogio) (df_dpa : list DpaRow) :
  let completos := List.filter (fun r => Ano r <? ano_corrente clk) df_dpa in
  let recentes_primeiro := sort_ano false completos in
  Permutation recentes_primeiro completos /\
  StronglySorted (fun a b => Ano b <= Ano a) recentes_primeiro /\
  (exists sequencia resto,
     recentes_primeiro = sequencia ++ resto /\
     Forall (fun r => (0 <? DPA r)%float = true) sequencia /\
     match resto with
     | [] => True
     | r :: _ => (0 <? DPA r)%float = false
     end /\
     calcular_anos_consecutivos clk df_dpa = length sequencia) /\
  calcular_anos_consecutivos
    {| agora := instante 2024 6 1; ano_corrente := 2024 |}
    [ {| Ano := 2020; DPA := 1; Ticker_ := "PETR4.SA" |};
      {| Ano := 2021; DPA := 1; Ticker_ := "PETR4.SA" |};
      {| Ano := 2022; DPA := 0; Ticker_ := "PETR4.SA" |};
      {| Ano := 2023; DPA := 1; Ticker_ := "PETR4.SA" |} ] = 1%nat.
Proof.
  cbv zeta. split; [apply sort_ano_Permutation |].
  split; [apply sort_ano_desc_sorted |].
  split; [| vm_compute; reflexivity].
  assert (Hcalc : calcular_anos_consecutivos clk df_dpa
                  = contar_consecutivos
                      (sort_ano false (List.filter (fun r => Ano r <? ano_corrente clk) df_dpa))).
  { unfold calcular_anos_consecutivos.
    destruct df_dpa as [| r df]; [reflexivity |].
    destruct (List.filter _ (r :: df)); reflexivity. }
  rewrite Hcalc. apply contar_consecutivos_prefixo.
Qed.

(** ** Dividend growth *)

Lemma SFcompare_finite_refl (s : bool) (m : positive) (e : Z) :
  SFcompare (S754_finite s m e) (S754_finite s m e) = Some Eq.
Proof.
  cbn. rewrite Z.compare_refl.
  fold (Pos.compare m m). rewrite Pos.compare_refl.
  destruct s; reflexivity.
Qed.

(** A float that is a number and is not above zero is at most zero. *)
Lemma nao_positivo_leb_zero (x : float) :
  is_nan x = false -> (0 <? x)%float = false -> (x <=? 0)%float = true.
Proof.
  unfold is_nan.
  rewrite FloatAxioms.eqb_spec, FloatAxioms.ltb_spec, FloatAxioms.leb_spec, prim2sf_zero.
  destruct (Prim2SF x) as [s | s | | s m e]; cbn; try discriminate; auto.
  - destruct s; auto; discriminate.
  - destruct s; auto; discriminate.
Qed.

Lemma dois_positivos_nos_extremos (l : list DpaRow) (a b : DpaRow) :
  (2 <= length l)%nat -> head l = Some a -> last l = Some b ->
  (0 <? DPA a)%float = true -> (0 <? DPA b)%float = true ->
  (2 <= length (positivos l))%nat.
Proof.
  intros Hlen Hh Hl Ha Hb.
  destruct l as [| x l]; [discriminate |]. cbn in Hh. injection Hh as ->.
  destruct l as [| y l]; [cbn in Hlen; lia |].
  remember (y :: l) as yl eqn:Hyl.
  unfold positivos. cbn [List.filter]. rewrite Ha.
  assert (Hin : In b yl).
  { rewrite last_cons in Hl. destruct (last yl) as [z |] eqn:Hz.
    - injection Hl as ->. apply last_Some in Hz. destruct Hz as [l' ->].
      apply in_or_app. right. now left.
    - apply last_None in Hz. subst yl. discriminate. }
  assert (Hf : In b (List.filter (fun r => (0 <? DPA r)%float) yl)).
  { apply List.filter_In. split; assumption. }
  destruct (List.filter _ yl); [destruct Hf | cbn; lia].
Qed.

(** C9 (as the code has it). The dividend growth rate, in per cent and
    rounded to two decimals, is the CAGR formula between the first and the
    last year of the window (the most recent [anos] complete years, oldest
    first) when the window has at least two years and both of those values
    are above zero; it is 0 when the window is shorter or one of the two
    is at most zero, hence 0 whenever a window of numbers holds fewer than
    two positive points. *)
Theorem cagr_dpa_extremos_da_janela `{Runtime}
    (clk : Relogio) (df_dpa : list DpaRow) (anos : nat) :
  let completos := List.filter (fun r => Ano r <? ano_corrente clk) df_dpa in
  let janela := sort_ano true (firstn anos (sort_ano false completos)) in
  StronglySorted (fun a b => Ano a <= Ano b) janela /\
  ((length janela < 2)%nat -> calcular_cagr_dpa clk df_dpa anos = 0%float) /\
  ((2 <= length janela)%nat ->
   exists primeiro ultimo,
     head janela = Some primeiro /\ last janela = Some ultimo /\
     ((DPA primeiro <=? 0)%float = true \/ (DPA ultimo <=? 0)%float = true ->
      calcular_cagr_dpa clk df_dpa anos = 0%float) /\
     ((DPA primeiro <=? 0)%float = false -> (DPA ultimo <=? 0)%float = false ->
      calcular_cagr_dpa clk df_dpa anos
      = np_round2
          ((np_power (DPA ultimo / DPA primeiro)
                     (1 / float_of_nat (length janela - 1)) - 1) * 100)%float)) /\
  (Forall (fun r => is_nan (DPA r) = false) janela ->
   (length (positivos janela) < 2)%nat ->
   calcular_cagr_dpa clk df_dpa anos = 0%float).
Proof.
  cbv zeta.
  set (completos := List.filter (fun r => Ano r <? ano_corrente clk) df_dpa).
  set (recorte := firstn anos (sort_ano false completos)).
  set (janela := sort_ano true recorte).
  assert (Hjan : length janela = length recorte) by apply sort_ano_length.
  assert (Hrec : (length recorte <= length completos)%nat).
  { subst recorte. rewrite length_firstn, sort_ano_length. lia. }
  assert (Hcomp : (length completos <= length df_dpa)%nat)
    by apply List.filter_length_le.
  assert (Hcurto : (length janela < 2)%nat -> calcular_cagr_dpa clk df_dpa anos = 0%float).
  { intros Hlt. unfold calcular_cagr_dpa. fold completos. fold recorte.
    destruct (length df_dpa <? 2)%nat eqn:H1; [reflexivity |].
    destruct (length completos <? 2)%nat eqn:H2; [reflexivity |].
    assert (H3 : (length recorte <? 2)%nat = true) by (apply Nat.ltb_lt; lia).
    rewrite H3. reflexivity. }
  assert (Hlongo : (2 <= length janela)%nat ->
            exists primeiro ultimo,
              head janela = Some primeiro /\ last janela = Some ultimo /\
              calcular_cagr_dpa clk df_dpa anos
              = if (DPA primeiro <=? 0)%float || (DPA ultimo <=? 0)%float then 0%float
                else np_round2
                       ((np_power (DPA ultimo / DPA primeiro)
                                  (1 / float_of_nat (length janela - 1)) - 1) * 100)%float).
  { intros Hge.
    destruct (head_last_of_two _ Hge) as (p & u & Hp & Hu).
    exists p, u. split; [exact Hp |]. split; [exact Hu |].
    unfold calcular_cagr_dpa. fold completos. fold recorte. fold janela.
    assert (H1 : (length df_dpa <? 2)%nat = false) by (apply Nat.ltb_ge; lia).
    assert (H2 : (length completos <? 2)%nat = false) by (apply Nat.ltb_ge; lia).
    assert (H3 : (length recorte <? 2)%nat = false) by (apply Nat.ltb_ge; lia).
    rewrite H1, H2, H3, Hp, Hu. reflexivity. }
  split; [apply sort_ano_asc_sorted |].
  split; [exact Hcurto |].
  split.
  - intros Hge. destruct (Hlongo Hge) as (p & u & Hp & Hu & Hcalc).
    exists p, u. split; [exact Hp |]. split; [exact Hu |]. split.
    + intros [Hz | Hz]; rewrite Hcalc, Hz; [| rewrite orb_true_r]; reflexivity.
    + intros Hz1 Hz2. rewrite Hcalc, Hz1, Hz2. reflexivity.
  - intros Hnum Hpos.
    destruct (Nat.lt_ge_cases (length janela) 2) as [Hlt | Hge]; [auto |].
    destruct (Hlongo Hge) as (p & u & Hp & Hu & Hcalc). rewrite Hcalc.
    assert (Hinp : In p janela) by (destruct janela; [discriminate | left; cbn in Hp; congruence]).
    assert (Hinu : In u janela).
    { apply last_Some in Hu. destruct Hu as [l' ->]. apply in_or_app. right. now left. }
    rewrite List.Forall_forall in Hnum.
    destruct (0 <? DPA p)%float eqn:Hpp.
    + destruct (0 <? DPA u)%float eqn:Hpu.
      * pose proof (dois_positivos_nos_extremos _ _ _ Hge Hp Hu Hpp Hpu). lia.
      * rewrite (nao_positivo_leb_zero _ (Hnum _ Hinu) Hpu), orb_true_r. reflexivity.
    + rewrite (nao_positivo_leb_zero _ (Hnum _ Hinp) Hpp). reflexivity.
Qed.

(** The series the collector returns for a company that skipped 2025 is
    2023: 1, 2024: 2, 2025: 0.  It has two positive points, 1 and 2,
    between which the formula gives 100 per cent; the code looks at the
    last year of the window, finds 0, and answers 0. *)
Lemma cagr_dpa_ignora_positivos_internos :
  result (obter_dados_dpa (H := runtime_estavel) gw_pausa_2025 clk_2026 "PETR4.SA" 3)
  = Ok (dpa_um_dois_zero, 1%float, 1%float, "") /\
  calcular_cagr_dpa (H := runtime_estavel) clk_2026 dpa_um_dois_zero 3 = 0%float /\
  length (positivos dpa_um_dois_zero) = 2%nat /\
  cagr_dpa_entre_positivos (H := runtime_estavel) dpa_um_dois_zero = 100%float.
Proof. repeat split; vm_compute; reflexivity. Qed.

(** Whatever the power function and the rounding are. *)
Lemma cagr_dpa_ignora_positivos_internos_geral `{Runtime} :
  calcular_cagr_dpa clk_2026 dpa_um_dois_zero 3 = 0%float.
Proof. vm_compute. reflexivity. Qed.

Lemma cagr_dpa_dobrou_em_um_ano :
  calcular_cagr_dpa (H := runtime_estavel) clk_2026 dpa_um_dois 5 = 100%float.
Proof.
  destruct (cagr_dpa_extremos_da_janela (H := runtime_estavel) clk_2026 dpa_um_dois 5)
    as (_ & _ & Hlongo & _).
  destruct (Hlongo ltac:(vm_compute; lia)) as (p & u & Hp & Hu & _ & Hcalc).
  vm_compute in Hp, Hu. injection Hp as <-. injection Hu as <-.
  rewrite (Hcalc eq_refl eq_refl). vm_compute. reflexivity.
Defined.

(** ** Ticker sanitisation *)

(** ** Texts and their characters *)

Lemma corta_fst (s : string) : fst (corta 0 s) = EmptyString.
Proof. destruct s as [| b r]; cbn; [reflexivity |]. now destruct (corta _ r). Qed.

Lemma corta_caracteres (s : string) : corta 0 s = (EmptyString, caracteres s).
Proof.
  unfold caracteres. pose proof (corta_fst s) as Hf.
  destruct (corta 0 s) as [c cs]. cbn in *. now subst c.
Qed.

Lemma junta_cons (c : string) (cs : list string) :
  junta (c :: cs) = (c +:+ junta cs)%string.
Proof. reflexivity. Qed.

Lemma append_cons (b : ascii) (c s : string) :
  (String b c +:+ s)%string = String b (c +:+ s).
Proof. reflexivity. Qed.

Lemma append_nil_l (s : string) : ("" +:+ s)%string = s.
Proof. reflexivity. Qed.

Lemma string_app_assoc (s t u : string) :
  ((s +:+ t) +:+ u)%string = (s +:+ (t +:+ u))%string.
Proof.
  induction s as [| b r IH]; [reflexivity |]. rewrite !append_cons. now rewrite IH.
Qed.

Lemma string_length_app (s t : string) :
  String.length (s +:+ t) = (String.length s + String.length t)%nat.
Proof.
  induction s as [| b r IH]; [reflexivity |].
  rewrite append_cons. cbn [String.length]. now rewrite IH.
Qed.

Lemma junta_corta (n : nat) (s c : string) (cs : list string) :
  corta n s = (c, cs) -> (c +:+ junta cs)%string = s.
Proof.
  revert n c cs. induction s as [| b r IH]; intros n c cs.
  - cbn [corta]. now intros [= <- <-].
  - destruct n as [| n]; cbn [corta].
    + destruct (corta (tamanho b - 1) r) as [c' cs'] eqn:Hr. intros [= <- <-].
      rewrite junta_cons, append_nil_l, append_cons. now rewrite (IH _ _ _ Hr).
    + destruct (corta n r) as [c' cs'] eqn:Hr. intros [= <- <-].
      rewrite append_cons. now rewrite (IH _ _ _ Hr).
Qed.

Lemma junta_caracteres (s : string) : junta (caracteres s) = s.
Proof. exact (junta_corta 0 s "" (caracteres s) (corta_caracteres s)). Qed.

Lemma junta_app (l1 l2 : list string) :
  junta (l1 ++ l2) = (junta l1 +:+ junta l2)%string.
Proof.
  induction l1 as [| c l1 IH]; [reflexivity |].
  cbn [app]. rewrite !junta_cons, IH. symmetry. apply string_app_assoc.
Qed.

Lemma string_app_nil_r (s : string) : (s +:+ "")%string = s.
Proof.
  induction s as [| b r IH]; [reflexivity |]. rewrite append_cons. now rewrite IH.
Qed.

Lemma corta_completa (c s : string) :
  corta (String.length c) (c +:+ s) = (c, caracteres s).
Proof.
  induction c as [| b c IH]; [apply corta_caracteres |].
  rewrite append_cons. cbn [String.length corta]. now rewrite IH.
Qed.

Lemma corta_curta (n : nat) (c : string) :
  (String.length c <= n)%nat -> corta n c = (c, []).
Proof.
  revert n. induction c as [| b c IH]; intros n Hn; [reflexivity |].
  destruct n as [| n]; cbn [String.length] in Hn; [lia |].
  cbn [corta]. rewrite IH by lia. reflexivity.
Qed.

Lemma caracteres_completo (c s : string) :
  completo c = true -> caracteres (c +:+ s) = c :: caracteres s.
Proof.
  destruct c as [| b r]; [discriminate |]. cbn [completo]. intros Hlen.
  apply Nat.eqb_eq in Hlen.
  unfold caracteres at 1. rewrite append_cons. cbn [corta].
  rewrite <- Hlen, corta_completa. reflexivity.
Qed.

Lemma caracteres_truncado (c : string) :
  truncado c = true -> caracteres c = [c].
Proof.
  destruct c as [| b r]; [discriminate |]. cbn [truncado]. intros Hlen.
  apply Nat.ltb_lt in Hlen.
  unfold caracteres. cbn [corta]. rewrite corta_curta by lia. reflexivity.
Qed.

Lemma caracteres_junta (cs : list string) :
  regular cs -> caracteres (junta cs) = cs.
Proof.
  induction 1 as [| c Hc | c cs Hc Hcs IH]; [reflexivity | |].
  - rewrite junta_cons. change (junta []) with "". rewrite string_app_nil_r.
    now apply caracteres_truncado.
  - rewrite junta_cons, (caracteres_completo c _ Hc), IH. reflexivity.
Qed.

Lemma corta_regular (n : nat) (s : string) :
  regular (snd (corta n s)) /\
  (String.length (fst (corta n s)) = n \/
   ((String.length (fst (corta n s)) < n)%nat /\ snd (corta n s) = [])).
Proof.
  revert n. induction s as [| b r IH]; intros n.
  - cbn. split; [constructor |]. destruct n; [left; reflexivity | right; split; [lia | reflexivity]].
  - destruct n as [| n]; cbn [corta].
    + specialize (IH (tamanho b - 1)%nat).
      destruct (corta (tamanho b - 1) r) as [c cs]. cbn [fst snd] in *.
      split; [| left; reflexivity].
      destruct IH as [Hreg [Hlen | [Hlen ->]]].
      * apply regular_cons; [| exact Hreg]. cbn [completo]. now apply Nat.eqb_eq.
      * apply regular_cauda. cbn [truncado]. now apply Nat.ltb_lt.
    + specialize (IH n). destruct (corta n r) as [c cs]. cbn [fst snd String.length] in *.
      destruct IH as [Hreg [Hlen | [Hlen Hnil]]].
      * split; [exact Hreg | left; lia].
      * split; [exact Hreg | right; split; [lia | exact Hnil]].
Qed.

Lemma caracteres_regular (s : string) : regular (caracteres s).
Proof. apply (corta_regular 0 s). Qed.

Lemma regular_app (l cs : list string) :
  Forall (fun c => completo c = true) l -> regular cs -> regular (l ++ cs).
Proof.
  induction 1 as [| c l Hc _ IH]; intros Hcs; [exact Hcs |].
  cbn [app]. apply regular_cons; auto.
Qed.

Lemma regular_lstrip (cs : list string) : regular cs -> regular (lstrip cs).
Proof.
  induction 1 as [| c Hc | c cs Hc Hcs IH]; cbn [lstrip].
  - constructor.
  - destruct (py_isspace c); [constructor | now apply regular_cauda].
  - destruct (py_isspace c); [exact IH | now apply regular_cons].
Qed.

Lemma regular_rstrip (cs : list string) : regular cs -> regular (rstrip cs).
Proof.
  induction 1 as [| c Hc | c cs Hc Hcs IH]; cbn [rstrip].
  - constructor.
  - destruct (py_isspace c); [constructor | now apply regular_cauda].
  - destruct (rstrip cs) as [| x xs].
    + destruct (py_isspace c); [constructor | apply regular_cons; [exact Hc | constructor]].
    + now apply regular_cons.
Qed.

Lemma completo_nao_truncado (c : string) : completo c = true -> truncado c = false.
Proof.
  destruct c as [| b r]; [discriminate |]. cbn. intros Hc. apply Nat.eqb_eq in Hc.
  apply Nat.ltb_ge. lia.
Qed.

(** ** The table of upper-case mappings *)

Lemma maiusculas_ok : forallb entrada_ok maiusculas = true.
Proof. vm_compute. reflexivity. Qed.

Lemma procura_Some (n : N) (tabela : list (N * list N)) (v : list N) :
  procura n tabela = Some v -> In (n, v) tabela.
Proof.
  induction tabela as [| [k w] t IH]; cbn [procura]; [discriminate |].
  destruct (n =? k)%N eqn:Hk.
  - intros [= <-]. apply N.eqb_eq in Hk. subst k. now left.
  - intros Hp. right. now apply IH.
Qed.

Lemma mapa_maiusculo_Some (c : string) (v : list N) :
  mapa_maiusculo c = Some v -> exists k, c = utf8 k /\ In (k, v) maiusculas.
Proof.
  unfold mapa_maiusculo, codificado.
  destruct (String.eqb c (utf8 (ponto c))) eqn:Hc; [| discriminate].
  apply String.eqb_eq in Hc. intros Hp. exists (ponto c).
  split; [exact Hc | now apply procura_Some].
Qed.

Lemma mapa_maiusculo_entrada (c : string) (v : list N) :
  mapa_maiusculo c = Some v ->
  completo c = true /\ py_isspace c = false /\ v <> [] /\
  Forall (fun d => completo (utf8 d) = true /\ py_isspace (utf8 d) = false /\
                   mapa_maiusculo (utf8 d) = None) v.
Proof.
  intros Hp. destruct (mapa_maiusculo_Some _ _ Hp) as (k & -> & Hin).
  pose proof maiusculas_ok as Hok. rewrite forallb_forall in Hok.
  specialize (Hok _ Hin). unfold entrada_ok in Hok. cbn [fst snd] in Hok.
  rewrite !andb_true_iff in Hok. destruct Hok as [[[[_ Hk] Hsp] Hne] Himg].
  split; [exact Hk |]. split; [now apply negb_true_iff |].
  split; [intros ->; discriminate |].
  apply List.Forall_forall. intros d Hd. rewrite forallb_forall in Himg.
  specialize (Himg d Hd). rewrite !andb_true_iff in Himg.
  destruct Himg as [[Hc Hs] Hn].
  split; [exact Hc |]. split; [now apply negb_true_iff |].
  destruct (mapa_maiusculo (utf8 d)); [discriminate | reflexivity].
Qed.

Lemma upper_char_nao_vazio (c : string) : upper_char c <> [].
Proof.
  unfold upper_char. destruct (mapa_maiusculo c) as [v |] eqn:Hp; [| discriminate].
  destruct (mapa_maiusculo_entrada c v Hp) as (_ & _ & Hne & _).
  destruct v; [congruence | discriminate].
Qed.

Lemma upper_char_completo (c : string) :
  completo c = true -> Forall (fun d => completo d = true) (upper_char c).
Proof.
  intros Hc. unfold upper_char. destruct (mapa_maiusculo c) as [v |] eqn:Hp.
  - destruct (mapa_maiusculo_entrada c v Hp) as (_ & _ & _ & Himg).
    apply List.Forall_forall. intros d Hd. apply List.in_map_iff in Hd.
    destruct Hd as (n & <- & Hn). rewrite List.Forall_forall in Himg.
    now destruct (Himg n Hn).
  - constructor; [exact Hc | constructor].
Qed.

Lemma upper_char_truncado (c : string) : truncado c = true -> upper_char c = [c].
Proof.
  intros Hc. unfold upper_char. destruct (mapa_maiusculo c) as [v |] eqn:Hp; [| reflexivity].
  destruct (mapa_maiusculo_entrada c v Hp) as (Hk & _).
  apply completo_nao_truncado in Hk. congruence.
Qed.

Lemma upper_char_espaco (c : string) : py_isspace c = true -> upper_char c = [c].
Proof.
  intros Hc. unfold upper_char. destruct (mapa_maiusculo c) as [v |] eqn:Hp; [| reflexivity].
  destruct (mapa_maiusculo_entrada c v Hp) as (_ & Hs & _). congruence.
Qed.

Lemma upper_char_sem_espaco (c : string) :
  py_isspace c = false -> Forall (fun d => py_isspace d = false) (upper_char c).
Proof.
  intros Hc. unfold upper_char. destruct (mapa_maiusculo c) as [v |] eqn:Hp.
  - destruct (mapa_maiusculo_entrada c v Hp) as (_ & _ & _ & Himg).
    apply List.Forall_forall. intros d Hd. apply List.in_map_iff in Hd.
    destruct Hd as (n & <- & Hn). rewrite List.Forall_forall in Himg.
    now destruct (Himg n Hn) as (_ & Hs & _).
  - constructor; [exact Hc | constructor].
Qed.

Lemma upper_char_idem (c : string) : flat_map upper_char (upper_char c) = upper_char c.
Proof.
  unfold upper_char at 2 3. destruct (mapa_maiusculo c) as [v |] eqn:Hp.
  - destruct (mapa_maiusculo_entrada c v Hp) as (_ & _ & _ & Himg).
    clear Hp. induction Himg as [| d v (_ & _ & Hd) _ IH]; [reflexivity |].
    cbn [map flat_map]. rewrite IH. unfold upper_char. now rewrite Hd.
  - cbn [flat_map]. rewrite app_nil_r. unfold upper_char. now rewrite Hp.
Qed.

Lemma regular_upper (cs : list string) : regular cs -> regular (flat_map upper_char cs).
Proof.
  induction 1 as [| c Hc | c cs Hc Hcs IH]; cbn [flat_map].
  - constructor.
  - rewrite (upper_char_truncado c Hc). now apply regular_cauda.
  - apply regular_app; [now apply upper_char_completo | exact IH].
Qed.

Lemma caracteres_strip (s : string) : caracteres (strip s) = rstrip (lstrip (caracteres s)).
Proof.
  unfold strip. apply caracteres_junta, regular_rstrip, regular_lstrip, caracteres_regular.
Qed.

Lemma caracteres_upper (s : string) :
  caracteres (upper s) = flat_map upper_char (caracteres s).
Proof. unfold upper. apply caracteres_junta, regular_upper, caracteres_regular. Qed.

(** ** [strip] and [upper] *)

Lemma flat_map_upper_idem (cs : list string) :
  flat_map upper_char (flat_map upper_char cs) = flat_map upper_char cs.
Proof.
  induction cs as [| c cs IH]; [reflexivity |].
  cbn [flat_map]. now rewrite flat_map_app, upper_char_idem, IH.
Qed.

Lemma upper_idem (s : string) : upper (upper s) = upper s.
Proof.
  unfold upper at 1. rewrite caracteres_upper, flat_map_upper_idem. reflexivity.
Qed.

Lemma lstrip_fixo (cs : list string) : sem_espaco_inicial cs -> lstrip cs = cs.
Proof. destruct cs as [| c r]; cbn; [reflexivity |]. now intros ->. Qed.

Lemma lstrip_sem_espaco_inicial (cs : list string) : sem_espaco_inicial (lstrip cs).
Proof.
  induction cs as [| c r IH]; cbn [lstrip]; [exact I |].
  destruct (py_isspace c) eqn:Hc; [exact IH | exact Hc].
Qed.

Lemma rstrip_sem_espaco_inicial (cs : list string) :
  sem_espaco_inicial cs -> sem_espaco_inicial (rstrip cs).
Proof.
  destruct cs as [| c r]; cbn [rstrip sem_espaco_inicial]; [auto |]. intros Hc.
  destruct (rstrip r); cbn; [rewrite Hc |]; exact Hc.
Qed.

Lemma rstrip_idem (cs : list string) : rstrip (rstrip cs) = rstrip cs.
Proof.
  induction cs as [| c r IH]; cbn [rstrip]; [reflexivity |].
  destruct (rstrip r) as [| c' r'] eqn:Hr.
  - destruct (py_isspace c) eqn:Hc; cbn [rstrip]; [reflexivity |]. now rewrite Hc.
  - cbn [rstrip]. cbn [rstrip] in IH. rewrite IH. reflexivity.
Qed.

Lemma strip_idem (s : string) : strip (strip s) = strip s.
Proof.
  unfold strip at 1. rewrite caracteres_strip. unfold strip. f_equal.
  rewrite (lstrip_fixo (rstrip (lstrip (caracteres s)))).
  - apply rstrip_idem.
  - apply rstrip_sem_espaco_inicial, lstrip_sem_espaco_inicial.
Qed.

Lemma rstrip_app (l1 l2 : list string) :
  rstrip (l1 ++ l2) = match rstrip l2 with
                      | [] => rstrip l1
                      | r => l1 ++ r
                      end.
Proof.
  induction l1 as [| c l1 IH]; cbn [app rstrip].
  - now destruct (rstrip l2).
  - rewrite IH. destruct (rstrip l2) as [| x xs]; [reflexivity |].
    destruct (l1 ++ x :: xs) eqn:Happ; [| reflexivity].
    destruct l1; discriminate.
Qed.

Lemma rstrip_sem_espacos (l : list string) :
  Forall (fun c => py_isspace c = false) l -> rstrip l = l.
Proof.
  induction 1 as [| c l Hc _ IH]; cbn [rstrip]; [reflexivity |].
  rewrite IH. destruct l; [now rewrite Hc | reflexivity].
Qed.

Lemma lstrip_upper (cs : list string) :
  lstrip (flat_map upper_char cs) = flat_map upper_char (lstrip cs).
Proof.
  induction cs as [| c r IH]; [reflexivity |].
  cbn [flat_map lstrip]. destruct (py_isspace c) eqn:Hc.
  - rewrite (upper_char_espaco c Hc). cbn [app lstrip]. now rewrite Hc.
  - pose proof (upper_char_sem_espaco c Hc) as Hs.
    pose proof (upper_char_nao_vazio c) as Hne.
    cbn [flat_map]. destruct (upper_char c) as [| d ds]; [congruence |].
    apply Forall_inv in Hs. cbn [app lstrip]. now rewrite Hs.
Qed.

Lemma flat_map_upper_nao_vazio (c : string) (cs : list string) :
  flat_map upper_char (c :: cs) <> [].
Proof.
  cbn [flat_map]. pose proof (upper_char_nao_vazio c) as Hne.
  destruct (upper_char c); [congruence | discriminate].
Qed.

Lemma rstrip_upper (cs : list string) :
  rstrip (flat_map upper_char cs) = flat_map upper_char (rstrip cs).
Proof.
  induction cs as [| c r IH]; [reflexivity |].
  cbn [flat_map rstrip]. rewrite rstrip_app, IH.
  destruct (rstrip r) as [| x xs] eqn:Hr.
  - cbn [flat_map]. destruct (py_isspace c) eqn:Hc.
    + rewrite (upper_char_espaco c Hc). cbn [rstrip]. now rewrite Hc.
    + cbn [flat_map]. rewrite app_nil_r.
      apply rstrip_sem_espacos, upper_char_sem_espaco, Hc.
  - pose proof (flat_map_upper_nao_vazio x xs) as Hne.
    change (flat_map upper_char (c :: x :: xs))
      with (upper_char c ++ flat_map upper_char (x :: xs)).
    destruct (flat_map upper_char (x :: xs)) as [| y ys]; [congruence | reflexivity].
Qed.

Lemma strip_upper (s : string) : strip (upper s) = upper (strip s).
Proof.
  unfold strip at 1. rewrite caracteres_upper, lstrip_upper, rstrip_upper.
  unfold upper. now rewrite caracteres_strip.
Qed.

(** ** Texts of the character class *)

Lemma classe_ticker_chars (b : ascii) :
  classe_ticker b = true ->
  tamanho b = 1%nat /\ py_isspace (String b "") = false /\
  upper_char (String b "") = [String b ""].
Proof.
  destruct b as [[] [] [] [] [] [] [] []]; vm_compute; intros Hc;
    try discriminate; repeat split; reflexivity.
Qed.

Lemma lf_chars :
  tamanho "010" = 1%nat /\ py_isspace (String "010" "") = true /\
  classe_ticker "010" = false.
Proof. vm_compute. repeat split; reflexivity. Qed.

Lemma caracteres_unitarios (s : string) :
  string_forallb (fun b => (tamanho b =? 1)%nat) s = true ->
  caracteres s = unitarios s.
Proof.
  induction s as [| b r IH]; [reflexivity |].
  cbn [string_forallb]. intros Hs. apply andb_true_iff in Hs. destruct Hs as [Hb Hr].
  apply Nat.eqb_eq in Hb.
  unfold caracteres. cbn [corta]. rewrite Hb. cbn [Nat.sub].
  rewrite corta_caracteres, (IH Hr). reflexivity.
Qed.

Lemma junta_unitarios (s : string) : junta (unitarios s) = s.
Proof.
  induction s as [| b r IH]; [reflexivity |].
  cbn [unitarios]. rewrite junta_cons, IH. reflexivity.
Qed.

Lemma string_forallb_impl (p q : ascii -> bool) (s : string) :
  (forall b, p b = true -> q b = true) ->
  string_forallb p s = true -> string_forallb q s = true.
Proof.
  intros Hpq. induction s as [| b r IH]; [reflexivity |].
  cbn [string_forallb]. intros Hs. apply andb_true_iff in Hs. destruct Hs as [Hb Hr].
  now rewrite (Hpq b Hb), (IH Hr).
Qed.

Lemma caracteres_classe (s : string) :
  string_forallb classe_ticker s = true ->
  caracteres s = unitarios s /\
  Forall (fun c => py_isspace c = false /\ upper_char c = [c]) (unitarios s).
Proof.
  intros Hs. split.
  - apply caracteres_unitarios. revert Hs. apply string_forallb_impl.
    intros b Hb. apply Nat.eqb_eq. now apply classe_ticker_chars.
  - induction s as [| b r IH]; [constructor |].
    cbn [string_forallb] in Hs. apply andb_true_iff in Hs. destruct Hs as [Hb Hr].
    cbn [unitarios]. constructor; [| now apply IH].
    now destruct (classe_ticker_chars b Hb) as (_ & Hsp & Hup).
Qed.

Lemma flat_map_fixo {A : Type} (f : A -> list A) (l : list A) :
  Forall (fun x => f x = [x]) l -> flat_map f l = l.
Proof. induction 1 as [| x l Hx _ IH]; [reflexivity |]. cbn. now rewrite Hx, IH. Qed.

Lemma forallb_classe_fixo (s : string) :
  string_forallb classe_ticker s = true -> strip s = s /\ upper s = s.
Proof.
  intros Hs. destruct (caracteres_classe s Hs) as [Hcar Hall].
  unfold strip, upper. rewrite Hcar. split.
  - rewrite lstrip_fixo, rstrip_sem_espacos.
    + apply junta_unitarios.
    + eapply List.Forall_impl; [| exact Hall]. cbn. now intros c [Hc _].
    + destruct (unitarios s) as [| c cs]; [exact I |].
      apply Forall_inv in Hall. cbn. now destruct Hall.
  - rewrite flat_map_fixo; [apply junta_unitarios |].
    eapply List.Forall_impl; [| exact Hall]. cbn. now intros c [_ Hc].
Qed.

(** ** The pattern on a trimmed text *)

Lemma sem_lf_final_casos (s : string) :
  sem_lf_final s = s \/ s = (sem_lf_final s +:+ String "010" "")%string.
Proof.
  induction s as [| b r IH]; [now left |].
  destruct r as [| b' r'].
  - cbn [sem_lf_final]. destruct (Ascii.eqb b "010") eqn:Hb; [| now left].
    apply Ascii.eqb_eq in Hb. subst b. now right.
  - change (sem_lf_final (String b (String b' r')))
      with (String b (sem_lf_final (String b' r'))).
    destruct IH as [IH | IH]; [left; now rewrite IH | right].
    rewrite append_cons. f_equal. exact IH.
Qed.

Lemma string_forallb_app (p : ascii -> bool) (s t : string) :
  string_forallb p (s +:+ t) = string_forallb p s && string_forallb p t.
Proof.
  induction s as [| b r IH]; [reflexivity |].
  rewrite append_cons. cbn [string_forallb]. now rewrite IH, andb_assoc.
Qed.

Lemma unitarios_app (s t : string) : unitarios (s +:+ t) = unitarios s ++ unitarios t.
Proof.
  induction s as [| b r IH]; [reflexivity |].
  rewrite append_cons. cbn [unitarios app]. now rewrite IH.
Qed.

(** A text of the class followed by a line feed loses the line feed to
    [strip]. *)
Lemma strip_classe_lf (corpo : string) :
  string_forallb classe_ticker corpo = true ->
  strip (corpo +:+ String "010" "") = corpo.
Proof.
  intros Hc. destruct (caracteres_classe corpo Hc) as [_ Hall].
  destruct lf_chars as (Hlf1 & Hlf2 & _).
  assert (Hcar : caracteres (corpo +:+ String "010" "")
                 = unitarios corpo ++ [String "010" ""]).
  { rewrite caracteres_unitarios, unitarios_app; [reflexivity |].
    rewrite string_forallb_app. apply andb_true_iff. split.
    - revert Hc. apply string_forallb_impl.
      intros b Hb. apply Nat.eqb_eq. now apply classe_ticker_chars.
    - cbn [string_forallb]. now rewrite Hlf1. }
  assert (Hsem : Forall (fun c => py_isspace c = false) (unitarios corpo)).
  { eapply List.Forall_impl; [| exact Hall]. cbn. now intros c [Hs _]. }
  unfold strip. rewrite Hcar.
  destruct (unitarios corpo) as [| c cs] eqn:Hu.
  - cbn [app lstrip]. rewrite Hlf2. cbn.
    destruct corpo; [reflexivity | discriminate].
  - cbn [app lstrip]. rewrite (Forall_inv Hsem).
    change (c :: cs ++ [String "010" ""]) with ((c :: cs) ++ [String "010" ""]).
    assert (Hfim : rstrip [String "010" ""] = []) by (cbn [rstrip]; now rewrite Hlf2).
    rewrite rstrip_app, Hfim, (rstrip_sem_espacos _ Hsem), <- Hu.
    apply junta_unitarios.
Qed.

(** On a trimmed text the pattern asks for a non-empty run of the
    class: the line feed that [$] tolerates cannot be there. *)
Lemma padrao_match_aparado (u : string) :
  strip u = u ->
  padrao_match u = negb (String.eqb u "") && string_forallb classe_ticker u.
Proof.
  intros Hu. unfold padrao_match. cbv zeta.
  destruct (sem_lf_final_casos u) as [-> | Hlf]; [reflexivity |].
  set (corpo := sem_lf_final u) in *.
  destruct lf_chars as (_ & _ & Hlf3).
  assert (Hdir : string_forallb classe_ticker u = false).
  { rewrite Hlf, string_forallb_app. cbn [string_forallb]. rewrite Hlf3.
    now rewrite andb_false_r. }
  rewrite Hdir, andb_false_r.
  destruct (string_forallb classe_ticker corpo) eqn:Hc; [| apply andb_false_r].
  exfalso. pose proof (strip_classe_lf corpo Hc) as Hs.
  rewrite <- Hlf, Hu in Hs.
  apply (f_equal String.length) in Hs. rewrite Hlf in Hs at 1.
  rewrite string_length_app in Hs. cbn in Hs. lia.
Qed.

Lemma strip_upper_strip (t : string) : strip (upper (strip t)) = upper (strip t).
Proof. now rewrite strip_upper, strip_idem. Qed.

(** A token that [sanitizar_tickers] normalised and [validar_ticker]
    accepted consists of characters of the class only. *)
Lemma ticker_valido_na_classe (bruto : string) :
  validar_ticker (upper (strip bruto)) = true ->
  upper (strip bruto) <> "" /\
  string_forallb classe_ticker (upper (strip bruto)) = true /\
  padrao_match (upper (strip bruto)) = true.
Proof.
  set (t := upper (strip bruto)). unfold validar_ticker.
  destruct (String.eqb t "") eqn:Hvazio; [discriminate |].
  assert (Hst : strip t = t) by (subst t; apply strip_upper_strip).
  assert (Hfix : upper (strip t) = t) by (rewrite Hst; subst t; apply upper_idem).
  rewrite Hfix. intros Hp. split.
  - intros Ht. rewrite Ht in Hvazio. discriminate.
  - split; [| exact Hp].
    rewrite (padrao_match_aparado t Hst) in Hp.
    apply andb_true_iff in Hp. now destruct Hp.
Qed.

Lemma In_firstn_In {A : Type} (n : nat) (l : list A) (x : A) :
  In x (firstn n l) -> In x l.
Proof.
  intros Hx. rewrite <- (firstn_skipn n l). apply in_or_app. now left.
Qed.

(** C3 (as the code has it). The sanitised list is the valid tokens of
    the input in input order, cut to the first 20: every token in it is a
    trimmed, uppercased piece of the comma-separated input that matches
    [^[A-Z0-9\.\-]+$], and there are at most 20.  Nothing removes a token
    for having occurred before. *)
Theorem sanitizar_tickers_validos_em_ordem (ticker_input : string) :
  let saida := fst (sanitizar_tickers ticker_input) in
  saida = firstn MAX_TICKERS_PERMITIDOS
            (List.filter validar_ticker (tickers_brutos ticker_input)) /\
  Forall (fun t =>
            (exists bruto, In bruto (split_on "," ticker_input) /\ t = upper (strip bruto)) /\
            padrao_match t = true /\
            string_forallb classe_ticker t = true /\
            String.eqb t "" = false /\
            strip t = t /\ upper t = t) saida /\
  (length saida <= MAX_TICKERS_PERMITIDOS)%nat /\
  MAX_TICKERS_PERMITIDOS = 20%nat.
Proof.
  cbv zeta.
  assert (Heq : fst (sanitizar_tickers ticker_input)
                = firstn MAX_TICKERS_PERMITIDOS
                    (List.filter validar_ticker (tickers_brutos ticker_input))).
  { unfold sanitizar_tickers.
    destruct (String.eqb ticker_input "") eqn:Hv.
    - apply String.eqb_eq in Hv. subst ticker_input. reflexivity.
    - cbv zeta.
      destruct (MAX_TICKERS_PERMITIDOS
                <? length (List.filter validar_ticker (tickers_brutos ticker_input)))%nat
        eqn:Hmax; cbn [fst]; [reflexivity |].
      apply Nat.ltb_ge in Hmax. symmetry. now apply firstn_all2. }
  split; [exact Heq |]. split; [| split; [| reflexivity]].
  - rewrite Heq. apply List.Forall_forall. intros t Ht.
    apply In_firstn_In in Ht. apply List.filter_In in Ht. destruct Ht as [Hin Hval].
    unfold tickers_brutos in Hin. apply List.in_map_iff in Hin.
    destruct Hin as (bruto & <- & Hb). apply List.filter_In in Hb. destruct Hb as [Hb _].
    destruct (ticker_valido_na_classe bruto Hval) as (Hne & Hcls & Hpad).
    destruct (forallb_classe_fixo _ Hcls) as [Hst Hup].
    split; [exists bruto; auto |].
    split; [exact Hpad |]. split; [exact Hcls |].
    split; [| split; assumption].
    apply String.eqb_neq. exact Hne.
  - rewrite Heq. rewrite length_firstn. lia.
Qed.

(** The same ticker entered twice, in two spellings, is kept twice. *)
Lemma sanitizar_tickers_mantem_repetidos :
  fst (sanitizar_tickers "PETR4.SA, petr4.sa") = ["PETR4.SA"; "PETR4.SA"].
Proof. vm_compute. reflexivity. Qed.

(** Twenty-two valid tokens: the first twenty survive, with one warning
    for the two in excess. *)
Example sanitizar_tickers_limite :
  sanitizar_tickers "A1,A2,A3,A4,A5,A6,A7,A8,A9,A10,A11,A12,A13,A14,A15,A16,A17,A18,A19,A20,A21,A22"
  = (["A1"; "A2"; "A3"; "A4"; "A5"; "A6"; "A7"; "A8"; "A9"; "A10";
      "A11"; "A12"; "A13"; "A14"; "A15"; "A16"; "A17"; "A18"; "A19"; "A20"],
     [AvisoLimite 2]).
Proof. vm_compute. reflexivity. Qed.

(** White space and letters outside ASCII are handled as Python handles
    them: the no-break space after the first symbol is trimmed, the
    dotless i of the second becomes I, and the sharp s becomes SS, a run
    of the class. *)
Example sanitizar_tickers_fora_do_ascii :
  sanitizar_tickers
    ("PETR4" +:+ utf8 0xA0 +:+ ",petr" +:+ utf8 0x131 +:+ ", " +:+ utf8 0xDF
     +:+ "," +:+ utf8 0xE9)
  = (["PETR4"; "PETRI"; "SS"], [AvisoInvalidos {[ utf8 0xC9 ]}]).
Proof. vm_compute. reflexivity. Qed.

(** Every code point of the white-space list is recognised in its
    encoded form. *)
Example espacos_reconhecidos :
  forallb (fun n => py_isspace (utf8 n)) espacos = true.
Proof. vm_compute. reflexivity. Qed.

(** ** Annual dividends *)

(** Three years asked for on 3 November 2026: the window starts on
    4 November 2023 and holds the complete years 2023, 2024 and 2025,
    which are returned oldest first with their mean and median. *)
Example obter_dados_dpa_tres_anos :
  obter_dados_dpa (H := runtime_estavel) gw_uma_falha clk_2026 "AAAA3.SA" 3
  = ([AcDividends],
     Ok ([ {| Ano := 2023; DPA := 1; Ticker_ := "AAAA3.SA" |};
           {| Ano := 2024; DPA := 1.5; Ticker_ := "AAAA3.SA" |};
           {| Ano := 2025; DPA := 1.5; Ticker_ := "AAAA3.SA" |} ],
         1.3333333333333333%float, 1.5%float, "")).
Proof. vm_compute. reflexivity. Qed.

(** Two years asked for: the window starts on 3 November 2024, the
    payment of 1 November 2024 falls outside it, and a single complete
    year is left. *)
Example obter_dados_dpa_dois_anos :
  result (obter_dados_dpa (H := runtime_estavel) gw_uma_falha clk_2026 "AAAA3.SA" 2)
  = Ok ([ {| Ano := 2025; DPA := 1.5; Ticker_ := "AAAA3.SA" |} ],
        1.5%float, 1.5%float, "").
Proof. vm_compute. reflexivity. Qed.

(** ** The order of floats

    [<=?] on floats that are numbers is a total preorder: it is the
    lexicographic order of the triple (sign class, exponent, mantissa)
    read off the IEEE-754 decomposition. *)

Lemma lex_le_trans (p q r : Z * Z * Z) : lex_le p q -> lex_le q r -> lex_le p r.
Proof. destruct p as [[? ?] ?], q as [[? ?] ?], r as [[? ?] ?]. unfold lex_le. lia. Qed.

Lemma lex_le_total (p q : Z * Z * Z) : lex_le p q \/ lex_le q p.
Proof. destruct p as [[? ?] ?], q as [[? ?] ?]. unfold lex_le. lia. Qed.

Ltac decide_lex :=
  split; intros Hx; first [reflexivity | discriminate | lia | (exfalso; lia) | idtac].

Lemma SFleb_posto (a b : spec_float) :
  sf_num a = true -> sf_num b = true ->
  (SFleb a b = true <-> lex_le (posto a) (posto b)).
Proof.
  destruct a as [sa | sa | | sa ma ea], b as [sb | sb | | sb mb eb];
    cbn [sf_num]; try discriminate; intros _ _;
    try destruct sa; try destruct sb;
    unfold SFleb, lex_le, posto, SFcompare;
    try (decide_lex; fail).
  - fold (Pos.compare ma mb).
    destruct (Z.compare_spec ea eb) as [He | He | He];
      [destruct (Pos.compare_spec ma mb) as [Hm | Hm | Hm] | |];
      cbn [CompOpp]; decide_lex.
  - fold (Pos.compare ma mb).
    destruct (Z.compare_spec ea eb) as [He | He | He];
      [destruct (Pos.compare_spec ma mb) as [Hm | Hm | Hm] | |];
      decide_lex.
Qed.

Lemma SFeqb_refl_num (a : spec_float) : SFeqb a a = sf_num a.
Proof.
  destruct a as [s | s | | s m e]; unfold SFeqb; cbn [sf_num].
  - reflexivity.
  - destruct s; reflexivity.
  - reflexivity.
  - rewrite SFcompare_finite_refl. reflexivity.
Qed.

Lemma is_nan_sf_num (x : float) : is_nan x = negb (sf_num (Prim2SF x)).
Proof. unfold is_nan. now rewrite FloatAxioms.eqb_spec, SFeqb_refl_num. Qed.

Lemma SFleb_num_r (a b : spec_float) : SFleb a b = true -> sf_num a = true /\ sf_num b = true.
Proof.
  destruct a as [sa | sa | | sa ma ea], b as [sb | sb | | sb mb eb];
    unfold SFleb; cbn; try discriminate; auto.
Qed.

Lemma desc_nan_last_total (x y : float) :
  desc_nan_last x y = true \/ desc_nan_last y x = true.
Proof.
  unfold desc_nan_last. rewrite !is_nan_sf_num, !FloatAxioms.leb_spec.
  destruct (sf_num (Prim2SF y)) eqn:Hy; [| now left].
  destruct (sf_num (Prim2SF x)) eqn:Hx; [| now right].
  cbn. destruct (lex_le_total (posto (Prim2SF y)) (posto (Prim2SF x))) as [Hl | Hl].
  - left. now apply SFleb_posto.
  - right. now apply SFleb_posto.
Qed.

Lemma desc_nan_last_trans (x y z : float) :
  desc_nan_last x y = true -> desc_nan_last y z = true -> desc_nan_last x z = true.
Proof.
  unfold desc_nan_last. rewrite !is_nan_sf_num, !FloatAxioms.leb_spec.
  destruct (sf_num (Prim2SF z)) eqn:Hz; [| reflexivity].
  cbn [negb orb]. intros Hxy Hyz.
  destruct (SFleb_num_r _ _ Hyz) as [_ Hy]. rewrite Hy in Hxy. cbn in Hxy.
  destruct (SFleb_num_r _ _ Hxy) as [_ Hx].
  apply SFleb_posto; auto.
  apply SFleb_posto in Hxy; auto. apply SFleb_posto in Hyz; auto.
  eapply lex_le_trans; eassumption.
Qed.

#[global] Instance desc_por_trans {A : Type} (key : A -> float) : Transitive (desc_por key).
Proof. intros a b c. apply desc_nan_last_trans. Qed.

#[global] Instance desc_por_total {A : Type} (key : A -> float) : Total (desc_por key).
Proof. intros a b. apply desc_nan_last_total. Qed.

(** ** Sorting the valuation table *)

Lemma StronglySorted_rev_flip {A : Type} (R : relation A) (l : list A) :
  StronglySorted (flip R) l -> StronglySorted R (rev l).
Proof.
  induction 1 as [| x l Hs IH Hx]; cbn; [constructor |].
  clear Hs. revert IH. generalize (rev_involutive l).
  assert (Hall : Forall (fun y => R y x) (rev l)).
  { apply List.Forall_forall. intros y Hy. apply List.in_rev in Hy.
    rewrite List.Forall_forall in Hx. now apply Hx. }
  clear Hx. intros _. induction (rev l) as [| y r IHr]; intros Hs; cbn.
  - repeat constructor.
  - apply StronglySorted_inv in Hs. destruct Hs as [Hs Hy].
    apply Forall_inv in Hall as Hyx. apply Forall_inv_tail in Hall.
    constructor; [now apply IHr |].
    apply List.Forall_forall. intros z Hz. apply in_app_or in Hz.
    destruct Hz as [Hz | [<- | []]]; [| exact Hyx].
    rewrite List.Forall_forall in Hy. now apply Hy.
Qed.

(** The merge sort meets the contract of [sort_values]. *)
Lemma sort_desc_estavel_contrato : contrato_sort_values sort_desc_estavel.
Proof.
  intros A key l. unfold sort_desc_estavel. split.
  - apply merge_sort_Permutation.
  - apply (StronglySorted_merge_sort (desc_por key)); apply _.
Qed.

(** ** The pipeline never raises *)

Lemma try_io_ret_ok {A : Type} (m : io A) (d : string -> A) :
  exists t a, try_io m (fun e => ret (d e)) = (t, Ok a).
Proof. destruct m as [t [a | e]]; cbn; eauto. Qed.

Lemma obter_dados_dpa_ok `{Runtime} gw clk ticker anos :
  exists t a, obter_dados_dpa gw clk ticker anos = (t, Ok a).
Proof. apply try_io_ret_ok. Qed.

Lemma obter_dados_fundamentalistas_ok `{Runtime} gw ticker :
  exists t a, obter_dados_fundamentalistas gw ticker = (t, Ok a).
Proof. apply try_io_ret_ok. Qed.

Lemma obter_dados_cagr_ok `{Runtime} gw ticker years :
  exists t a, obter_dados_cagr gw ticker years = (t, Ok a).
Proof. apply try_io_ret_ok. Qed.

Lemma obter_sazonalidade_ok `{Runtime} gw ticker anos :
  exists t a, obter_sazonalidade_e_dividendos gw ticker anos = (t, Ok a).
Proof. apply try_io_ret_ok. Qed.

Lemma obter_preco_atual_ok `{Runtime} gw ticker :
  exists t a, obter_preco_atual gw ticker = (t, Ok a).
Proof. apply try_io_ret_ok. Qed.

(** [processar_ticker] always returns a result, and the result carries
    the ticker it was asked for. *)
Lemma processar_ticker_ok `{Runtime} gw clk ticker anos taxa :
  exists t r,
    processar_ticker gw clk ticker anos taxa = (t, Ok r) /\
    v_ticker (r_v r) = ticker /\ s_ticker (r_s r) = ticker /\
    x_ticker (r_i_extras r) = ticker.
Proof.
  unfold processar_ticker.
  destruct (obter_dados_dpa_ok gw clk ticker anos) as (t1 & [[[df m] md] err] & ->).
  destruct (obter_dados_fundamentalistas_ok gw ticker) as (t2 & dados & ->).
  destruct (obter_dados_cagr_ok gw ticker 5) as (t3 & cagr & ->).
  destruct (obter_sazonalidade_ok gw ticker anos) as (t4 & [mp mb] & ->).
  destruct (obter_preco_atual_ok gw ticker) as (t5 & preco & ->).
  rewrite !bind_io_ok. unfold lift.
  destruct (calcular_preco_graham _ _) as [g | e].
  - rewrite bind_io_ok. cbn. eexists _, _. split; [reflexivity |]. cbn. auto.
  - cbn. eexists _, _. split; [reflexivity |]. cbn. auto.
Qed.

(** ** A provider that fails on every call *)

Lemma processar_ticker_em_falha `{Runtime} gw clk ticker anos taxa :
  provedor_em_falha (gw ticker) ->
  exists t, processar_ticker gw clk ticker anos taxa = (t, Ok (resultado_minimo ticker)).
Proof.
  intros ([e1 Hinfo] & _ & [e3 Hfin] & _ & [e5 Hdiv] & Hhist).
  destruct (Hhist anos) as [e6 Hh].
  unfold processar_ticker, obter_dados_dpa, obter_dados_fundamentalistas,
    obter_dados_cagr, obter_sazonalidade_e_dividendos, obter_preco_atual, fetch.
  rewrite Hinfo, Hfin, Hdiv, Hh. cbn.
  rewrite (left_id_L ∅ (∪)).
  unfold dict_get. rewrite !lookup_singleton_ne by discriminate.
  cbn. unfold calcular_payout_ratio, dict_get.
  rewrite !lookup_singleton_ne by discriminate.
  eexists. reflexivity.
Qed.


(** ** The batch loop *)

Lemma futures_ok `{Runtime} gw clk anos taxa (tickers : list string) :
  map (fun t => result (processar_ticker gw (clk t) t anos taxa)) tickers
  = map (fun t => Ok (resultado_de gw clk anos taxa t)) tickers.
Proof.
  apply map_ext. intros t. unfold resultado_de.
  destruct (processar_ticker_ok gw (clk t) t anos taxa) as (tr & r & -> & _).
  reflexivity.
Qed.


Lemma flat_map_entrada_seq {X : Type} (proj : Resultado -> X) (rs : list Resultado) :
  flat_map (entrada proj rs) (seq 0 (length rs)) = map proj rs.
Proof.
  induction rs as [| r rs IH]; [reflexivity |].
  cbn [length seq flat_map map]. unfold entrada at 1. cbn [nth_error app].
  f_equal. rewrite <- seq_shift, flat_map_concat_map, map_map, <- flat_map_concat_map.
  exact IH.
Qed.

Lemma coletados_permutacao {X : Type} (proj : Resultado -> X)
    (rs : list Resultado) (ordem : list nat) :
  Permutation ordem (seq 0 (length rs)) ->
  Permutation (flat_map (entrada proj rs) ordem) (map proj rs).
Proof.
  intros Hperm. rewrite <- flat_map_entrada_seq.
  now apply Permutation_flat_map.
Qed.



(** * Further properties of the module *)

(** ** Validation on its own *)

Lemma strip_vazio : strip "" = "".
Proof. reflexivity. Qed.

Lemma validar_ticker_booleano (u : string) :
  validar_ticker u
  = negb (String.eqb (upper (strip u)) "")
    && string_forallb classe_ticker (upper (strip u)).
Proof.
  unfold validar_ticker.
  destruct (String.eqb u "") eqn:Hu.
  - apply String.eqb_eq in Hu. subst u. reflexivity.
  - apply padrao_match_aparado, strip_upper_strip.
Qed.

(** X1. [validar_ticker] looks at the trimmed, uppercased text only: it
    accepts a text exactly when that form is a non-empty run of characters
    of the class, so white space around a symbol and lower-case letters do
    not matter, and validating the normalised form gives the same
    answer. *)
Theorem validar_ticker_forma_normalizada (t : string) :
  validar_ticker t
  = negb (String.eqb (upper (strip t)) "")
    && string_forallb classe_ticker (upper (strip t)) /\
  validar_ticker (upper (strip t)) = validar_ticker t.
Proof.
  split; [apply validar_ticker_booleano |].
  rewrite (validar_ticker_booleano (upper (strip t))), (validar_ticker_booleano t).
  assert (Hfix : upper (strip (upper (strip t))) = upper (strip t)).
  { rewrite <- (strip_upper t), strip_idem, strip_upper. apply upper_idem. }
  now rewrite Hfix.
Qed.

(** ** Sanitising twice *)

Lemma sanitizar_tickers_fst (ticker_input : string) :
  fst (sanitizar_tickers ticker_input)
  = firstn MAX_TICKERS_PERMITIDOS
      (List.filter validar_ticker (tickers_brutos ticker_input)).
Proof.
  unfold sanitizar_tickers.
  destruct (String.eqb ticker_input "") eqn:Hv.
  - apply String.eqb_eq in Hv. subst ticker_input. reflexivity.
  - cbv zeta.
    destruct (MAX_TICKERS_PERMITIDOS
              <? length (List.filter validar_ticker (tickers_brutos ticker_input)))%nat
      eqn:Hmax; cbn [fst]; [reflexivity |].
    apply Nat.ltb_ge in Hmax. symmetry. now apply firstn_all2.
Qed.

Lemma sanitizar_tickers_limpos (ticker_input : string) :
  Forall token_limpo (fst (sanitizar_tickers ticker_input)).
Proof.
  rewrite sanitizar_tickers_fst. apply List.Forall_forall. intros t Ht.
  apply In_firstn_In in Ht. apply List.filter_In in Ht. destruct Ht as [Hin Hval].
  unfold tickers_brutos in Hin. apply List.in_map_iff in Hin.
  destruct Hin as (bruto & <- & _).
  destruct (ticker_valido_na_classe bruto Hval) as (Hne & Hcls & _).
  split; [now apply String.eqb_neq | exact Hcls].
Qed.

Lemma token_limpo_fixo (t : string) :
  token_limpo t ->
  strip t = t /\ upper t = t /\ validar_ticker t = true /\
  string_forallb (fun c => negb (Ascii.eqb c ",")) t = true.
Proof.
  intros [Hne Hcls]. destruct (forallb_classe_fixo t Hcls) as [Hst Hup].
  split; [exact Hst |]. split; [exact Hup |]. split.
  - rewrite validar_ticker_booleano, Hst, Hup, Hne, Hcls. reflexivity.
  - clear Hne Hst Hup. induction t as [| c r IH]; [reflexivity |].
    cbn in Hcls |- *. apply andb_true_iff in Hcls. destruct Hcls as [Hc Hr].
    rewrite (IH Hr), andb_true_r.
    destruct (Ascii.eqb c ",") eqn:Hv; [| reflexivity].
    apply Ascii.eqb_eq in Hv. subst c. discriminate.
Qed.

Lemma split_on_sem_separador (sep : ascii) (t : string) :
  string_forallb (fun c => negb (Ascii.eqb c sep)) t = true ->
  split_on sep t = [t].
Proof.
  induction t as [| c r IH]; cbn; [reflexivity |].
  intros Ht. apply andb_true_iff in Ht. destruct Ht as [Hc Hr].
  apply negb_true_iff in Hc. rewrite Hc, (IH Hr). reflexivity.
Qed.

Lemma split_on_append (sep : ascii) (t r : string) :
  string_forallb (fun c => negb (Ascii.eqb c sep)) t = true ->
  split_on sep (t +:+ String sep r) = t :: split_on sep r.
Proof.
  induction t as [| c t IH].
  - intros _. change ("" +:+ String sep r) with (String sep r).
    cbn [split_on]. now rewrite Ascii.eqb_refl.
  - cbn [string_forallb]. intros Ht. apply andb_true_iff in Ht.
    destruct Ht as [Hc Hr]. apply negb_true_iff in Hc.
    change (String c t +:+ String sep r) with (String c (t +:+ String sep r)).
    cbn [split_on]. rewrite Hc, (IH Hr). reflexivity.
Qed.

Lemma split_on_juntar_virgulas (l : list string) :
  l <> [] ->
  Forall (fun t => string_forallb (fun c => negb (Ascii.eqb c ",")) t = true) l ->
  split_on "," (juntar_virgulas l) = l.
Proof.
  induction l as [| x l IH]; [congruence |]. intros _ Hall.
  apply Forall_cons_iff in Hall. destruct Hall as [Hx Hl].
  destruct l as [| y l].
  - cbn. now apply split_on_sem_separador.
  - change (juntar_virgulas (x :: y :: l))
      with (x +:+ String "," (juntar_virgulas (y :: l))).
    rewrite (split_on_append _ _ _ Hx). f_equal. apply IH; [discriminate | exact Hl].
Qed.

Lemma brutos_de_limpos (l : list string) :
  Forall token_limpo l ->
  map (fun t => upper (strip t))
      (List.filter (fun t => negb (String.eqb (strip t) "")) l) = l /\
  List.filter validar_ticker l = l.
Proof.
  induction 1 as [| t l Ht Hl [IH1 IH2]]; [split; reflexivity |].
  destruct (token_limpo_fixo t Ht) as (Hst & Hup & Hval & _).
  destruct Ht as [Hne _].
  cbn. rewrite Hst, Hne, Hval. cbn. rewrite Hst, Hup, IH1, IH2. split; reflexivity.
Qed.

(** X2. Sanitising is idempotent through the comma-joined text: joining
    the sanitised tickers with commas and sanitising that text gives the
    same list back, without any warning. *)
Theorem sanitizar_tickers_ida_e_volta (ticker_input : string) :
  sanitizar_tickers (juntar_virgulas (fst (sanitizar_tickers ticker_input)))
  = (fst (sanitizar_tickers ticker_input), []).
Proof.
  pose proof (sanitizar_tickers_limpos ticker_input) as Hlimpos.
  assert (Hlen : (length (fst (sanitizar_tickers ticker_input))
                  <= MAX_TICKERS_PERMITIDOS)%nat).
  { rewrite sanitizar_tickers_fst, length_firstn. lia. }
  set (saida := fst (sanitizar_tickers ticker_input)) in *.
  destruct saida as [| x l] eqn:Hs; [reflexivity |].
  assert (Hsplit : split_on "," (juntar_virgulas (x :: l)) = x :: l).
  { apply split_on_juntar_virgulas; [discriminate |].
    eapply Forall_impl; [exact Hlimpos |]. intros t Ht. apply (token_limpo_fixo t Ht). }
  destruct (brutos_de_limpos _ Hlimpos) as [Hbr Hval].
  unfold sanitizar_tickers.
  assert (Hne : String.eqb (juntar_virgulas (x :: l)) "" = false).
  { apply Forall_inv in Hlimpos. destruct Hlimpos as [Hx _].
    destruct x as [| c x']; [discriminate |]. destruct l; reflexivity. }
  rewrite Hne. cbv zeta. unfold tickers_brutos. rewrite Hsplit, Hbr, Hval.
  rewrite Nat.ltb_irrefl.
  assert (Hmax : (MAX_TICKERS_PERMITIDOS <? length (x :: l))%nat = false)
    by (apply Nat.ltb_ge; exact Hlen).
  rewrite Hmax. reflexivity.
Qed.

(** ** The warnings of the sanitiser *)

Lemma filter_length_lt {A : Type} (p : A -> bool) (l : list A) :
  (length (List.filter p l) < length l)%nat <->
  exists x, In x l /\ p x = false.
Proof.
  induction l as [| a l IH]; cbn.
  - split; [lia | intros (x & [] & _)].
  - pose proof (List.filter_length_le p l) as Hle.
    destruct (p a) eqn:Hpa; cbn.
    + rewrite <- Nat.succ_lt_mono, IH. split.
      * intros (x & Hin & Hx). exists x. auto.
      * intros (x & [-> | Hin] & Hx); [congruence | exists x; auto].
    + split; [| lia]. intros _. exists a. auto.
Qed.

Lemma sanitizar_tickers_sem_atalho (ticker_input : string) :
  sanitizar_tickers ticker_input
  = let brutos := tickers_brutos ticker_input in
    let validos := List.filter validar_ticker brutos in
    let avisos1 :=
      if (length validos <? length brutos)%nat
      then [AvisoInvalidos (list_to_set brutos ∖ list_to_set validos)]
      else [] in
    if (MAX_TICKERS_PERMITIDOS <? length validos)%nat
    then (firstn MAX_TICKERS_PERMITIDOS validos,
          avisos1 ++ [AvisoLimite (length validos - MAX_TICKERS_PERMITIDOS)])
    else (validos, avisos1).
Proof.
  unfold sanitizar_tickers.
  destruct (String.eqb ticker_input "") eqn:Hv; [| reflexivity].
  apply String.eqb_eq in Hv. subst ticker_input. reflexivity.
Qed.

(** X3. The warnings say what was dropped.  A warning about invalid
    symbols is issued exactly when some normalised token fails the
    validation, and the set it carries is exactly those tokens; a warning
    about the limit is issued exactly when more than twenty tokens are
    valid, and the number it carries is the number of valid tokens left
    out of the returned list. *)
Theorem sanitizar_tickers_avisos (ticker_input : string) :
  let brutos := tickers_brutos ticker_input in
  let validos := List.filter validar_ticker brutos in
  let saida := fst (sanitizar_tickers ticker_input) in
  let avisos := snd (sanitizar_tickers ticker_input) in
  ((exists invalidos, In (AvisoInvalidos invalidos) avisos) <->
   (exists t, In t brutos /\ validar_ticker t = false)) /\
  (forall invalidos, In (AvisoInvalidos invalidos) avisos ->
     forall t, t ∈ invalidos <-> In t brutos /\ validar_ticker t = false) /\
  ((exists excedente, In (AvisoLimite excedente) avisos) <->
   (MAX_TICKERS_PERMITIDOS < length validos)%nat) /\
  (forall excedente, In (AvisoLimite excedente) avisos ->
     (length saida + excedente)%nat = length validos).
Proof.
  intros brutos validos saida avisos.
  assert (Hset : forall t,
             t ∈ (list_to_set brutos ∖ list_to_set validos : gset string)
             <-> In t brutos /\ validar_ticker t = false).
  { intros t. rewrite elem_of_difference, !elem_of_list_to_set, !list_elem_of_In.
    unfold validos. rewrite List.filter_In. split.
    - intros [Hin Hn]. split; [exact Hin |].
      destruct (validar_ticker t); [exfalso; apply Hn; auto | reflexivity].
    - intros [Hin Hv]. split; [exact Hin |]. intros [_ Hv']. congruence. }
  pose proof (filter_length_lt validar_ticker brutos) as Hlt.
  fold validos in Hlt.
  subst saida avisos. rewrite sanitizar_tickers_sem_atalho.
  cbv zeta. fold brutos. fold validos.
  destruct (length validos <? length brutos)%nat eqn:Hinv;
    [apply Nat.ltb_lt in Hinv | apply Nat.ltb_ge in Hinv];
    (destruct (MAX_TICKERS_PERMITIDOS <? length validos)%nat eqn:Hmax;
     [apply Nat.ltb_lt in Hmax | apply Nat.ltb_ge in Hmax]);
    cbn [fst snd app]; repeat split.
  all: try (intros _; apply Hlt; exact Hinv).
  all: try (intros _; eexists; cbn; eauto; fail).
  all: try (intros _; exact Hmax).
  all: try (intros (x & Hin); cbn in Hin; intuition (try discriminate); fail).
  all: try (intros Hx; apply Hlt in Hx; lia).
  all: try (intros Hx; lia).
  all: try (cbn in *; intuition (try discriminate);
            match goal with
            | H : AvisoInvalidos _ = AvisoInvalidos _ |- _ => injection H as <-
            end; apply Hset; auto; fail).
  all: try (cbn in *; intuition (try discriminate);
            match goal with
            | H : AvisoInvalidos _ = AvisoInvalidos _ |- _ => injection H as <-
            end;
            match goal with
            | H : _ ∈ _ |- _ => apply Hset in H; tauto
            end; fail).
  all: try (intros excedente Hin; cbn in Hin; intuition (try discriminate);
            match goal with
            | H : AvisoLimite _ = AvisoLimite _ |- _ => injection H as <-
            end; rewrite length_firstn; lia).
Qed.

(** ** Fundamental indicators, field by field *)

Lemma primeira_chave_em (df : DataFrame) (antes : list string) (k : string)
    (depois : list string) :
  sem_linha df antes -> is_Some (df_index df !! k) ->
  primeira_chave df (antes ++ k :: depois) = Some k.
Proof.
  unfold primeira_chave, sem_linha. intros Hantes Hk.
  induction Hantes as [| a antes Ha _ IH]; cbn.
  - rewrite bool_decide_eq_true_2 by exact Hk. reflexivity.
  - rewrite bool_decide_eq_false_2; [exact IH |].
    rewrite Ha. intros [x Hx]. discriminate.
Qed.

Lemma primeira_chave_sem_linha (df : DataFrame) (chaves : list string) :
  sem_linha df chaves -> primeira_chave df chaves = None.
Proof.
  unfold primeira_chave, sem_linha.
  induction 1 as [| a chaves Ha _ IH]; cbn; [reflexivity |].
  rewrite bool_decide_eq_false_2; [exact IH |].
  rewrite Ha. intros [x Hx]. discriminate.
Qed.

Lemma loc_iloc0_linha (df : DataFrame) (k : string) (x : float) (r : list float) :
  df_index df !! k = Some (x :: r) -> loc_iloc0 df k = Ok x.
Proof. unfold loc_iloc0. now intros ->. Qed.

Lemma nao_vazio_indisponivel (tk_bs : outcome (option DataFrame)) :
  indisponivel tk_bs ->
  match tk_bs with
  | Ok o => nao_vazio o = None
  | Raise _ => True
  end.
Proof.
  destruct tk_bs as [[df |] | e]; cbn; auto. now intros ->.
Qed.

Lemma fallback_divida_pl_indisponivel (tk : Ticker) :
  indisponivel (balance_sheet tk) ->
  fallback_divida_pl tk = ([AcBalanceSheet], Ok None).
Proof.
  intros Hbs. apply nao_vazio_indisponivel in Hbs.
  unfold fallback_divida_pl, fetch.
  destruct (balance_sheet tk) as [o | e]; [| reflexivity].
  rewrite bind_io_ok, Hbs. reflexivity.
Qed.

Lemma fallback_divida_pl_sem_linha (tk : Ticker) (bs : DataFrame) :
  balance_sheet tk = Ok (Some bs) ->
  sem_linha bs chaves_divida \/ sem_linha bs chaves_pl ->
  fallback_divida_pl tk = ([AcBalanceSheet], Ok None).
Proof.
  intros Hbs Hsem. unfold fallback_divida_pl, fetch.
  rewrite Hbs, bind_io_ok. cbn [nao_vazio].
  destruct (df_empty bs); [reflexivity |].
  destruct Hsem as [Hsem | Hsem]; rewrite (primeira_chave_sem_linha _ _ Hsem).
  - reflexivity.
  - destruct (primeira_chave bs chaves_divida); reflexivity.
Qed.

Lemma fallback_divida_pl_valor (tk : Ticker) (bs : DataFrame)
    (chave_divida chave_pl : string) (divida_valor pl_valor : float) :
  balance_sheet tk = Ok (Some bs) -> df_empty bs = false ->
  primeira_chave bs chaves_divida = Some chave_divida ->
  primeira_chave bs chaves_pl = Some chave_pl ->
  loc_iloc0 bs chave_divida = Ok divida_valor ->
  loc_iloc0 bs chave_pl = Ok pl_valor ->
  fallback_divida_pl tk
  = ([AcBalanceSheet],
     Ok (if (pl_valor =? 0)%float then None else Some (divida_valor / pl_valor)%float)).
Proof.
  intros Hbs Hne Hkd Hkp Hdv Hpv. unfold fallback_divida_pl, fetch.
  rewrite Hbs, bind_io_ok. cbn [nao_vazio]. rewrite Hne, Hkd, Hkp, Hdv, Hpv.
  cbn. destruct (pl_valor =? 0)%float; reflexivity.
Qed.

Lemma fallback_divida_ebitda_balanco_em_falha (tk : Ticker) (e : string) :
  balance_sheet tk = Raise e ->
  fallback_divida_ebitda tk = ([AcBalanceSheet], Ok PyNone).
Proof. intros Hbs. unfold fallback_divida_ebitda, fetch. now rewrite Hbs. Qed.

Lemma fallback_divida_ebitda_dre_em_falha (tk : Ticker) (bs : option DataFrame)
    (e : string) :
  balance_sheet tk = Ok bs -> financials tk = Raise e ->
  fallback_divida_ebitda tk = ([AcBalanceSheet; AcFinancials], Ok PyNone).
Proof. intros Hbs Hfin. unfold fallback_divida_ebitda, fetch. now rewrite Hbs, Hfin. Qed.

Lemma fallback_divida_ebitda_caixa_em_falha (tk : Ticker) (bs fin : option DataFrame)
    (e : string) :
  balance_sheet tk = Ok bs -> financials tk = Ok fin -> cashflow tk = Raise e ->
  fallback_divida_ebitda tk = ([AcBalanceSheet; AcFinancials; AcCashflow], Ok PyNone).
Proof.
  intros Hbs Hfin Hcf. unfold fallback_divida_ebitda, fetch. now rewrite Hbs, Hfin, Hcf.
Qed.

Lemma fallback_divida_ebitda_indisponivel (tk : Ticker) :
  indisponivel (balance_sheet tk) \/ indisponivel (financials tk) \/
  indisponivel (cashflow tk) ->
  exists acessos, fallback_divida_ebitda tk = (acessos, Ok PyNone).
Proof.
  intros Hind. unfold fallback_divida_ebitda, fetch.
  destruct (balance_sheet tk) as [bs | e]; [| eexists; reflexivity].
  destruct (financials tk) as [fin | e]; [| eexists; reflexivity].
  destruct (cashflow tk) as [cf | e]; [| eexists; reflexivity].
  rewrite !bind_io_ok.
  destruct Hind as [Hi | [Hi | Hi]]; apply nao_vazio_indisponivel in Hi; rewrite Hi.
  - eexists; reflexivity.
  - destruct (nao_vazio bs); eexists; reflexivity.
  - destruct (nao_vazio bs); [destruct (nao_vazio fin) |]; eexists; reflexivity.
Qed.

Lemma fallback_divida_ebitda_sem_linha (tk : Ticker) (bs fin cf : DataFrame) :
  balance_sheet tk = Ok (Some bs) -> financials tk = Ok (Some fin) ->
  cashflow tk = Ok (Some cf) ->
  sem_linha bs chaves_divida \/ sem_linha fin chaves_ebit \/ sem_linha cf chaves_da ->
  fallback_divida_ebitda tk = ([AcBalanceSheet; AcFinancials; AcCashflow], Ok PyNone).
Proof.
  intros Hbs Hfin Hcf Hsem. unfold fallback_divida_ebitda, fetch.
  rewrite Hbs, Hfin, Hcf, !bind_io_ok. cbn [nao_vazio].
  destruct (df_empty bs); [reflexivity |].
  destruct (df_empty fin); [reflexivity |].
  destruct (df_empty cf); [reflexivity |].
  destruct Hsem as [Hsem | [Hsem | Hsem]]; rewrite (primeira_chave_sem_linha _ _ Hsem).
  - reflexivity.
  - destruct (primeira_chave bs chaves_divida); reflexivity.
  - destruct (primeira_chave bs chaves_divida);
      [destruct (primeira_chave fin chaves_ebit) |]; reflexivity.
Qed.

Lemma fallback_divida_ebitda_valor (tk : Ticker) (bs fin cf : DataFrame)
    (chave_divida chave_ebit chave_da : string) (divida_valor ebit_valor da_valor : float) :
  balance_sheet tk = Ok (Some bs) -> financials tk = Ok (Some fin) ->
  cashflow tk = Ok (Some cf) ->
  df_empty bs = false -> df_empty fin = false -> df_empty cf = false ->
  primeira_chave bs chaves_divida = Some chave_divida ->
  primeira_chave fin chaves_ebit = Some chave_ebit ->
  primeira_chave cf chaves_da = Some chave_da ->
  loc_iloc0 bs chave_divida = Ok divida_valor ->
  loc_iloc0 fin chave_ebit = Ok ebit_valor ->
  loc_iloc0 cf chave_da = Ok da_valor ->
  fallback_divida_ebitda tk
  = ([AcBalanceSheet; AcFinancials; AcCashflow],
     Ok (if (ebit_valor + abs da_valor =? 0)%float then PyNone
         else PyNum (divida_valor / (ebit_valor + abs da_valor))%float)).
Proof.
  intros Hbs Hfin Hcf Hnb Hnf Hnc Hkd Hke Hka Hdv Hev Hav.
  unfold fallback_divida_ebitda, fetch.
  rewrite Hbs, Hfin, Hcf, !bind_io_ok. cbn [nao_vazio].
  rewrite Hnb, Hnf, Hnc, Hkd, Hke, Hka, Hdv, Hev, Hav. cbn.
  destruct (ebit_valor + abs da_valor =? 0)%float; reflexivity.
Qed.

(** With a readable [info], the collector returns the full dictionary,
    the traces and values of the two debt ratios being those of their own
    branches. *)
Lemma obter_dados_fundamentalistas_forma `{Runtime}
    (gw : Gateway) (ticker_symbol : string) (i : gmap string pyval) :
  info (gw ticker_symbol) = Ok i ->
  exists tp op te oe,
    match divida_pl_do_info i with
    | None => fallback_divida_pl (gw ticker_symbol)
    | Some x => ret (Some x)
    end = (tp, Ok op) /\
    match dict_get i "debtToEbitda" with
    | PyNone => fallback_divida_ebitda (gw ticker_symbol)
    | v => ret v
    end = (te, Ok oe) /\
    obter_dados_fundamentalistas gw ticker_symbol
    = (AcInfo :: tp ++ te, Ok (dicionario_fundamentalista ticker_symbol i op oe)).
Proof.
  intros Hinfo.
  assert (Hpl : exists tp op,
             match divida_pl_do_info i with
             | None => fallback_divida_pl (gw ticker_symbol)
             | Some x => ret (Some x)
             end = (tp, Ok op)).
  { destruct (divida_pl_do_info i) as [x |].
    - eexists _, _. reflexivity.
    - destruct (fallback_divida_pl_acessos (gw ticker_symbol)) as [o Ho].
      eexists _, _. exact Ho. }
  assert (Heb : exists te oe,
             match dict_get i "debtToEbitda" with
             | PyNone => fallback_divida_ebitda (gw ticker_symbol)
             | v => ret v
             end = (te, Ok oe)).
  { destruct (dict_get i "debtToEbitda") as [| x | s].
    - apply fallback_divida_ebitda_retorna.
    - eexists _, _. reflexivity.
    - eexists _, _. reflexivity. }
  destruct Hpl as (tp & op & Hpl). destruct Heb as (te & oe & Heb).
  exists tp, op, te, oe. split; [exact Hpl |]. split; [exact Heb |].
  unfold obter_dados_fundamentalistas. rewrite Hinfo. unfold fetch.
  rewrite bind_io_ok, Hpl, bind_io_ok, Heb, bind_io_ok. cbn.
  rewrite app_nil_r. reflexivity.
Qed.

Ltac busca_campo :=
  unfold dicionario_fundamentalista;
  repeat (rewrite lookup_insert_ne by discriminate);
  apply lookup_insert_eq.

(** X4. The statements cannot take the indicators down: whenever the
    provider mapping is readable the collector returns the dictionary with
    all twelve keys, the nine fields copied from the mapping as they are,
    whatever reading the balance sheet, the income statement or the cash
    flow does (raise included); only a failing read of the mapping itself
    reduces the dictionary to the ticker. *)
Theorem fundamentalistas_resiste_a_falhas `{Runtime}
    (gw : Gateway) (ticker_symbol : string) :
  (forall e, info (gw ticker_symbol) = Raise e ->
     obter_dados_fundamentalistas gw ticker_symbol
     = ([AcInfo], Ok {["Ticker" := PyStr ticker_symbol]})) /\
  (forall i, info (gw ticker_symbol) = Ok i ->
     exists acessos d,
       obter_dados_fundamentalistas gw ticker_symbol = (acessos, Ok d) /\
       dom d = list_to_set ["Ticker"; "P/L"; "P/VP"; "ROE"; "DY"; "Setor";
                            "Dívida/PL"; "Dívida/EBITDA"; "EV/EBITDA";
                            "LPA"; "VPA"; "_dividendRate"] /\
       d !! "Ticker" = Some (PyStr ticker_symbol) /\
       d !! "P/L" = Some (dict_get i "trailingPE") /\
       d !! "P/VP" = Some (dict_get i "priceToBook") /\
       d !! "ROE" = Some (dict_get i "returnOnEquity") /\
       d !! "DY" = Some (dict_get i "dividendYield") /\
       d !! "Setor" = Some (dict_get i "sector") /\
       d !! "EV/EBITDA" = Some (dict_get i "enterpriseToEbitda") /\
       d !! "LPA" = Some (dict_get i "trailingEps") /\
       d !! "VPA" = Some (dict_get i "bookValue") /\
       d !! "_dividendRate" = Some (dict_get i "dividendRate")).
Proof.
  split.
  - intros e Hinfo. unfold obter_dados_fundamentalistas, fetch. now rewrite Hinfo.
  - intros i Hinfo.
    destruct (obter_dados_fundamentalistas_forma gw ticker_symbol i Hinfo)
      as (tp & op & te & oe & _ & _ & Hforma).
    eexists _, _. split; [exact Hforma |].
    split.
    { unfold dicionario_fundamentalista. rewrite !dom_insert_L, dom_empty_L.
      cbn [list_to_set foldr]. reflexivity. }
    repeat split; busca_campo.
Qed.

Lemma divida_pl_do_info_convertido `{Runtime} (i : gmap string pyval) (x : float) :
  py_float (dict_get i "debtToEquity") = Ok x ->
  divida_pl_do_info i = Some (x / 100)%float.
Proof.
  unfold divida_pl_do_info.
  destruct (dict_get i "debtToEquity") as [| y | s]; [discriminate | |];
    intros ->; reflexivity.
Qed.

Lemma divida_pl_do_info_sem_valor `{Runtime} (i : gmap string pyval) :
  dict_get i "debtToEquity" = PyNone \/
  (exists s, dict_get i "debtToEquity" = PyStr s /\ py_float_of_str s = None) ->
  divida_pl_do_info i = None.
Proof.
  unfold divida_pl_do_info.
  intros [-> | (s & -> & Hs)]; [reflexivity |]. cbn. now rewrite Hs.
Qed.

(** X5. A debt-to-equity field that converts to a number [x] (a number,
    0.0 included, or text that [float] accepts) is reported as [x / 100]
    under [Dívida/PL], and the balance sheet is not consulted for it: with
    a debt-to-EBITDA field present as well, the mapping is the only thing
    read. *)
Theorem divida_pl_do_campo `{Runtime}
    (gw : Gateway) (ticker_symbol : string) (i : gmap string pyval) (x : float) :
  info (gw ticker_symbol) = Ok i ->
  py_float (dict_get i "debtToEquity") = Ok x ->
  exists d,
    result (obter_dados_fundamentalistas gw ticker_symbol) = Ok d /\
    d !! "Dívida/PL" = Some (PyNum (x / 100)%float) /\
    trace (obter_dados_fundamentalistas gw ticker_symbol)
    = AcInfo :: match dict_get i "debtToEbitda" with
                | PyNone => trace (fallback_divida_ebitda (gw ticker_symbol))
                | _ => []
                end.
Proof.
  intros Hinfo Hx.
  destruct (obter_dados_fundamentalistas_forma gw ticker_symbol i Hinfo)
    as (tp & op & te & oe & Hpl & Heb & Hforma).
  rewrite (divida_pl_do_info_convertido i x Hx) in Hpl.
  injection Hpl as <- <-.
  rewrite Hforma. eexists. split; [reflexivity |]. split; [busca_campo |].
  cbn. f_equal.
  destruct (dict_get i "debtToEbitda"); [rewrite Heb | |];
    try reflexivity; injection Heb as <- _; reflexivity.
Qed.

Lemma divida_pl_zero_nao_e_ausente :
  exists d,
    result (obter_dados_fundamentalistas (H := runtime_estavel) gw_divida_zero "BBAS3.SA")
    = Ok d /\
    d !! "Dívida/PL" = Some (PyNum (0 / 100)%float) /\
    trace (obter_dados_fundamentalistas (H := runtime_estavel) gw_divida_zero "BBAS3.SA")
    = [AcInfo].
Proof.
  exact (divida_pl_do_campo (H := runtime_estavel) gw_divida_zero "BBAS3.SA" _ 0%float
           eq_refl eq_refl).
Defined.

(** X6. Without a usable debt-to-equity field (absent, [None], or text
    that [float] rejects) the balance sheet decides [Dívida/PL]: it is the
    first column of the first debt line present divided by the first
    column of the first equity line present, in the order the names are
    listed; it is [None] when that equity is zero, when a line is missing
    under all its names, and when the balance sheet raises, is [None] or
    is empty. *)
Theorem divida_pl_pelo_balanco `{Runtime}
    (gw : Gateway) (ticker_symbol : string) (i : gmap string pyval) :
  info (gw ticker_symbol) = Ok i ->
  dict_get i "debtToEquity" = PyNone \/
  (exists s, dict_get i "debtToEquity" = PyStr s /\ py_float_of_str s = None) ->
  exists d,
    result (obter_dados_fundamentalistas gw ticker_symbol) = Ok d /\
    (indisponivel (balance_sheet (gw ticker_symbol)) ->
     d !! "Dívida/PL" = Some PyNone) /\
    (forall bs, balance_sheet (gw ticker_symbol) = Ok (Some bs) ->
       (sem_linha bs chaves_divida \/ sem_linha bs chaves_pl ->
        d !! "Dívida/PL" = Some PyNone) /\
       (forall antes_d chave_divida depois_d antes_p chave_pl depois_p
               divida_valor resto_d pl_valor resto_p,
          df_empty bs = false ->
          chaves_divida = antes_d ++ chave_divida :: depois_d ->
          sem_linha bs antes_d ->
          df_index bs !! chave_divida = Some (divida_valor :: resto_d) ->
          chaves_pl = antes_p ++ chave_pl :: depois_p ->
          sem_linha bs antes_p ->
          df_index bs !! chave_pl = Some (pl_valor :: resto_p) ->
          d !! "Dívida/PL"
          = Some (if (pl_valor =? 0)%float then PyNone
                  else PyNum (divida_valor / pl_valor)%float))).
Proof.
  intros Hinfo Hcampo.
  destruct (obter_dados_fundamentalistas_forma gw ticker_symbol i Hinfo)
    as (tp & op & te & oe & Hpl & _ & Hforma).
  rewrite (divida_pl_do_info_sem_valor i Hcampo) in Hpl.
  rewrite Hforma. eexists. split; [reflexivity |]. split; [| intros bs Hbs; split].
  - intros Hind. rewrite (fallback_divida_pl_indisponivel _ Hind) in Hpl.
    injection Hpl as <- <-. busca_campo.
  - intros Hsem. rewrite (fallback_divida_pl_sem_linha _ bs Hbs Hsem) in Hpl.
    injection Hpl as <- <-. busca_campo.
  - intros antes_d kd depois_d antes_p kp depois_p dv rd pv rp
      Hne Hcd Hsd Hld Hcp Hsp Hlp.
    rewrite (fallback_divida_pl_valor _ bs kd kp dv pv Hbs Hne) in Hpl.
    + injection Hpl as <- <-.
      destruct (pv =? 0)%float; busca_campo.
    + rewrite Hcd. apply primeira_chave_em; [exact Hsd | now rewrite Hld].
    + rewrite Hcp. apply primeira_chave_em; [exact Hsp | now rewrite Hlp].
    + exact (loc_iloc0_linha _ _ _ _ Hld).
    + exact (loc_iloc0_linha _ _ _ _ Hlp).
Qed.

Lemma divida_pl_por_nomes_alternativos :
  exists d,
    result (obter_dados_fundamentalistas (H := runtime_estavel) gw_so_demonstrativos "WEGE3.SA")
    = Ok d /\
    d !! "Dívida/PL" = Some (PyNum (30 / 60)%float).
Proof.
  destruct (divida_pl_pelo_balanco (H := runtime_estavel) gw_so_demonstrativos "WEGE3.SA" _
              eq_refl (or_introl eq_refl)) as (d & Hd & _ & Hbs).
  exists d. split; [exact Hd |].
  refine (proj2 (Hbs _ eq_refl) ["Total Debt"] "Long Term Debt" ["Short Long Term Debt"]
            ["Stockholders Equity"; "Total Stockholder Equity"] "Common Stock Equity" []
            30%float [20%float] 60%float [50%float] eq_refl eq_refl _ eq_refl eq_refl _ eq_refl).
  - repeat constructor.
  - repeat constructor.
Defined.

(** X7. When the debt-to-EBITDA field reads as [None], the three
    statements decide [Dívida/EBITDA]: debt divided by EBIT plus the
    absolute value of depreciation and amortisation, each the first
    column of the first line present under the listed names; [None] when
    that sum is zero, when a line is missing, and when a statement raises,
    is [None] or is empty.  A balance sheet that raises ends the attempt:
    the income statement and the cash flow are not read. *)
Theorem divida_ebitda_pelos_demonstrativos `{Runtime}
    (gw : Gateway) (ticker_symbol : string) (i : gmap string pyval) :
  info (gw ticker_symbol) = Ok i ->
  dict_get i "debtToEbitda" = PyNone ->
  exists d,
    result (obter_dados_fundamentalistas gw ticker_symbol) = Ok d /\
    (indisponivel (balance_sheet (gw ticker_symbol)) \/
     indisponivel (financials (gw ticker_symbol)) \/
     indisponivel (cashflow (gw ticker_symbol)) ->
     d !! "Dívida/EBITDA" = Some PyNone) /\
    (forall e, balance_sheet (gw ticker_symbol) = Raise e ->
       ~ In AcFinancials (trace (obter_dados_fundamentalistas gw ticker_symbol)) /\
       ~ In AcCashflow (trace (obter_dados_fundamentalistas gw ticker_symbol))) /\
    (forall bs fin cf,
       balance_sheet (gw ticker_symbol) = Ok (Some bs) ->
       financials (gw ticker_symbol) = Ok (Some fin) ->
       cashflow (gw ticker_symbol) = Ok (Some cf) ->
       (sem_linha bs chaves_divida \/ sem_linha fin chaves_ebit \/ sem_linha cf chaves_da ->
        d !! "Dívida/EBITDA" = Some PyNone) /\
       (forall antes_d chave_divida depois_d antes_e chave_ebit depois_e
               antes_a chave_da depois_a
               divida_valor resto_d ebit_valor resto_e da_valor resto_a,
          df_empty bs = false -> df_empty fin = false -> df_empty cf = false ->
          chaves_divida = antes_d ++ chave_divida :: depois_d ->
          sem_linha bs antes_d ->
          df_index bs !! chave_divida = Some (divida_valor :: resto_d) ->
          chaves_ebit = antes_e ++ chave_ebit :: depois_e ->
          sem_linha fin antes_e ->
          df_index fin !! chave_ebit = Some (ebit_valor :: resto_e) ->
          chaves_da = antes_a ++ chave_da :: depois_a ->
          sem_linha cf antes_a ->
          df_index cf !! chave_da = Some (da_valor :: resto_a) ->
          d !! "Dívida/EBITDA"
          = Some (if (ebit_valor + abs da_valor =? 0)%float then PyNone
                  else PyNum (divida_valor / (ebit_valor + abs da_valor))%float))).
Proof.
  intros Hinfo Hcampo.
  destruct (obter_dados_fundamentalistas_forma gw ticker_symbol i Hinfo)
    as (tp & op & te & oe & Hpl & Heb & Hforma).
  rewrite Hcampo in Heb.
  rewrite Hforma. eexists. split; [reflexivity |].
  split; [| split; [| intros bs fin cf Hbs Hfin Hcf; split]].
  - intros Hind.
    destruct (fallback_divida_ebitda_indisponivel _ Hind) as [acessos Hfb].
    rewrite Hfb in Heb. injection Heb as <- <-. busca_campo.
  - intros e Hbs.
    rewrite (fallback_divida_ebitda_balanco_em_falha _ e Hbs) in Heb.
    injection Heb as <- <-.
    assert (Htp : tp = [] \/ tp = [AcBalanceSheet]).
    { destruct (divida_pl_do_info i).
      - injection Hpl as <- _. now left.
      - destruct (fallback_divida_pl_acessos (gw ticker_symbol)) as [o Ho].
        rewrite Ho in Hpl. injection Hpl as <- _. now right. }
    cbn [trace fst].
    destruct Htp as [-> | ->]; cbn; split; intuition discriminate.
  - intros Hsem.
    rewrite (fallback_divida_ebitda_sem_linha _ bs fin cf Hbs Hfin Hcf Hsem) in Heb.
    injection Heb as <- <-. busca_campo.
  - intros antes_d kd depois_d antes_e ke depois_e antes_a ka depois_a
      dv rd ev re av ra Hnb Hnf Hnc Hcd Hsd Hld Hce Hse Hle Hca Hsa Hla.
    rewrite (fallback_divida_ebitda_valor _ bs fin cf kd ke ka dv ev av
               Hbs Hfin Hcf Hnb Hnf Hnc) in Heb.
    + injection Heb as <- <-.
      destruct (ev + abs av =? 0)%float; busca_campo.
    + rewrite Hcd. apply primeira_chave_em; [exact Hsd | now rewrite Hld].
    + rewrite Hce. apply primeira_chave_em; [exact Hse | now rewrite Hle].
    + rewrite Hca. apply primeira_chave_em; [exact Hsa | now rewrite Hla].
    + exact (loc_iloc0_linha _ _ _ _ Hld).
    + exact (loc_iloc0_linha _ _ _ _ Hle).
    + exact (loc_iloc0_linha _ _ _ _ Hla).
Qed.

Lemma divida_ebitda_por_nomes_alternativos :
  exists d,
    result (obter_dados_fundamentalistas (H := runtime_estavel) gw_so_demonstrativos "WEGE3.SA")
    = Ok d /\
    d !! "Dívida/EBITDA" = Some (PyNum (30 / (10 + abs (-5)))%float).
Proof.
  destruct (divida_ebitda_pelos_demonstrativos (H := runtime_estavel)
              gw_so_demonstrativos "WEGE3.SA" _ eq_refl eq_refl)
    as (d & Hd & _ & _ & Hdem).
  exists d. split; [exact Hd |].
  refine (proj2 (Hdem _ _ _ eq_refl eq_refl eq_refl)
            ["Total Debt"] "Long Term Debt" ["Short Long Term Debt"]
            ["EBIT"] "Operating Income" []
            ["Depreciation And Amortization"; "Depreciation"] "Reconciled Depreciation" []
            30%float [20%float] 10%float [] (-5)%float []
            eq_refl eq_refl eq_refl eq_refl _ eq_refl eq_refl _ eq_refl eq_refl _ eq_refl);
    repeat constructor.
Defined.

(** ** The result of one ticker *)

(** The result is the minimal structure when the Graham price raises, and
    otherwise the record built from what the five collectors returned. *)
Lemma processar_ticker_forma `{Runtime}
    (gw : Gateway) (clk : Relogio) (ticker : string) (anos : nat) (taxa_retorno : float) :
  exists t1 df_dpa media_dpa mediana_dpa erro t2 fund t3 cagr t4 mp mb t5 preco_atual,
    obter_dados_dpa gw clk ticker anos = (t1, Ok (df_dpa, media_dpa, mediana_dpa, erro)) /\
    obter_dados_fundamentalistas gw ticker = (t2, Ok fund) /\
    obter_dados_cagr gw ticker 5 = (t3, Ok cagr) /\
    obter_sazonalidade_e_dividendos gw ticker anos = (t4, Ok (mp, mb)) /\
    obter_preco_atual gw ticker = (t5, Ok preco_atual) /\
    result (processar_ticker gw clk ticker anos taxa_retorno)
    = Ok match calcular_preco_graham (dict_get (cagr ∪ fund) "LPA")
                                     (dict_get (cagr ∪ fund) "VPA") with
         | Raise _ => resultado_minimo ticker
         | Ok preco_graham =>
             let preco_teto := calcular_preco_teto_bazin media_dpa taxa_retorno in
             let margem_seguranca := calcular_margem_seguranca preco_teto preco_atual in
             {| r_v := {| v_ticker := ticker; v_preco_atual := preco_atual;
                          v_preco_teto := preco_teto; v_preco_graham := preco_graham;
                          v_margem_seguranca := margem_seguranca;
                          v_pagamento_dividendos := mp; v_melhor_mes := mb |};
                r_i := cagr ∪ fund;
                r_i_extras := {| x_ticker := ticker;
                                 x_payout_ratio := calcular_payout_ratio (cagr ∪ fund) |};
                r_s := {| s_ticker := ticker; s_preco_atual := preco_atual;
                          s_media_dpa := media_dpa; s_mediana_dpa := mediana_dpa;
                          s_cagr_dpa := calcular_cagr_dpa clk df_dpa anos;
                          s_anos_consecutivos := calcular_anos_consecutivos clk df_dpa |};
                r_g := df_dpa;
                r_a := if (0 <? margem_seguranca)%float
                       then Some {| al_ticker := ticker; al_preco_atual := preco_atual;
                                    al_preco_teto := preco_teto |}
                       else None |}
         end.
Proof.
  destruct (obter_dados_dpa_ok gw clk ticker anos) as (t1 & [[[df m] md] err] & H1).
  destruct (obter_dados_fundamentalistas_ok gw ticker) as (t2 & fund & H2).
  destruct (obter_dados_cagr_ok gw ticker 5) as (t3 & cagr & H3).
  destruct (obter_sazonalidade_ok gw ticker anos) as (t4 & [mp mb] & H4).
  destruct (obter_preco_atual_ok gw ticker) as (t5 & preco & H5).
  exists t1, df, m, md, err, t2, fund, t3, cagr, t4, mp, mb, t5, preco.
  repeat (split; [assumption |]).
  unfold processar_ticker. rewrite H1, H2, H3, H4, H5, !bind_io_ok. unfold lift.
  destruct (calcular_preco_graham _ _) as [g | e].
  - rewrite bind_io_ok. reflexivity.
  - reflexivity.
Qed.

Lemma margem_positiva_so_com_precos (preco_teto preco_atual : float) :
  (0 <? calcular_margem_seguranca preco_teto preco_atual)%float = true ->
  (0 <? preco_atual)%float = true /\ (0 <? preco_teto)%float = true /\
  calcular_margem_seguranca preco_teto preco_atual
  = (((preco_teto / preco_atual) - 1) * 100)%float.
Proof.
  unfold calcular_margem_seguranca.
  destruct (0 <? preco_atual)%float; [| discriminate].
  destruct (0 <? preco_teto)%float; [| discriminate].
  auto.
Qed.

(** X8. In every result of [processar_ticker], the error structure
    included, the margin of the valuation row is the margin of safety of
    the row's own ceiling and price, the ceiling is the Bazin ceiling of
    the mean in the statistics row, and both rows show the same price.
    The result carries an alert exactly when that margin is above zero;
    the alert then reports the row's ticker, price and ceiling, and both
    are above zero. *)
Theorem alerta_sse_margem_positiva `{Runtime}
    (gw : Gateway) (clk : string -> Relogio) (anos : nat) (taxa_retorno : float)
    (ticker : string) :
  let r := resultado_de gw clk anos taxa_retorno ticker in
  v_margem_seguranca (r_v r)
  = calcular_margem_seguranca (v_preco_teto (r_v r)) (v_preco_atual (r_v r)) /\
  v_preco_teto (r_v r) = calcular_preco_teto_bazin (s_media_dpa (r_s r)) taxa_retorno /\
  s_preco_atual (r_s r) = v_preco_atual (r_v r) /\
  r_a r = (if (0 <? v_margem_seguranca (r_v r))%float
           then Some {| al_ticker := ticker; al_preco_atual := v_preco_atual (r_v r);
                        al_preco_teto := v_preco_teto (r_v r) |}
           else None) /\
  (forall a, r_a r = Some a ->
     (0 <? v_preco_atual (r_v r))%float = true /\
     (0 <? v_preco_teto (r_v r))%float = true /\
     (0 <? s_media_dpa (r_s r))%float = true /\
     v_margem_seguranca (r_v r)
     = (((v_preco_teto (r_v r) / v_preco_atual (r_v r)) - 1) * 100)%float).
Proof.
  cbv zeta. unfold resultado_de.
  destruct (processar_ticker_forma gw (clk ticker) ticker anos taxa_retorno)
    as (t1 & df & m & md & err & t2 & fund & t3 & cagr & t4 & mp & mb & t5 & preco
        & _ & _ & _ & _ & _ & ->).
  destruct (calcular_preco_graham _ _) as [g | e]; cbn.
  - repeat (split; [reflexivity |]).
    intros a Ha.
    destruct (0 <? calcular_margem_seguranca (calcular_preco_teto_bazin m taxa_retorno) preco)%float
      eqn:Hpos; [| discriminate].
    destruct (margem_positiva_so_com_precos _ _ Hpos) as (Hp & Ht & Hm).
    repeat split; try assumption.
    unfold calcular_preco_teto_bazin in Ht.
    destruct (0 <? m)%float; [reflexivity | discriminate].
  - repeat (split; [reflexivity |]). intros a Ha. discriminate.
Qed.

(** ** The frame of annual dividends, year by year *)

Lemma ordenadas_iguais {A : Type} (R : relation A) (l1 l2 : list A) :
  (forall x y, In x l1 -> In y l1 -> R x y -> R y x -> x = y) ->
  Permutation l1 l2 -> StronglySorted R l1 -> StronglySorted R l2 -> l1 = l2.
Proof.
  revert l2. induction l1 as [| x l1 IH]; intros l2 Hanti Hperm Hs1 Hs2.
  - apply Permutation_nil in Hperm. now subst.
  - destruct l2 as [| y l2].
    { symmetry in Hperm. apply Permutation_nil in Hperm. discriminate. }
    apply StronglySorted_inv in Hs1. destruct Hs1 as [Hs1 Hx].
    apply StronglySorted_inv in Hs2. destruct Hs2 as [Hs2 Hy].
    rewrite List.Forall_forall in Hx, Hy.
    assert (Hxy : x = y).
    { assert (Hyin : In y (x :: l1)).
      { apply (Permutation_in y (Permutation_sym Hperm)). now left. }
      assert (Hxin : In x (y :: l2)).
      { apply (Permutation_in x Hperm). now left. }
      destruct Hyin as [Heq | Hyin]; [exact Heq |].
      destruct Hxin as [Heq | Hxin]; [now symmetry |].
      apply Hanti; [now left | now right | now apply Hx | now apply Hy]. }
    subst y. f_equal. apply IH; auto.
    + intros a b Ha Hb. apply Hanti; now right.
    + now apply Permutation_cons_inv in Hperm.
Qed.

(** Rows in strictly increasing order of year. *)
Lemma crescente_sem_repetidos (df : list DpaRow) :
  StronglySorted (fun a b => Ano a < Ano b) df ->
  forall x y, In x df -> In y df -> Ano x = Ano y -> x = y.
Proof.
  induction 1 as [| r df Hs IH Hr]; intros x y Hx Hy Heq; [destruct Hx |].
  rewrite List.Forall_forall in Hr.
  destruct Hx as [<- | Hx], Hy as [<- | Hy]; auto.
  - specialize (Hr _ Hy). lia.
  - specialize (Hr _ Hx). lia.
Qed.

Lemma crescente_fraco (df : list DpaRow) :
  StronglySorted (fun a b => Ano a < Ano b) df ->
  StronglySorted (fun a b => Ano a <= Ano b) df.
Proof.
  induction 1 as [| r df Hs IH Hr]; constructor; [exact IH |].
  eapply List.Forall_impl; [| exact Hr]. cbn. intros a Ha. lia.
Qed.

Lemma sort_ano_de_crescente (df df' : list DpaRow) :
  StronglySorted (fun a b => Ano a < Ano b) df ->
  Permutation df' df ->
  sort_ano true df' = df /\ sort_ano false df' = rev df.
Proof.
  intros Hs Hperm.
  pose proof (crescente_sem_repetidos df Hs) as Hunico.
  pose proof (crescente_fraco df Hs) as Hfraco.
  split.
  - symmetry. apply (ordenadas_iguais (por_chave Ano)).
    + unfold por_chave. intros x y Hx Hy Hxy Hyx. apply Hunico; auto. lia.
    + rewrite (sort_ano_Permutation true df'). now symmetry.
    + exact Hfraco.
    + apply sort_ano_asc_sorted.
  - symmetry. apply (ordenadas_iguais (por_chave_desc Ano)).
    + unfold por_chave_desc. intros x y Hx Hy Hxy Hyx.
      apply Hunico; [now apply List.in_rev | now apply List.in_rev | lia].
    + rewrite (sort_ano_Permutation false df'), <- (Permutation_rev df). now symmetry.
    + apply StronglySorted_rev_flip. exact Hfraco.
    + apply sort_ano_desc_sorted.
Qed.

Lemma crescente_skipn (n : nat) (df : list DpaRow) :
  StronglySorted (fun a b => Ano a < Ano b) df ->
  StronglySorted (fun a b => Ano a < Ano b) (skipn n df).
Proof.
  intros Hs. revert n. induction Hs as [| r df Hs IH Hr]; intros [| n]; cbn;
    try constructor; auto.
Qed.

Lemma seqZ_crescente (a n : Z) :
  StronglySorted Z.lt (seqZ a n).
Proof.
  remember (Z.to_nat n) as k eqn:Hk. revert a n Hk.
  induction k as [| k IH]; intros a n Hk.
  - rewrite seqZ_nil by lia. constructor.
  - rewrite seqZ_cons by lia. constructor; [apply IH; lia |].
    apply Forall_seqZ. intros m Hm. lia.
Qed.

Lemma crescente_de_anos (df : list DpaRow) :
  StronglySorted Z.lt (map Ano df) ->
  StronglySorted (fun a b => Ano a < Ano b) df.
Proof.
  induction df as [| r df IH]; cbn; intros Hs; [constructor |].
  apply StronglySorted_inv in Hs. destruct Hs as [Hs Hr].
  constructor; [now apply IH |].
  rewrite List.Forall_forall in Hr. apply List.Forall_forall. intros x Hx.
  apply Hr, List.in_map, Hx.
Qed.

Lemma filter_todos_falsos {A : Type} (p : A -> bool) (l : list A) :
  Forall (fun x => p x = false) l -> List.filter p l = [].
Proof. induction 1 as [| x l Hx _ IH]; cbn; [reflexivity |]. now rewrite Hx. Qed.

Lemma filter_todos_verdadeiros {A : Type} (p : A -> bool) (l : list A) :
  Forall (fun x => p x = true) l -> List.filter p l = l.
Proof. induction 1 as [| x l Hx _ IH]; cbn; [reflexivity |]. now rewrite Hx, IH. Qed.

Lemma filter_ltb_seqZ (c a n : Z) :
  exists k, List.filter (fun x => x <? c) (seqZ a n) = seqZ a k.
Proof.
  remember (Z.to_nat n) as m eqn:Hm. revert a n Hm.
  induction m as [| m IH]; intros a n Hm.
  - exists 0. rewrite (seqZ_nil a n) by lia. reflexivity.
  - destruct (a <? c) eqn:Hac.
    + rewrite seqZ_cons by lia. cbn [List.filter]. rewrite Hac.
      destruct (IH (Z.succ a) (Z.pred n) ltac:(lia)) as [k Hk]. rewrite Hk.
      destruct (Z_le_gt_dec k 0) as [Hk0 | Hk0].
      * exists 1. rewrite (seqZ_nil _ k) by lia. reflexivity.
      * exists (Z.succ k). rewrite (seqZ_cons a (Z.succ k)) by lia.
        now rewrite Z.pred_succ.
    + exists 0. apply Z.ltb_ge in Hac. rewrite (seqZ_nil a 0) by lia.
      apply filter_todos_falsos, Forall_seqZ. intros x Hx. apply Z.ltb_ge. lia.
Qed.

Lemma skipn_seqZ (j : nat) (a n : Z) :
  exists a' k, skipn j (seqZ a n) = seqZ a' k.
Proof.
  revert a n. induction j as [| j IH]; intros a n; [exists a, n; reflexivity |].
  destruct (Z_le_gt_dec n 0) as [Hn | Hn].
  - exists a, 0. rewrite (seqZ_nil a n), (seqZ_nil a 0) by lia. reflexivity.
  - rewrite seqZ_cons by lia. cbn [skipn]. apply IH.
Qed.

(** A list that is a run of consecutive integers starts at its head and
    has its own length. *)
Lemma seqZ_do_primeiro (df : list DpaRow) (a k : Z) :
  map Ano df = seqZ a k ->
  map Ano df = seqZ (primeiro_ano df) (Z.of_nat (length df)).
Proof.
  intros Heq.
  assert (Hlen : length df = Z.to_nat k).
  { rewrite <- (length_map Ano), Heq. apply length_seqZ. }
  destruct (Z_le_gt_dec k 0) as [Hk | Hk].
  - rewrite seqZ_nil in Heq by lia. destruct df; [reflexivity | discriminate].
  - rewrite Heq, Hlen, Z2Nat.id by lia.
    destruct df as [| r df]; [cbn in Hlen; lia |].
    rewrite seqZ_cons in Heq by lia. cbn in Heq. injection Heq as Hr _.
    cbn [primeiro_ano]. now rewrite Hr.
Qed.

Lemma resample_YE_sum_anos `{Runtime} (obs : list (Z * float)) :
  exists a k, map fst (resample_YE_sum obs) = seqZ a k.
Proof.
  unfold resample_YE_sum.
  destruct (map (fun o => dt_year (fst o)) obs) as [| y ys].
  - exists 0, 0. reflexivity.
  - cbv zeta. eexists _, _. rewrite map_map. cbn [fst]. apply map_id.
Qed.

Lemma resample_YE_sum_valores `{Runtime} (obs : list (Z * float)) :
  Forall (fun p => snd p
                   = soma (map snd (List.filter (fun o => dt_year (fst o) =? fst p) obs)))
         (resample_YE_sum obs).
Proof.
  unfold resample_YE_sum.
  destruct (map (fun o => dt_year (fst o)) obs) as [| y ys]; [constructor |].
  cbv zeta. apply List.Forall_forall. intros p Hp.
  apply List.in_map_iff in Hp. destruct Hp as (a & <- & _). reflexivity.
Qed.

(** The complete years of the window: consecutive calendar years, each
    below the current year, tagged with the ticker, each DPA the sum of
    the window's payments of that year. *)
Lemma dpa_anos_completos_forma `{Runtime}
    (clk : Relogio) (ticker_symbol : string) (anos : nat) (divs : list (Z * float)) :
  let completos := dpa_anos_completos clk ticker_symbol anos divs in
  (exists a k, map Ano completos = seqZ a k) /\
  Forall (fun r =>
            Ticker_ r = ticker_symbol /\ Ano r < ano_corrente clk /\
            DPA r = soma (map snd (List.filter (fun o => dt_year (fst o) =? Ano r)
                                     (dividendos_da_janela clk anos divs))))
         completos.
Proof.
  cbv zeta. unfold dpa_anos_completos. cbv zeta.
  fold (dividendos_da_janela clk anos divs).
  set (janela := dividendos_da_janela clk anos divs).
  split.
  - destruct (resample_YE_sum_anos janela) as (a & k & Hseq).
    destruct (filter_ltb_seqZ (ano_corrente clk) a k) as [k' Hk'].
    exists a, k'. rewrite <- Hk', <- Hseq.
    rewrite (filter_map_swap (fun x => x <? ano_corrente clk) fst).
    rewrite (filter_map_swap (fun (r : DpaRow) => Ano r <? ano_corrente clk)
               (fun p => {| Ano := fst p; DPA := snd p; Ticker_ := ticker_symbol |})).
    rewrite map_map. reflexivity.
  - apply List.Forall_forall. intros r Hr.
    apply List.filter_In in Hr. destruct Hr as [Hr Hano].
    apply List.in_map_iff in Hr. destruct Hr as (p & <- & Hp).
    cbn in *. split; [reflexivity |]. split; [now apply Z.ltb_lt |].
    pose proof (resample_YE_sum_valores janela) as Hval.
    rewrite List.Forall_forall in Hval. now apply Hval.
Qed.

Lemma ultimos_nil {A : Type} (n : nat) : ultimos n (@nil A) = [].
Proof. unfold ultimos. apply skipn_nil. Qed.

Lemma dpa_anos_completos_crescente `{Runtime}
    (clk : Relogio) (ticker_symbol : string) (anos : nat) (divs : list (Z * float)) :
  StronglySorted (fun a b => Ano a < Ano b)
                 (dpa_anos_completos clk ticker_symbol anos divs).
Proof.
  destruct (dpa_anos_completos_forma clk ticker_symbol anos divs) as [(a & k & Hseq) _].
  apply crescente_de_anos. rewrite Hseq. apply seqZ_crescente.
Qed.

(** What [obter_dados_dpa] returns once the dividends could be read: the
    last [anos] complete years, oldest first, with the mean and the median
    taken over them from the most recent year backward. *)
Lemma obter_dados_dpa_forma `{Runtime}
    (gw : Gateway) (clk : Relogio) (ticker_symbol : string) (anos : nat)
    (divs : list (Z * float)) :
  dividends (gw ticker_symbol) = Ok divs ->
  let df := ultimos anos (dpa_anos_completos clk ticker_symbol anos divs) in
  obter_dados_dpa gw clk ticker_symbol anos
  = ([AcDividends],
     Ok (df,
         match df with [] => 0%float | _ => media (map DPA (rev df)) end,
         match df with [] => 0%float | _ => mediana (map DPA (rev df)) end,
         "")).
Proof.
  intros Hdivs. cbv zeta.
  pose proof (dpa_anos_completos_crescente clk ticker_symbol anos divs) as Hcres.
  unfold obter_dados_dpa, fetch. rewrite Hdivs, bind_io_ok.
  destruct divs as [| d divs'] eqn:Hd.
  { assert (Hvazio : dpa_anos_completos clk ticker_symbol anos [] = []) by reflexivity.
    rewrite Hvazio, ultimos_nil. reflexivity. }
  rewrite <- Hd in *. clear Hd.
  set (completos := dpa_anos_completos clk ticker_symbol anos divs) in *.
  destruct (sort_ano_de_crescente completos completos Hcres (Permutation_refl _))
    as [_ Hdesc].
  rewrite Hdesc, firstn_rev. fold (ultimos anos completos).
  set (df := ultimos anos completos).
  assert (Hdf : StronglySorted (fun a b => Ano a < Ano b) df)
    by (apply crescente_skipn, Hcres).
  destruct (sort_ano_de_crescente df (rev df) Hdf (Permutation_sym (Permutation_rev df)))
    as [Hasc _].
  destruct df as [| r df'] eqn:Hdfeq.
  - rewrite Hasc. reflexivity.
  - rewrite Hasc.
    destruct (rev (r :: df')) as [| x l] eqn:Hrev; [| reflexivity].
    apply (f_equal (@length _)) in Hrev. rewrite length_rev in Hrev. discriminate.
Qed.

(** ** Which years have a row *)

Lemma fold_min_le (y : Z) (ys : list Z) (a : Z) :
  fold_right Z.min y ys <= a <-> exists x, In x (y :: ys) /\ x <= a.
Proof.
  induction ys as [| z ys IH]; cbn [fold_right].
  - split; [intros Hy; exists y; split; [now left | exact Hy] |].
    intros (x & [<- | []] & Hx). exact Hx.
  - split.
    + intros Hmin. destruct (Z.min_spec z (fold_right Z.min y ys)) as [[_ Heq] | [_ Heq]].
      * exists z. split; [right; now left | lia].
      * rewrite Heq in Hmin. apply IH in Hmin. destruct Hmin as (x & Hx & Hxa).
        exists x. split; [| exact Hxa]. destruct Hx as [<- | Hx]; [now left | right; now right].
    + intros (x & Hx & Hxa).
      assert (Hcasos : x = z \/ In x (y :: ys)).
      { destruct Hx as [<- | [<- | Hx]]; [right; now left | now left | right; now right]. }
      destruct Hcasos as [-> | Hx'].
      * pose proof (Z.le_min_l z (fold_right Z.min y ys)). lia.
      * assert (Hrec : fold_right Z.min y ys <= a) by (apply IH; eauto).
        pose proof (Z.le_min_r z (fold_right Z.min y ys)). lia.
Qed.

Lemma fold_max_ge (y : Z) (ys : list Z) (a : Z) :
  a <= fold_right Z.max y ys <-> exists x, In x (y :: ys) /\ a <= x.
Proof.
  induction ys as [| z ys IH]; cbn [fold_right].
  - split; [intros Hy; exists y; split; [now left | exact Hy] |].
    intros (x & [<- | []] & Hx). exact Hx.
  - split.
    + intros Hmax. destruct (Z.max_spec z (fold_right Z.max y ys)) as [[_ Heq] | [_ Heq]].
      * rewrite Heq in Hmax. apply IH in Hmax. destruct Hmax as (x & Hx & Hxa).
        exists x. split; [| exact Hxa]. destruct Hx as [<- | Hx]; [now left | right; now right].
      * exists z. split; [right; now left | lia].
    + intros (x & Hx & Hxa).
      assert (Hcasos : x = z \/ In x (y :: ys)).
      { destruct Hx as [<- | [<- | Hx]]; [right; now left | now left | right; now right]. }
      destruct Hcasos as [-> | Hx'].
      * pose proof (Z.le_max_l z (fold_right Z.max y ys)). lia.
      * assert (Hrec : a <= fold_right Z.max y ys) by (apply IH; eauto).
        pose proof (Z.le_max_r z (fold_right Z.max y ys)). lia.
Qed.

Lemma existsb_dos_anos `{Runtime} (p : Z -> bool) (obs : list (Z * float)) :
  existsb (fun o => p (dt_year (fst o))) obs = true <->
  exists x, In x (map (fun o => dt_year (fst o)) obs) /\ p x = true.
Proof.
  rewrite existsb_exists. split.
  - intros (o & Ho & Hp). exists (dt_year (fst o)). split; [| exact Hp].
    apply List.in_map_iff. eauto.
  - intros (x & Hx & Hp). apply List.in_map_iff in Hx. destruct Hx as (o & <- & Ho). eauto.
Qed.

Lemma In_seqZ (a m n : Z) : In a (seqZ m n) <-> m <= a < m + n.
Proof. rewrite <- list_elem_of_In. apply elem_of_seqZ. Qed.

(** The bins of [resample('YE')] run from the year of the earliest
    observation to the year of the latest. *)
Lemma resample_YE_sum_cobre `{Runtime} (obs : list (Z * float)) (a : Z) :
  In a (map fst (resample_YE_sum obs)) <->
  existsb (fun o => dt_year (fst o) <=? a) obs = true /\
  existsb (fun o => a <=? dt_year (fst o)) obs = true.
Proof.
  rewrite (existsb_dos_anos (fun x => x <=? a)), (existsb_dos_anos (fun x => a <=? x)).
  unfold resample_YE_sum.
  destruct (map (fun o => dt_year (fst o)) obs) as [| y ys].
  - split; [intros [] | intros [(x & [] & _) _]].
  - cbv zeta. rewrite map_map. cbn [fst]. rewrite map_id, In_seqZ.
    pose proof (fold_min_le y ys a) as Hmin. pose proof (fold_max_ge y ys a) as Hmax.
    split.
    + intros [Hlo Hhi]. split.
      * apply Hmin in Hlo. destruct Hlo as (x & Hx & Hxa). exists x.
        split; [exact Hx | now apply Z.leb_le].
      * assert (Hhi' : a <= fold_right Z.max y ys) by lia.
        apply Hmax in Hhi'. destruct Hhi' as (x & Hx & Hxa). exists x.
        split; [exact Hx | now apply Z.leb_le].
    + intros [(x & Hx & Hxa) (z & Hz & Hza)].
      apply Z.leb_le in Hxa, Hza.
      assert (Hlo : fold_right Z.min y ys <= a) by (apply Hmin; eauto).
      assert (Hhi : a <= fold_right Z.max y ys) by (apply Hmax; eauto).
      lia.
Qed.

(** The complete years of the window are the covered years. *)
Lemma dpa_anos_completos_cobertos `{Runtime}
    (clk : Relogio) (ticker_symbol : string) (anos : nat) (divs : list (Z * float)) (a : Z) :
  In a (map Ano (dpa_anos_completos clk ticker_symbol anos divs)) <->
  ano_coberto clk anos divs a = true.
Proof.
  unfold dpa_anos_completos, ano_coberto. cbv zeta.
  fold (dividendos_da_janela clk anos divs).
  set (janela := dividendos_da_janela clk anos divs).
  rewrite <- andb_assoc, andb_true_iff, andb_true_iff, Z.ltb_lt.
  rewrite <- (resample_YE_sum_cobre janela a).
  rewrite !List.in_map_iff. split.
  - intros (r & <- & Hr). apply List.filter_In in Hr. destruct Hr as [Hr Hano].
    apply List.in_map_iff in Hr. destruct Hr as (p & <- & Hp). cbn in *.
    split; [now apply Z.ltb_lt | eauto].
  - intros (Ha & p & <- & Hp).
    exists {| Ano := fst p; DPA := snd p; Ticker_ := ticker_symbol |}.
    split; [reflexivity |]. apply List.filter_In. split.
    + apply List.in_map_iff. eauto.
    + cbn. now apply Z.ltb_lt.
Qed.

Lemma skipn_seqZ_exato (j : nat) (a n : Z) :
  skipn j (seqZ a n) = seqZ (a + Z.of_nat j) (n - Z.of_nat j).
Proof.
  revert a n. induction j as [| j IH]; intros a n.
  - cbn [skipn]. replace (a + Z.of_nat 0) with a by lia.
    now replace (n - Z.of_nat 0) with n by lia.
  - destruct (Z_le_gt_dec n 0) as [Hn | Hn].
    + rewrite (seqZ_nil a n), (seqZ_nil _ (n - Z.of_nat (S j))) by lia. reflexivity.
    + rewrite seqZ_cons by lia. cbn [skipn]. rewrite IH.
      replace (Z.succ a + Z.of_nat j) with (a + Z.of_nat (S j)) by lia.
      now replace (Z.pred n - Z.of_nat j) with (n - Z.of_nat (S j)) by lia.
Qed.

(** The last [n] of a run of consecutive integers are those of its
    members that the run does not reach [n] places further on. *)
Lemma ultimos_de_consecutivos (n : nat) (l : list Z) (a0 k : Z) :
  l = seqZ a0 k ->
  forall a, In a (ultimos n l) <-> In a l /\ ~ In (a + Z.of_nat n) l.
Proof.
  intros -> a. unfold ultimos. rewrite skipn_seqZ_exato, length_seqZ, !In_seqZ. lia.
Qed.

(** The years of the frame: the covered years that are among the [anos]
    most recent ones. *)
Lemma dpa_quadro_cobertos `{Runtime}
    (clk : Relogio) (ticker_symbol : string) (anos : nat) (divs : list (Z * float)) (a : Z) :
  In a (map Ano (ultimos anos (dpa_anos_completos clk ticker_symbol anos divs))) <->
  ano_coberto clk anos divs a = true /\
  ano_coberto clk anos divs (a + Z.of_nat anos) = false.
Proof.
  destruct (dpa_anos_completos_forma clk ticker_symbol anos divs) as [(a0 & k & Hseq) _].
  unfold ultimos. rewrite <- skipn_map, <- (length_map Ano).
  fold (ultimos anos (map Ano (dpa_anos_completos clk ticker_symbol anos divs))).
  rewrite (ultimos_de_consecutivos anos _ a0 k Hseq a).
  rewrite !dpa_anos_completos_cobertos, not_true_iff_false. reflexivity.
Qed.


(** A year without payment sums to zero. *)
Lemma soma_sem_pagamentos `{Runtime} (janela : list (Z * float)) (a : Z) :
  (forall o, In o janela -> dt_year (fst o) <> a) ->
  soma (map snd (List.filter (fun o => dt_year (fst o) =? a) janela)) = 0%float.
Proof.
  intros Hsem. rewrite filter_todos_falsos; [reflexivity |].
  apply List.Forall_forall. intros o Ho. apply Z.eqb_neq. now apply Hsem.
Qed.



(** Five years asked for on 3 November 2026 of a company that pays every
    1 March: the window starts on 4 November 2021, after the payment of
    2021, and the frame has the four rows 2022 to 2025. *)
Example obter_dados_dpa_pagador_de_marco :
  result (obter_dados_dpa (H := runtime_estavel) gw_pagador_de_marco clk_2026 "AAAA3.SA" 5)
  = Ok ([ {| Ano := 2022; DPA := 1; Ticker_ := "AAAA3.SA" |};
          {| Ano := 2023; DPA := 1; Ticker_ := "AAAA3.SA" |};
          {| Ano := 2024; DPA := 1; Ticker_ := "AAAA3.SA" |};
          {| Ano := 2025; DPA := 1; Ticker_ := "AAAA3.SA" |} ],
        1%float, 1%float, "").
Proof. vm_compute. reflexivity. Qed.

(** X9. Once the dividends are read, the frame of annual dividends is
    the last [anos] of the complete years of the trailing window, oldest
    first, with the mean and the median taken over its rows.  Its years
    are consecutive calendar years, and they are exactly the years before
    the current one that lie between the first and the last payment of
    the trailing [anos * 365] days and are among the [anos] most recent
    of these.  Each row carries the ticker and the sum of the window's
    payments of its year: a year without payment between two payments of
    the window is a row with DPA 0.0, while a year before the first or
    after the last payment of the window has no row at all, so the frame
    can hold fewer than [anos] rows.  A failing read of the dividends
    gives the empty frame with the error text. *)
Theorem dpa_anos_sem_lacuna `{Runtime}
    (gw : Gateway) (clk : Relogio) (ticker_symbol : string) (anos : nat) :
  (forall e, dividends (gw ticker_symbol) = Raise e ->
     obter_dados_dpa gw clk ticker_symbol anos
     = ([AcDividends], Ok ([], 0%float, 0%float, "Erro: " +:+ e))) /\
  (forall divs, dividends (gw ticker_symbol) = Ok divs ->
     let df := ultimos anos (dpa_anos_completos clk ticker_symbol anos divs) in
     let janela := dividendos_da_janela clk anos divs in
     obter_dados_dpa gw clk ticker_symbol anos
     = ([AcDividends],
        Ok (df,
            match df with [] => 0%float | _ => media (map DPA (rev df)) end,
            match df with [] => 0%float | _ => mediana (map DPA (rev df)) end,
            "")) /\
     map Ano df = seqZ (primeiro_ano df) (Z.of_nat (length df)) /\
     Forall (fun r =>
               Ticker_ r = ticker_symbol /\ Ano r < ano_corrente clk /\
               DPA r = soma (map snd (List.filter (fun o => dt_year (fst o) =? Ano r)
                                        janela)))
            df /\
     (forall a, In a (map Ano df) <->
                (a < ano_corrente clk /\
                 (exists o, In o janela /\ dt_year (fst o) <= a) /\
                 (exists o, In o janela /\ a <= dt_year (fst o))) /\
                ~ (a + Z.of_nat anos < ano_corrente clk /\
                   exists o, In o janela /\ a + Z.of_nat anos <= dt_year (fst o))) /\
     Forall (fun r =>
               (forall o, In o janela -> dt_year (fst o) <> Ano r) -> DPA r = 0%float)
            df).
Proof.
  split.
  - intros e Hdivs. unfold obter_dados_dpa, fetch. now rewrite Hdivs.
  - intros divs Hdivs. cbv zeta.
    split; [exact (obter_dados_dpa_forma gw clk ticker_symbol anos divs Hdivs) |].
    destruct (dpa_anos_completos_forma clk ticker_symbol anos divs)
      as [(a & k & Hseq) Hlinhas].
    assert (Hdf : Forall (fun r =>
               Ticker_ r = ticker_symbol /\ Ano r < ano_corrente clk /\
               DPA r = soma (map snd (List.filter (fun o => dt_year (fst o) =? Ano r)
                                        (dividendos_da_janela clk anos divs))))
            (ultimos anos (dpa_anos_completos clk ticker_symbol anos divs))).
    { apply List.Forall_forall. intros r Hr.
      rewrite List.Forall_forall in Hlinhas. apply Hlinhas.
      unfold ultimos in Hr.
      rewrite <- (firstn_skipn (length (dpa_anos_completos clk ticker_symbol anos divs) - anos)).
      apply in_or_app. now right. }
    split; [| split; [exact Hdf | split]].
    + unfold ultimos.
      destruct (skipn_seqZ (length (dpa_anos_completos clk ticker_symbol anos divs) - anos)
                  a k) as (a' & k' & Hskip).
      apply (seqZ_do_primeiro _ a' k'). now rewrite <- skipn_map, Hseq.
    + intros b. rewrite dpa_quadro_cobertos. unfold ano_coberto.
      rewrite <- not_true_iff_false, !andb_true_iff, !Z.ltb_lt, !existsb_exists.
      setoid_rewrite Z.leb_le.
      split.
      * intros [[[Hb Hlo] Hhi] Hnao]. split; [auto |].
        intros [Hc Hhi']. apply Hnao. split; [split; [exact Hc |] | exact Hhi'].
        destruct Hlo as (o & Ho & Hob). exists o. split; [exact Ho | lia].
      * intros [(Hb & Hlo & Hhi) Hnao]. split; [auto |].
        intros [[Hc _] Hhi']. apply Hnao. auto.
    + eapply List.Forall_impl; [| exact Hdf]. cbn. intros r (_ & _ & ->) Hsem.
      now apply soma_sem_pagamentos.
Qed.

(** Five years asked for on 3 November 2026 of a company that paid in
    2021, 2022 and 2023: the payment of May 2021 is older than the
    window, and 2024 and 2025, after the last payment, have no row. *)
Lemma dpa_sem_linhas_apos_o_ultimo_pagamento :
  dividends (gw_parou_em_2023 "AAAA3.SA") = Ok pagamentos_ate_2023 /\
  obter_dados_dpa (H := runtime_estavel) gw_parou_em_2023 clk_2026 "AAAA3.SA" 5
  = ([AcDividends],
     Ok ([ {| Ano := 2022; DPA := 1; Ticker_ := "AAAA3.SA" |};
           {| Ano := 2023; DPA := 2; Ticker_ := "AAAA3.SA" |} ],
         1.5%float, 1.5%float, "")) /\
  ~ In 2024 (map Ano
               (ultimos 5 (dpa_anos_completos (H := runtime_estavel)
                             clk_2026 "AAAA3.SA" 5 pagamentos_ate_2023))).
Proof.
  split; [reflexivity |].
  destruct (proj2 (dpa_anos_sem_lacuna (H := runtime_estavel)
                     gw_parou_em_2023 clk_2026 "AAAA3.SA" 5)
              pagamentos_ate_2023 eq_refl)
    as (Heq & _ & _ & Hanos & _).
  split.
  - rewrite Heq. vm_compute. reflexivity.
  - intros H24. destruct (proj1 (Hanos 2024) H24) as [(_ & _ & o & Ho & Hano) _].
    vm_compute in Ho.
    destruct Ho as [<- | [<- | []]]; vm_compute in Hano; apply Hano; reflexivity.
Defined.

(** ** The statistics row is a function of the chart frame *)

(** Whatever the provider answers, the frame handed to the rest of the
    pipeline is in strictly increasing order of year, below the current
    year, no longer than [anos], and the two averages are those of its
    rows. *)
Lemma obter_dados_dpa_quadro `{Runtime}
    (gw : Gateway) (clk : Relogio) (ticker_symbol : string) (anos : nat) :
  exists acessos df erro,
    obter_dados_dpa gw clk ticker_symbol anos
    = (acessos,
       Ok (df,
           match df with [] => 0%float | _ => media (map DPA (rev df)) end,
           match df with [] => 0%float | _ => mediana (map DPA (rev df)) end,
           erro)) /\
    StronglySorted (fun a b => Ano a < Ano b) df /\
    Forall (fun r => Ano r < ano_corrente clk /\ Ticker_ r = ticker_symbol) df /\
    (length df <= anos)%nat /\
    map Ano df = seqZ (primeiro_ano df) (Z.of_nat (length df)).
Proof.
  destruct (dividends (gw ticker_symbol)) as [divs | e] eqn:Hdivs.
  - exists [AcDividends], (ultimos anos (dpa_anos_completos clk ticker_symbol anos divs)), "".
    split; [exact (obter_dados_dpa_forma gw clk ticker_symbol anos divs Hdivs) |].
    destruct (dpa_anos_completos_forma clk ticker_symbol anos divs)
      as [(a & k & Hseq) Hlinhas].
    split; [apply crescente_skipn, dpa_anos_completos_crescente |].
    split; [| split; [apply length_ultimos |]].
    + apply List.Forall_forall. intros r Hr.
      rewrite List.Forall_forall in Hlinhas.
      destruct (Hlinhas r) as (Ht & Ha & _); [| auto].
      unfold ultimos in Hr.
      rewrite <- (firstn_skipn (length (dpa_anos_completos clk ticker_symbol anos divs) - anos)).
      apply in_or_app. now right.
    + unfold ultimos.
      destruct (skipn_seqZ (length (dpa_anos_completos clk ticker_symbol anos divs) - anos)
                  a k) as (a' & k' & Hskip).
      apply (seqZ_do_primeiro _ a' k'). now rewrite <- skipn_map, Hseq.
  - exists [AcDividends], [], ("Erro: " +:+ e).
    split; [unfold obter_dados_dpa, fetch; now rewrite Hdivs |].
    split; [constructor |]. split; [constructor |]. split; [cbn; lia | reflexivity].
Qed.

Lemma filtro_de_completos (clk : Relogio) (df : list DpaRow) :
  Forall (fun r => Ano r < ano_corrente clk) df ->
  List.filter (fun r => Ano r <? ano_corrente clk) df = df.
Proof.
  intros Hall. apply filter_todos_verdadeiros.
  eapply List.Forall_impl; [| exact Hall]. cbn. intros r Hr. now apply Z.ltb_lt.
Qed.

(** On a frame of complete years in increasing order, the streak is
    counted on the frame read backward. *)
Lemma calcular_anos_consecutivos_no_quadro (clk : Relogio) (df : list DpaRow) :
  StronglySorted (fun a b => Ano a < Ano b) df ->
  Forall (fun r => Ano r < ano_corrente clk) df ->
  calcular_anos_consecutivos clk df = contar_consecutivos (rev df).
Proof.
  intros Hs Hall. unfold calcular_anos_consecutivos.
  rewrite (filtro_de_completos clk df Hall).
  destruct (sort_ano_de_crescente df df Hs (Permutation_refl _)) as [_ Hdesc].
  rewrite Hdesc. destruct df; reflexivity.
Qed.

(** On such a frame, no longer than [anos], the growth rate is taken
    between the first and the last row of the frame as it is. *)
Lemma calcular_cagr_dpa_no_quadro `{Runtime} (clk : Relogio) (df : list DpaRow) (anos : nat) :
  StronglySorted (fun a b => Ano a < Ano b) df ->
  Forall (fun r => Ano r < ano_corrente clk) df ->
  (length df <= anos)%nat ->
  calcular_cagr_dpa clk df anos
  = if (length df <? 2)%nat then 0%float
    else match head df, last df with
         | Some primeiro, Some ultimo =>
             if (DPA primeiro <=? 0)%float || (DPA ultimo <=? 0)%float then 0%float
             else np_round2
                    ((np_power (DPA ultimo / DPA primeiro)
                               (1 / float_of_nat (length df - 1)) - 1) * 100)%float
         | _, _ => 0%float
         end.
Proof.
  intros Hs Hall Hlen. unfold calcular_cagr_dpa.
  rewrite (filtro_de_completos clk df Hall).
  destruct (sort_ano_de_crescente df df Hs (Permutation_refl _)) as [_ Hdesc].
  destruct (sort_ano_de_crescente df (rev df) Hs (Permutation_sym (Permutation_rev df)))
    as [Hasc _].
  rewrite Hdesc.
  assert (Hcorte : firstn anos (rev df) = rev df).
  { apply firstn_all2. now rewrite length_rev. }
  rewrite Hcorte, Hasc, length_rev.
  destruct (length df <? 2)%nat; reflexivity.
Qed.

(** X10. In every result of [processar_ticker] the statistics row is
    determined by the frame returned for the chart: the streak is the count
    of leading positive DPA values of the frame read from its last row
    backward, the growth rate is the formula between the first and the
    last row of the frame, and the mean and the median are those of the
    frame's DPA values (0.0 for the empty frame).  The filters and sorts
    inside the two calculators leave that frame as it is: it is already
    in increasing order of consecutive years before the current one,
    tagged with the ticker, and no longer than [anos]. *)
Theorem estatisticas_do_quadro `{Runtime}
    (gw : Gateway) (clk : string -> Relogio) (anos : nat) (taxa_retorno : float)
    (ticker : string) :
  let r := resultado_de gw clk anos taxa_retorno ticker in
  let g := r_g r in
  s_anos_consecutivos (r_s r) = contar_consecutivos (rev g) /\
  s_cagr_dpa (r_s r)
  = (if (length g <? 2)%nat then 0%float
     else match head g, last g with
          | Some primeiro, Some ultimo =>
              if (DPA primeiro <=? 0)%float || (DPA ultimo <=? 0)%float then 0%float
              else np_round2
                     ((np_power (DPA ultimo / DPA primeiro)
                                (1 / float_of_nat (length g - 1)) - 1) * 100)%float
          | _, _ => 0%float
          end) /\
  s_media_dpa (r_s r) = match g with [] => 0%float | _ => media (map DPA (rev g)) end /\
  s_mediana_dpa (r_s r) = match g with [] => 0%float | _ => mediana (map DPA (rev g)) end /\
  (length g <= anos)%nat /\
  map Ano g = seqZ (primeiro_ano g) (Z.of_nat (length g)) /\
  Forall (fun linha => Ano linha < ano_corrente (clk ticker) /\ Ticker_ linha = ticker) g.
Proof.
  cbv zeta. unfold resultado_de.
  destruct (processar_ticker_forma gw (clk ticker) ticker anos taxa_retorno)
    as (t1 & df & m & md & err & t2 & fund & t3 & cagr & t4 & mp & mb & t5 & preco
        & Hdpa & _ & _ & _ & _ & ->).
  destruct (obter_dados_dpa_quadro gw (clk ticker) ticker anos)
    as (acessos & df' & erro & Hquadro & Hs & Hall & Hlen & Hseq).
  rewrite Hdpa in Hquadro. injection Hquadro as _ <- -> -> _.
  destruct (calcular_preco_graham _ _) as [g | e]; cbn.
  - assert (Hantes : Forall (fun r => Ano r < ano_corrente (clk ticker)) df).
    { eapply List.Forall_impl; [| exact Hall]. cbn. tauto. }
    split; [now apply calcular_anos_consecutivos_no_quadro |].
    split; [now apply calcular_cagr_dpa_no_quadro |].
    repeat split; auto.
  - repeat split; auto; try lia; constructor.
Qed.

(** ** What brings a ticker down to the error structure *)

(** The growth collector only ever writes its own two keys. *)
Lemma obter_dados_cagr_so_cagr `{Runtime} (gw : Gateway) (ticker_symbol : string) (years : nat) :
  exists acessos c,
    obter_dados_cagr gw ticker_symbol years = (acessos, Ok c) /\
    forall k, k <> "CAGR Receita 5a" -> k <> "CAGR Lucro 5a" -> c !! k = None.
Proof.
  unfold obter_dados_cagr, fetch.
  destruct (financials (gw ticker_symbol)) as [fin | e].
  - rewrite bind_io_ok. destruct (nao_vazio fin) as [df |]; cbn;
      eexists _, _; (split; [reflexivity |]); intros k Hr Hl;
      rewrite !lookup_insert_ne by congruence; apply lookup_empty.
  - cbn. eexists _, _. split; [reflexivity |]. intros k _ _. apply lookup_empty.
Qed.

Lemma dict_get_uniao (cagr fund : gmap string pyval) (k : string) :
  cagr !! k = None -> dict_get (cagr ∪ fund) k = dict_get fund k.
Proof. intros Hk. unfold dict_get. now rewrite lookup_union_r. Qed.

Lemma calcular_preco_graham_texto (lpa vpa : pyval) :
  (exists s, lpa = PyStr s /\ String.eqb s "" = false /\ truthy vpa = true) \/
  (exists x s, lpa = PyNum x /\ (0 <? x)%float = true /\
               vpa = PyStr s /\ String.eqb s "" = false) ->
  calcular_preco_graham lpa vpa = Raise "TypeError".
Proof.
  intros [(s & -> & Hs & Hv) | (x & s & -> & Hx & -> & Hs)]; unfold calcular_preco_graham; cbn.
  - rewrite Hs, Hv. reflexivity.
  - destruct (x =? 0)%float eqn:Hz.
    + rewrite (eqb_zero_not_pos _ Hz) in Hx. discriminate.
    + cbn. rewrite Hs, Hx. reflexivity.
Qed.

(** X11. One textual field is enough to lose the whole ticker: when the
    provider reports the earnings per share as non-empty text next to a
    book value that is not empty or zero (or positive earnings next to a
    textual book value), the comparison inside the Graham price raises
    and [processar_ticker] answers with the error structure, price 0.0
    and margin -100.0, whatever the provider returned for the price, the
    dividends and the statements. *)
Theorem lpa_textual_derruba_o_ticker `{Runtime}
    (gw : Gateway) (clk : string -> Relogio) (anos : nat) (taxa_retorno : float)
    (ticker : string) (i : gmap string pyval) :
  info (gw ticker) = Ok i ->
  (exists s, dict_get i "trailingEps" = PyStr s /\ String.eqb s "" = false /\
             truthy (dict_get i "bookValue") = true) \/
  (exists x s, dict_get i "trailingEps" = PyNum x /\ (0 <? x)%float = true /\
               dict_get i "bookValue" = PyStr s /\ String.eqb s "" = false) ->
  resultado_de gw clk anos taxa_retorno ticker = resultado_minimo ticker.
Proof.
  intros Hinfo Htexto. unfold resultado_de.
  destruct (processar_ticker_forma gw (clk ticker) ticker anos taxa_retorno)
    as (t1 & df & m & md & err & t2 & fund & t3 & cagr & t4 & mp & mb & t5 & preco
        & _ & Hfund & Hcagr & _ & _ & ->).
  destruct (obter_dados_cagr_so_cagr gw ticker 5) as (t3' & cagr' & Hcagr' & Hchaves).
  rewrite Hcagr in Hcagr'. injection Hcagr' as _ <-.
  destruct (obter_dados_fundamentalistas_forma gw ticker i Hinfo)
    as (tp & op & te & oe & _ & _ & Hforma).
  rewrite Hfund in Hforma. injection Hforma as _ ->.
  rewrite !dict_get_uniao by (apply Hchaves; discriminate).
  assert (Hlpa : dict_get (dicionario_fundamentalista ticker i op oe) "LPA"
                 = dict_get i "trailingEps").
  { unfold dict_get at 1. replace (dicionario_fundamentalista ticker i op oe !! "LPA")
      with (Some (dict_get i "trailingEps")); [reflexivity |]. symmetry. busca_campo. }
  assert (Hvpa : dict_get (dicionario_fundamentalista ticker i op oe) "VPA"
                 = dict_get i "bookValue").
  { unfold dict_get at 1. replace (dicionario_fundamentalista ticker i op oe !! "VPA")
      with (Some (dict_get i "bookValue")); [reflexivity |]. symmetry. busca_campo. }
  rewrite Hlpa, Hvpa, (calcular_preco_graham_texto _ _ Htexto). reflexivity.
Qed.

Lemma lpa_infinity_zera_o_preco :
  resultado_de (H := runtime_estavel) gw_lpa_textual (fun _ => clk_2026) 3 0.06 "AAAA3.SA"
  = resultado_minimo "AAAA3.SA" /\
  obter_preco_atual (H := runtime_estavel) gw_lpa_textual "AAAA3.SA" = ([AcInfo], Ok 15%float).
Proof.
  split; [| reflexivity].
  apply (lpa_textual_derruba_o_ticker (H := runtime_estavel) gw_lpa_textual
           (fun _ => clk_2026) 3 0.06 "AAAA3.SA" _ eq_refl).
  left. exists "Infinity". repeat split.
Defined.

(** ** Seasonality and payment months *)

Lemma StronglySorted_filtro {A : Type} (R : relation A) (p : A -> bool) (l : list A) :
  StronglySorted R l -> StronglySorted R (List.filter p l).
Proof.
  induction 1 as [| a l Hs IH Ha]; cbn; [constructor |].
  destruct (p a); [| exact IH]. constructor; [exact IH |].
  rewrite List.Forall_forall in Ha. apply List.Forall_forall.
  intros x Hx. apply List.filter_In in Hx. apply Ha, Hx.
Qed.

Lemma ordenados_distintos (l : list Z) :
  StronglySorted Z.le l -> NoDup l -> StronglySorted Z.lt l.
Proof.
  induction 1 as [| a l Hs IH Ha]; intros Hnd; [constructor |].
  apply NoDup_cons in Hnd. destruct Hnd as [Hna Hnd].
  constructor; [now apply IH |].
  rewrite List.Forall_forall in Ha. apply List.Forall_forall. intros x Hx.
  specialize (Ha x Hx).
  assert (x <> a) by (intros ->; apply Hna, list_elem_of_In, Hx). lia.
Qed.

Lemma meses_de_pagamento_caracterizado `{Runtime} (dividends : list (Z * float)) (anos : nat) :
  StronglySorted Z.lt (meses_de_pagamento dividends anos) /\
  forall m,
    In m (meses_de_pagamento dividends anos) <->
    In m (map (fun o => dt_month (fst o)) dividends) /\
    (float_of_nat anos * 0.3
     <=? float_of_nat
           (length (List.filter (Z.eqb m) (map (fun o => dt_month (fst o)) dividends))))%float
    = true.
Proof.
  unfold meses_de_pagamento. cbv zeta.
  set (meses := map (fun o => dt_month (fst o)) dividends).
  split.
  - apply StronglySorted_filtro, ordenados_distintos.
    + apply (StronglySorted_merge_sort Z.le); apply _.
    + rewrite (merge_sort_Permutation Z.le). apply NoDup_remove_dups.
  - intros m. rewrite List.filter_In.
    assert (Hin : In m (merge_sort Z.le (remove_dups meses)) <-> In m meses).
    { rewrite <- !list_elem_of_In, (merge_sort_Permutation Z.le).
      apply elem_of_remove_dups. }
    rewrite Hin. reflexivity.
Qed.

Lemma nome_mes_ok (m : Z) :
  1 <= m <= 12 -> exists n, nome_mes m = Ok n.
Proof.
  intros Hm. unfold nome_mes.
  assert (H1 : (1 <=? m) = true) by (apply Z.leb_le; lia).
  assert (H2 : (m <=? 12) = true) by (apply Z.leb_le; lia).
  rewrite H1, H2. cbn [andb].
  destruct (nth_error nomes_meses (Z.to_nat (m - 1))) as [n |] eqn:Hn; [eauto |].
  apply nth_error_None in Hn. cbn in Hn. lia.
Qed.

Lemma nomes_dos_meses_ok (ms : list Z) :
  Forall (fun m => 1 <= m <= 12) ms ->
  exists ns, nomes_dos_meses ms = Ok ns /\ length ns = length ms.
Proof.
  induction 1 as [| m ms Hm _ (ns & IH & Hlen)]; [exists []; auto |].
  destruct (nome_mes_ok m Hm) as [n Hn].
  exists (n :: ns). cbn [nomes_dos_meses]. rewrite Hn, IH. cbn. auto.
Qed.

(** X12. The two texts of [obter_sazonalidade_e_dividendos], case by
    case.  A price history that raises gives "Erro" twice without the
    dividends being read, and so does a dividend read that raises; an
    empty price history gives "N/A" twice.  Otherwise the first text
    names, in calendar order, the months in which a dividend was ever paid
    at least [anos * 0.3] times ("Sem Div." when there is none), and the
    second names the cheapest months. *)
Theorem sazonalidade_caso_a_caso `{Runtime} (gw : Gateway) (ticker_symbol : string) (anos : nat) :
  (forall e, history (gw ticker_symbol) anos = Raise e ->
     obter_sazonalidade_e_dividendos gw ticker_symbol anos
     = ([AcHistory], Ok ("Erro", "Erro"))) /\
  (forall hist e,
     history (gw ticker_symbol) anos = Ok hist ->
     dividends (gw ticker_symbol) = Raise e ->
     obter_sazonalidade_e_dividendos gw ticker_symbol anos
     = ([AcHistory; AcDividends], Ok ("Erro", "Erro"))) /\
  (forall divs,
     history (gw ticker_symbol) anos = Ok [] ->
     dividends (gw ticker_symbol) = Ok divs ->
     obter_sazonalidade_e_dividendos gw ticker_symbol anos
     = ([AcHistory; AcDividends], Ok ("N/A", "N/A"))) /\
  (forall hist divs meses_baratos nomes_meses_baratos,
     history (gw ticker_symbol) anos = Ok hist -> hist <> [] ->
     dividends (gw ticker_symbol) = Ok divs ->
     Forall (fun o => 1 <= dt_month (fst o) <= 12) divs ->
     pd_meses_baratos hist = Ok meses_baratos ->
     nomes_dos_meses meses_baratos = Ok nomes_meses_baratos ->
     exists nomes_meses_pagto,
       nomes_dos_meses (meses_de_pagamento divs anos) = Ok nomes_meses_pagto /\
       length nomes_meses_pagto = length (meses_de_pagamento divs anos) /\
       obter_sazonalidade_e_dividendos gw ticker_symbol anos
       = ([AcHistory; AcDividends],
          Ok (match nomes_meses_pagto with
              | [] => "Sem Div."
              | _ => join_virgula nomes_meses_pagto
              end,
              join_virgula nomes_meses_baratos))) /\
  (forall divs,
     StronglySorted Z.lt (meses_de_pagamento divs anos) /\
     forall m,
       In m (meses_de_pagamento divs anos) <->
       In m (map (fun o => dt_month (fst o)) divs) /\
       (float_of_nat anos * 0.3
        <=? float_of_nat
              (length (List.filter (Z.eqb m) (map (fun o => dt_month (fst o)) divs))))%float
       = true).
Proof.
  split; [| split; [| split; [| split]]].
  - intros e Hh. unfold obter_sazonalidade_e_dividendos, fetch. now rewrite Hh.
  - intros hist e Hh Hd. unfold obter_sazonalidade_e_dividendos, fetch.
    now rewrite Hh, Hd.
  - intros divs Hh Hd. unfold obter_sazonalidade_e_dividendos, fetch.
    now rewrite Hh, Hd.
  - intros hist divs mb nmb Hh Hne Hd Hmeses Hmb Hnmb.
    assert (Hpagto : Forall (fun m => 1 <= m <= 12) (meses_de_pagamento divs anos)).
    { apply List.Forall_forall. intros m Hm.
      apply (proj2 (meses_de_pagamento_caracterizado divs anos)) in Hm.
      destruct Hm as [Hm _]. apply List.in_map_iff in Hm. destruct Hm as (o & <- & Ho).
      rewrite List.Forall_forall in Hmeses. now apply Hmeses. }
    destruct (nomes_dos_meses_ok _ Hpagto) as (ns & Hns & Hlen).
    exists ns. split; [exact Hns |]. split; [exact Hlen |].
    unfold obter_sazonalidade_e_dividendos, fetch. rewrite Hh, Hd.
    rewrite !bind_io_ok. unfold lift.
    destruct hist as [| o hist]; [congruence |].
    destruct divs as [| d divs].
    + cbn in Hns. injection Hns as <-. cbn. rewrite Hmb. cbn. rewrite Hnmb. reflexivity.
    + rewrite Hns. cbn. rewrite Hmb.
      destruct ns; cbn; rewrite Hnmb; reflexivity.
  - intros divs. apply meses_de_pagamento_caracterizado.
Qed.

(** ** The collected lists *)

Lemma obter_dados_fundamentalistas_ticker `{Runtime} (gw : Gateway) (ticker_symbol : string) :
  exists acessos d,
    obter_dados_fundamentalistas gw ticker_symbol = (acessos, Ok d) /\
    d !! "Ticker" = Some (PyStr ticker_symbol).
Proof.
  destruct (info (gw ticker_symbol)) as [i | e] eqn:Hinfo.
  - destruct (obter_dados_fundamentalistas_forma gw ticker_symbol i Hinfo)
      as (tp & op & te & oe & _ & _ & Hforma).
    eexists _, _. split; [exact Hforma |]. busca_campo.
  - eexists _, _. split.
    + unfold obter_dados_fundamentalistas, fetch. rewrite Hinfo. reflexivity.
    + apply lookup_singleton_eq.
Qed.

(** What every result has, the error structure included. *)
Lemma resultado_de_coerente `{Runtime}
    (gw : Gateway) (clk : string -> Relogio) (anos : nat) (taxa_retorno : float)
    (ticker : string) :
  let r := resultado_de gw clk anos taxa_retorno ticker in
  v_ticker (r_v r) = ticker /\ x_ticker (r_i_extras r) = ticker /\
  s_ticker (r_s r) = ticker /\ r_i r !! "Ticker" = Some (PyStr ticker) /\
  v_margem_seguranca (r_v r)
  = calcular_margem_seguranca (v_preco_teto (r_v r)) (v_preco_atual (r_v r)) /\
  s_preco_atual (r_s r) = v_preco_atual (r_v r) /\
  r_a r = (if (0 <? v_margem_seguranca (r_v r))%float
           then Some {| al_ticker := v_ticker (r_v r);
                        al_preco_atual := v_preco_atual (r_v r);
                        al_preco_teto := v_preco_teto (r_v r) |}
           else None) /\
  Forall (fun linha => Ticker_ linha = ticker) (r_g r).
Proof.
  cbv zeta. unfold resultado_de.
  destruct (processar_ticker_forma gw (clk ticker) ticker anos taxa_retorno)
    as (t1 & df & m & md & err & t2 & fund & t3 & cagr & t4 & mp & mb & t5 & preco
        & Hdpa & Hfund & Hcagr & _ & _ & ->).
  destruct (calcular_preco_graham _ _) as [g | e]; cbn.
  - repeat (split; [reflexivity |]). split; [| split; [reflexivity |]].
    + destruct (obter_dados_cagr_so_cagr gw ticker 5) as (t3' & cagr' & Hcagr' & Hchaves).
      rewrite Hcagr in Hcagr'. injection Hcagr' as _ <-.
      destruct (obter_dados_fundamentalistas_ticker gw ticker) as (t2' & fund' & Hfund' & Ht).
      rewrite Hfund in Hfund'. injection Hfund' as _ <-.
      rewrite lookup_union_r; [exact Ht |]. apply Hchaves; discriminate.
    + split; [reflexivity |]. split; [reflexivity |].
      destruct (obter_dados_dpa_quadro gw (clk ticker) ticker anos)
        as (acessos & df' & erro & Hquadro & _ & Hall & _).
      rewrite Hdpa in Hquadro. injection Hquadro as _ <- _ _ _.
      eapply List.Forall_impl; [| exact Hall]. cbn. tauto.
  - repeat (split; [first [reflexivity | apply lookup_singleton_eq] |]). constructor.
Qed.

Lemma flat_map_unitario {A B : Type} (f : A -> B) (l : list A) :
  flat_map (fun a => [f a]) l = map f l.
Proof. induction l as [| a l IH]; cbn; [reflexivity |]. now rewrite IH. Qed.

Lemma fold_coletar_lista {X : Type} (campo : Lote -> list X) (proj : Resultado -> list X)
    (rs : list Resultado) (ordem : list nat) (acc : Lote) :
  (forall acc r, campo (coletar acc (Ok r)) = campo acc ++ proj r) ->
  campo (fold_left
           (fun acc idx =>
              match nth_error (map Ok rs) idx with
              | Some future => coletar acc future
              | None => acc
              end) ordem acc)
  = campo acc ++ flat_map proj (flat_map (entrada (fun r => r) rs) ordem).
Proof.
  intros Hcampo. revert acc.
  induction ordem as [| idx ordem IH]; intros acc; cbn [fold_left flat_map].
  - now rewrite app_nil_r.
  - rewrite IH, flat_map_app. unfold entrada at 2. rewrite nth_error_map.
    destruct (nth_error rs idx) as [r |]; cbn [option_map flat_map app].
    + rewrite Hcampo, app_nil_r, <- app_assoc. reflexivity.
    + reflexivity.
Qed.

(** The six lists of the batch, read off the completed results. *)
Lemma executar_lote_concluidos `{Runtime}
    (gw : Gateway) (clk : string -> Relogio) (tickers : list string)
    (anos : nat) (taxa_input : float) (ordem : list nat) :
  let lote := executar_lote gw clk tickers anos taxa_input ordem in
  let cs := concluidos gw clk tickers anos taxa_input ordem in
  data_valuation lote = map r_v cs /\
  data_indicadores lote = map r_i cs /\
  data_indicadores_extras lote = map r_i_extras cs /\
  data_estatisticas lote = map r_s cs /\
  data_grafico lote = flat_map (fun r => match r_g r with [] => [] | g => [g] end) cs /\
  alertas lote = flat_map (fun r => match r_a r with Some a => [a] | None => [] end) cs.
Proof.
  cbv zeta. unfold executar_lote, concluidos. cbv zeta.
  set (taxa := (taxa_input / 100)%float).
  rewrite futures_ok, <- (map_map (resultado_de gw clk anos taxa) Ok).
  set (rs := map (resultado_de gw clk anos taxa) tickers).
  rewrite <- !flat_map_unitario.
  repeat split.
  - apply (fold_coletar_lista data_valuation (fun r => [r_v r]) rs ordem lote_vazio).
    reflexivity.
  - apply (fold_coletar_lista data_indicadores (fun r => [r_i r]) rs ordem lote_vazio).
    reflexivity.
  - apply (fold_coletar_lista data_indicadores_extras (fun r => [r_i_extras r])
             rs ordem lote_vazio).
    reflexivity.
  - apply (fold_coletar_lista data_estatisticas (fun r => [r_s r]) rs ordem lote_vazio).
    reflexivity.
  - apply (fold_coletar_lista data_grafico
             (fun r => match r_g r with [] => [] | g => [g] end) rs ordem lote_vazio).
    intros acc r. cbn. destruct (r_g r); [now rewrite app_nil_r | reflexivity].
  - apply (fold_coletar_lista alertas
             (fun r => match r_a r with Some a => [a] | None => [] end) rs ordem lote_vazio).
    intros acc r. cbn. destruct (r_a r); [reflexivity | now rewrite app_nil_r].
Qed.

Lemma concluidos_de_tickers `{Runtime}
    (gw : Gateway) (clk : string -> Relogio) (tickers : list string)
    (anos : nat) (taxa_input : float) (ordem : list nat) :
  Forall (fun r => exists t, In t tickers /\
                             r = resultado_de gw clk anos (taxa_input / 100)%float t)
         (concluidos gw clk tickers anos taxa_input ordem).
Proof.
  unfold concluidos. apply Forall_flat_map, List.Forall_forall. intros idx _.
  unfold entrada. destruct (nth_error _ idx) as [r |] eqn:Hr; [| constructor].
  constructor; [| constructor].
  apply nth_error_In, List.in_map_iff in Hr. destruct Hr as (t & <- & Ht). eauto.
Qed.

Lemma concluidos_permutacao `{Runtime}
    (gw : Gateway) (clk : string -> Relogio) (tickers : list string)
    (anos : nat) (taxa_input : float) (ordem : list nat) :
  Permutation ordem (seq 0 (length tickers)) ->
  Permutation (concluidos gw clk tickers anos taxa_input ordem)
              (map (resultado_de gw clk anos (taxa_input / 100)%float) tickers).
Proof.
  intros Hperm. unfold concluidos.
  rewrite (coletados_permutacao (fun r => r)); [now rewrite map_id |].
  now rewrite length_map.
Qed.

(** X13. The opportunity cards and the alerts are the same selection:
    whatever the order of completion, the alerts collected by the loop
    name, in the same order, the tickers, prices and ceilings of the
    valuation rows whose margin is above zero, so the list of cards is
    empty exactly when no alert was collected. *)
Theorem alertas_sao_as_oportunidades `{Runtime}
    (gw : Gateway) (clk : string -> Relogio) (tickers : list string)
    (anos : nat) (taxa_input : float) (ordem : list nat) :
  let lote := executar_lote gw clk tickers anos taxa_input ordem in
  map (fun a => (al_ticker a, al_preco_atual a, al_preco_teto a)) (alertas lote)
  = map (fun v => (v_ticker v, v_preco_atual v, v_preco_teto v))
        (oportunidades (data_valuation lote)) /\
  (alertas lote = [] <-> oportunidades (data_valuation lote) = []).
Proof.
  cbv zeta.
  destruct (executar_lote_concluidos gw clk tickers anos taxa_input ordem)
    as (Hval & _ & _ & _ & _ & Hal).
  pose proof (concluidos_de_tickers gw clk tickers anos taxa_input ordem) as Hcs.
  rewrite Hval, Hal. clear Hval Hal.
  assert (Heq : map (fun a => (al_ticker a, al_preco_atual a, al_preco_teto a))
                  (flat_map (fun r => match r_a r with Some a => [a] | None => [] end)
                     (concluidos gw clk tickers anos taxa_input ordem))
                = map (fun v => (v_ticker v, v_preco_atual v, v_preco_teto v))
                    (oportunidades
                       (map r_v (concluidos gw clk tickers anos taxa_input ordem)))).
  { induction Hcs as [| r cs (t & _ & Hr) _ IH]; [reflexivity |].
    destruct (resultado_de_coerente gw clk anos (taxa_input / 100)%float t)
      as (_ & _ & _ & _ & _ & _ & Ha & _).
    rewrite <- Hr in Ha.
    unfold oportunidades in *. cbn [flat_map map List.filter]. rewrite Ha.
    destruct (0 <? v_margem_seguranca (r_v r))%float; cbn [app map]; now rewrite IH. }
  split; [exact Heq |].
  split; intros Hnil; rewrite Hnil in Heq; cbn in Heq.
  - symmetry in Heq. now apply map_eq_nil in Heq.
  - now apply map_eq_nil in Heq.
Qed.

Lemma concluidos_contem `{Runtime}
    (gw : Gateway) (clk : string -> Relogio) (tickers : list string)
    (anos : nat) (taxa_input : float) (ordem : list nat) (t : string) :
  Permutation ordem (seq 0 (length tickers)) -> In t tickers ->
  In (resultado_de gw clk anos (taxa_input / 100)%float t)
     (concluidos gw clk tickers anos taxa_input ordem).
Proof.
  intros Hperm Ht.
  apply (Permutation_in _ (Permutation_sym (concluidos_permutacao gw clk tickers anos
                                               taxa_input ordem Hperm))).
  now apply List.in_map.
Qed.

(** X14. The warning about tickers without data lists only submitted
    tickers, and among them every ticker for which all provider calls
    raised; a row with price 0.0, listed or not, has margin -100.0 and is
    not an opportunity. *)
Theorem tickers_sem_dados_do_lote `{Runtime}
    (gw : Gateway) (clk : string -> Relogio) (tickers : list string)
    (anos : nat) (taxa_input : float) (ordem : list nat) :
  Permutation ordem (seq 0 (length tickers)) ->
  let lote := executar_lote gw clk tickers anos taxa_input ordem in
  (forall t, In t tickers -> provedor_em_falha (gw t) ->
     In t (tickers_sem_dados (data_valuation lote))) /\
  (forall t, In t (tickers_sem_dados (data_valuation lote)) -> In t tickers) /\
  (forall v, In v (data_valuation lote) -> (v_preco_atual v =? 0)%float = true ->
     v_margem_seguranca v = (-100)%float /\
     ~ In v (oportunidades (data_valuation lote))).
Proof.
  intros Hperm. cbv zeta.
  destruct (executar_lote_concluidos gw clk tickers anos taxa_input ordem)
    as (Hval & _).
  pose proof (concluidos_de_tickers gw clk tickers anos taxa_input ordem) as Hcs.
  rewrite List.Forall_forall in Hcs.
  rewrite Hval. unfold tickers_sem_dados.
  split; [| split].
  - intros t Ht Hfalha.
    pose proof (concluidos_contem gw clk tickers anos taxa_input ordem t Hperm Ht) as Hin.
    assert (Hmin : resultado_de gw clk anos (taxa_input / 100)%float t = resultado_minimo t).
    { unfold resultado_de.
      destruct (processar_ticker_em_falha gw (clk t) t anos (taxa_input / 100)%float Hfalha)
        as [tr ->].
      reflexivity. }
    rewrite Hmin in Hin.
    apply List.in_map_iff. exists (r_v (resultado_minimo t)). split; [reflexivity |].
    apply List.filter_In. split; [| reflexivity].
    apply List.in_map_iff. eauto.
  - intros t Ht. apply List.in_map_iff in Ht. destruct Ht as (v & <- & Hv).
    apply List.filter_In in Hv. destruct Hv as [Hv _].
    apply List.in_map_iff in Hv. destruct Hv as (r & <- & Hr).
    destruct (Hcs r Hr) as (t & Ht & ->).
    destruct (resultado_de_coerente gw clk anos (taxa_input / 100)%float t) as (-> & _).
    exact Ht.
  - intros v Hv Hzero.
    apply List.in_map_iff in Hv. destruct Hv as (r & <- & Hr).
    destruct (Hcs r Hr) as (t & Ht & ->).
    destruct (resultado_de_coerente gw clk anos (taxa_input / 100)%float t)
      as (_ & _ & _ & _ & Hm & _).
    assert (Hcem : v_margem_seguranca (r_v (resultado_de gw clk anos (taxa_input / 100)%float t))
                   = (-100)%float).
    { rewrite Hm. unfold calcular_margem_seguranca.
      now rewrite (eqb_zero_not_pos _ Hzero). }
    split; [exact Hcem |].
    unfold oportunidades. intros Hop. apply List.filter_In in Hop.
    destruct Hop as [_ Hop]. rewrite Hcem in Hop. discriminate.
Qed.

Lemma ticker_em_falha_e_listado :
  In "FALHA3.SA"
     (tickers_sem_dados
        (data_valuation
           (executar_lote (H := runtime_estavel) gw_uma_falha (fun _ => clk_2026)
              ["AAAA3.SA"; "FALHA3.SA"; "CCCC3.SA"] 3 6 [2; 0; 1]%nat))).
Proof.
  assert (Hordem : Permutation [2; 0; 1]%nat
                     (seq 0 (length ["AAAA3.SA"; "FALHA3.SA"; "CCCC3.SA"]))).
  { apply (Permutation_cons_append [0; 1]%nat 2%nat). }
  apply (proj1 (tickers_sem_dados_do_lote (H := runtime_estavel) gw_uma_falha
                  (fun _ => clk_2026) ["AAAA3.SA"; "FALHA3.SA"; "CCCC3.SA"] 3 6
                  [2; 0; 1]%nat Hordem)).
  - right. left. reflexivity.
  - unfold provedor_em_falha, gw_uma_falha. cbn.
    repeat split; try intros _; eexists; reflexivity.
Defined.

(** X15. The chart loop is safe on what the batch collected: every frame
    kept for the chart is non-empty, so reading the name of its series
    from its first row does not raise; that name is a submitted ticker, and
    every row of the frame carries it.  No frame is kept for a result
    whose frame is empty. *)
Theorem series_do_grafico `{Runtime}
    (gw : Gateway) (clk : string -> Relogio) (tickers : list string)
    (anos : nat) (taxa_input : float) (ordem : list nat) :
  let lote := executar_lote gw clk tickers anos taxa_input ordem in
  Forall (fun dados =>
            exists t, In t tickers /\ nome_da_serie dados = Ok t /\
                      Forall (fun linha => Ticker_ linha = t) dados)
         (data_grafico lote) /\
  data_grafico lote
  = List.filter (fun g => negb (Nat.eqb (length g) 0))
                (map r_g (concluidos gw clk tickers anos taxa_input ordem)).
Proof.
  cbv zeta.
  destruct (executar_lote_concluidos gw clk tickers anos taxa_input ordem)
    as (_ & _ & _ & _ & Hg & _).
  pose proof (concluidos_de_tickers gw clk tickers anos taxa_input ordem) as Hcs.
  rewrite Hg. clear Hg. split.
  - apply Forall_flat_map. eapply List.Forall_impl; [| exact Hcs].
    cbn. intros r (t & Ht & ->).
    destruct (resultado_de_coerente gw clk anos (taxa_input / 100)%float t)
      as (_ & _ & _ & _ & _ & _ & _ & Hlinhas).
    destruct (r_g (resultado_de gw clk anos (taxa_input / 100)%float t)) as [| l g];
      [constructor |].
    constructor; [| constructor].
    exists t. split; [exact Ht |]. split; [| exact Hlinhas].
    cbn. now rewrite (Forall_inv Hlinhas).
  - clear Hcs.
    induction (concluidos gw clk tickers anos taxa_input ordem) as [| r cs IH];
      [reflexivity |].
    cbn [flat_map map List.filter]. rewrite <- IH.
    destruct (r_g r); reflexivity.
Qed.

(** ** The indicators table *)

Lemma flat_map_map_comp {A B C : Type} (g : A -> B) (f : B -> list C) (l : list A) :
  flat_map f (map g l) = flat_map (fun a => f (g a)) l.
Proof. induction l as [| a l IH]; cbn; [reflexivity |]. now rewrite IH. Qed.

Lemma flat_map_ext_em {A B : Type} (f g : A -> list B) (l : list A) :
  (forall a, In a l -> f a = g a) -> flat_map f l = flat_map g l.
Proof.
  induction l as [| a l IH]; cbn; intros Hfg; [reflexivity |].
  rewrite (Hfg a) by now left. rewrite IH; [reflexivity |].
  intros b Hb. apply Hfg. now right.
Qed.

Lemma filter_unico {A : Type} (f : A -> string) (l : list A) (x : A) :
  List.NoDup (map f l) -> In x l ->
  List.filter (fun y => String.eqb (f x) (f y)) l = [x].
Proof.
  induction l as [| a l IH]; cbn [map]; intros Hnd Hx; [destruct Hx |].
  apply List.NoDup_cons_iff in Hnd. destruct Hnd as [Hna Hnd].
  cbn [List.filter]. destruct Hx as [-> | Hx].
  - rewrite String.eqb_refl. f_equal. apply filter_todos_falsos.
    apply List.Forall_forall. intros y Hy. apply String.eqb_neq.
    intros Heq. apply Hna. rewrite Heq. now apply List.in_map.
  - assert (Hne : String.eqb (f x) (f a) = false).
    { apply String.eqb_neq. intros Heq. apply Hna. rewrite <- Heq. now apply List.in_map. }
    rewrite Hne. now apply IH.
Qed.

Lemma length_filter_count_occ (l : list string) (x : string) :
  length (List.filter (String.eqb x) l) = count_occ String.string_dec l x.
Proof.
  induction l as [| a l IH]; cbn; [reflexivity |].
  destruct (String.string_dec a x) as [-> | Hne].
  - rewrite String.eqb_refl. cbn. now rewrite IH.
  - assert (Hf : String.eqb x a = false) by (apply String.eqb_neq; congruence).
    now rewrite Hf.
Qed.

Lemma list_sum_Permutation (l1 l2 : list nat) :
  Permutation l1 l2 -> list_sum l1 = list_sum l2.
Proof. unfold list_sum. induction 1; cbn [fold_right]; lia. Qed.

(** The rows of the merged table, from results that carry their ticker
    in the indicators and in the extras. *)
Lemma merge_payout_geral (cs : list Resultado) :
  Forall (fun r => r_i r !! "Ticker" = Some (PyStr (v_ticker (r_v r))) /\
                   x_ticker (r_i_extras r) = v_ticker (r_v r)) cs ->
  merge_payout (remover_colunas (map r_i cs)) (map r_i_extras cs)
  = flat_map
      (fun r =>
         map (fun r' =>
                <["Payout Ratio (%)" := PyNum (x_payout_ratio (r_i_extras r'))]>
                  (delete "LPA" (delete "VPA" (delete "_dividendRate" (r_i r)))))
             (List.filter (fun r' => String.eqb (v_ticker (r_v r)) (v_ticker (r_v r'))) cs))
      cs.
Proof.
  intros Hcs. rewrite List.Forall_forall in Hcs.
  unfold merge_payout, remover_colunas. rewrite map_map, flat_map_map_comp.
  apply flat_map_ext_em. intros r Hr.
  destruct (Hcs r Hr) as [Hti _].
  rewrite filter_map_swap.
  assert (Hfiltro : List.filter
                      (fun r' => mesmo_ticker
                                   (delete "LPA" (delete "VPA" (delete "_dividendRate" (r_i r))))
                                   (r_i_extras r')) cs
                    = List.filter
                        (fun r' => String.eqb (v_ticker (r_v r)) (v_ticker (r_v r'))) cs).
  { apply List.filter_ext_in. intros r' Hr'. destruct (Hcs r' Hr') as [_ Hx].
    unfold mesmo_ticker. rewrite !lookup_delete_ne by discriminate.
    now rewrite Hti, Hx. }
  rewrite Hfiltro. clear Hfiltro.
  destruct (List.filter _ cs) as [| r0 l] eqn:Hf.
  - exfalso.
    assert (Hin : In r (List.filter
                          (fun r' => String.eqb (v_ticker (r_v r)) (v_ticker (r_v r'))) cs)).
    { apply List.filter_In. split; [exact Hr | apply String.eqb_refl]. }
    rewrite Hf in Hin. destruct Hin.
  - cbn [map]. rewrite map_map. reflexivity.
Qed.

Lemma concluidos_carregam_ticker `{Runtime}
    (gw : Gateway) (clk : string -> Relogio) (tickers : list string)
    (anos : nat) (taxa_input : float) (ordem : list nat) :
  Forall (fun r => r_i r !! "Ticker" = Some (PyStr (v_ticker (r_v r))) /\
                   x_ticker (r_i_extras r) = v_ticker (r_v r))
         (concluidos gw clk tickers anos taxa_input ordem).
Proof.
  eapply List.Forall_impl; [| apply concluidos_de_tickers].
  cbn. intros r (t & _ & ->).
  destruct (resultado_de_coerente gw clk anos (taxa_input / 100)%float t)
    as (Hv & Hx & _ & Hi & _).
  now rewrite Hv, Hx, Hi.
Qed.

Lemma concluidos_tickers `{Runtime}
    (gw : Gateway) (clk : string -> Relogio) (tickers : list string)
    (anos : nat) (taxa_input : float) (ordem : list nat) :
  Permutation ordem (seq 0 (length tickers)) ->
  Permutation (map (fun r => v_ticker (r_v r))
                   (concluidos gw clk tickers anos taxa_input ordem))
              tickers.
Proof.
  intros Hperm.
  rewrite (concluidos_permutacao gw clk tickers anos taxa_input ordem Hperm), map_map.
  rewrite (map_ext _ (fun t => t)); [now rewrite map_id |].
  intros t. now destruct (resultado_de_coerente gw clk anos (taxa_input / 100)%float t).
Qed.

(** X16. The indicators table after the left merge on the ticker: each
    collected row, without the three internal columns, is repeated once
    for every collected result of the same ticker and receives that
    result's payout ratio.  With pairwise distinct tickers this is one row
    per ticker with its own payout ratio, in completion order; in general
    the table has, for each submitted ticker, as many rows as the number
    of times the ticker occurs in the batch. *)
Theorem merge_indicadores_payout `{Runtime}
    (gw : Gateway) (clk : string -> Relogio) (tickers : list string)
    (anos : nat) (taxa_input : float) (ordem : list nat) :
  let lote := executar_lote gw clk tickers anos taxa_input ordem in
  let cs := concluidos gw clk tickers anos taxa_input ordem in
  let df_indicadores :=
    merge_payout (remover_colunas (data_indicadores lote)) (data_indicadores_extras lote) in
  df_indicadores
  = flat_map
      (fun r =>
         map (fun r' =>
                <["Payout Ratio (%)" := PyNum (x_payout_ratio (r_i_extras r'))]>
                  (delete "LPA" (delete "VPA" (delete "_dividendRate" (r_i r)))))
             (List.filter (fun r' => String.eqb (v_ticker (r_v r)) (v_ticker (r_v r'))) cs))
      cs /\
  (Permutation ordem (seq 0 (length tickers)) -> List.NoDup tickers ->
   df_indicadores
   = map (fun r =>
            <["Payout Ratio (%)" := PyNum (x_payout_ratio (r_i_extras r))]>
              (delete "LPA" (delete "VPA" (delete "_dividendRate" (r_i r)))))
         cs) /\
  (Permutation ordem (seq 0 (length tickers)) ->
   length df_indicadores
   = list_sum (map (count_occ String.string_dec tickers) tickers)).
Proof.
  cbv zeta.
  destruct (executar_lote_concluidos gw clk tickers anos taxa_input ordem)
    as (_ & Hind & Hext & _).
  rewrite Hind, Hext.
  pose proof (concluidos_carregam_ticker gw clk tickers anos taxa_input ordem) as Hcs.
  rewrite (merge_payout_geral _ Hcs).
  set (cs := concluidos gw clk tickers anos taxa_input ordem) in *.
  split; [reflexivity |]. split.
  - intros Hperm Hnd.
    pose proof (concluidos_tickers gw clk tickers anos taxa_input ordem Hperm) as Hts.
    fold cs in Hts.
    assert (Hnd' : List.NoDup (map (fun r => v_ticker (r_v r)) cs)).
    { exact (Permutation_NoDup (Permutation_sym Hts) Hnd). }
    rewrite <- flat_map_unitario. apply flat_map_ext_em. intros r Hr.
    rewrite (filter_unico (fun r => v_ticker (r_v r)) cs r Hnd' Hr). reflexivity.
  - intros Hperm.
    pose proof (concluidos_tickers gw clk tickers anos taxa_input ordem Hperm) as Hts.
    fold cs in Hts.
    rewrite length_flat_map.
    rewrite (map_ext _ (fun r => count_occ String.string_dec tickers (v_ticker (r_v r)))).
    + rewrite <- (map_map (fun r => v_ticker (r_v r))
                          (count_occ String.string_dec tickers)).
      apply list_sum_Permutation, Permutation_map, Hts.
    + intros r. rewrite length_map.
      rewrite <- (proj1 (Permutation_count_occ String.string_dec _ _) Hts).
      rewrite <- length_filter_count_occ.
      rewrite (filter_map_swap (String.eqb (v_ticker (r_v r)))
                 (fun r' => v_ticker (r_v r')) cs).
      now rewrite length_map.
Qed.

(** ** The sector column *)

Lemma tem_coluna_ausente (linhas : list (gmap string pyval)) (col : string) :
  Forall (fun d => d !! col = None) linhas -> tem_coluna linhas col = false.
Proof.
  unfold tem_coluna. induction 1 as [| d linhas Hd _ IH]; cbn; [reflexivity |].
  rewrite IH, orb_false_r. apply bool_decide_eq_false_2.
  rewrite Hd. intros [x Hx]. discriminate.
Qed.

Lemma merge_payout_sem_coluna (esq : list (gmap string pyval)) (dir : list Extras)
    (col : string) :
  col <> "Payout Ratio (%)" ->
  Forall (fun d => d !! col = None) esq ->
  Forall (fun d => d !! col = None) (merge_payout esq dir).
Proof.
  intros Hcol Hesq. unfold merge_payout. apply Forall_flat_map.
  eapply List.Forall_impl; [| exact Hesq]. cbn. intros d Hd.
  destruct (List.filter (mesmo_ticker d) dir) as [| e l]; [repeat constructor; exact Hd |].
  apply List.Forall_forall. intros d' Hd'.
  assert (Hex : exists e', d' = <["Payout Ratio (%)" := PyNum (x_payout_ratio e')]> d).
  { cbn in Hd'. destruct Hd' as [<- | Hd']; [eauto |].
    apply List.in_map_iff in Hd'. destruct Hd' as (e' & <- & _). eauto. }
  destruct Hex as [e' ->]. rewrite lookup_insert_ne by congruence. exact Hd.
Qed.

(** A result whose [info] read raised has no sector. *)
Lemma resultado_sem_setor `{Runtime}
    (gw : Gateway) (clk : string -> Relogio) (anos : nat) (taxa_retorno : float)
    (ticker e : string) :
  info (gw ticker) = Raise e ->
  r_i (resultado_de gw clk anos taxa_retorno ticker) !! "Setor" = None.
Proof.
  intros Hinfo. unfold resultado_de.
  destruct (processar_ticker_forma gw (clk ticker) ticker anos taxa_retorno)
    as (t1 & df & m & md & err & t2 & fund & t3 & cagr & t4 & mp & mb & t5 & preco
        & _ & Hfund & Hcagr & _ & _ & ->).
  destruct (calcular_preco_graham _ _) as [g | e']; cbn.
  - destruct (obter_dados_cagr_so_cagr gw ticker 5) as (t3' & cagr' & Hcagr' & Hchaves).
    rewrite Hcagr in Hcagr'. injection Hcagr' as _ <-.
    unfold obter_dados_fundamentalistas, fetch in Hfund. rewrite Hinfo in Hfund.
    cbn in Hfund. injection Hfund as _ <-.
    rewrite lookup_union_r by (apply Hchaves; discriminate).
    now apply lookup_singleton_ne.
  - now apply lookup_singleton_ne.
Qed.

(** X17. When the [info] read raised for every submitted ticker, no
    collected dictionary has a sector, the indicators table has no
    [Setor] column, and the test for financial institutions raises
    [KeyError] instead of answering, whatever else the provider served
    and in whatever order the futures completed. *)
Theorem sem_info_nao_ha_coluna_setor `{Runtime}
    (contem_financial : string -> bool)
    (gw : Gateway) (clk : string -> Relogio) (tickers : list string)
    (anos : nat) (taxa_input : float) (ordem : list nat) :
  (forall t, In t tickers -> exists e, info (gw t) = Raise e) ->
  let lote := executar_lote gw clk tickers anos taxa_input ordem in
  let df_indicadores :=
    merge_payout (remover_colunas (data_indicadores lote)) (data_indicadores_extras lote) in
  Forall (fun d => d !! "Setor" = None) (data_indicadores lote) /\
  tem_coluna df_indicadores "Setor" = false /\
  tem_setor_financeiro contem_financial df_indicadores = Raise "KeyError".
Proof.
  intros Hinfo. cbv zeta.
  destruct (executar_lote_concluidos gw clk tickers anos taxa_input ordem)
    as (_ & Hind & _).
  assert (Hsem : Forall (fun d => d !! "Setor" = None)
                   (data_indicadores (executar_lote gw clk tickers anos taxa_input ordem))).
  { rewrite Hind. apply List.Forall_forall. intros d Hd.
    apply List.in_map_iff in Hd. destruct Hd as (r & <- & Hr).
    pose proof (concluidos_de_tickers gw clk tickers anos taxa_input ordem) as Hcs.
    rewrite List.Forall_forall in Hcs. destruct (Hcs r Hr) as (t & Ht & ->).
    destruct (Hinfo t Ht) as [e He].
    exact (resultado_sem_setor gw clk anos _ t e He). }
  assert (Hcol : tem_coluna
                   (merge_payout
                      (remover_colunas
                         (data_indicadores (executar_lote gw clk tickers anos taxa_input ordem)))
                      (data_indicadores_extras
                         (executar_lote gw clk tickers anos taxa_input ordem)))
                   "Setor" = false).
  { apply tem_coluna_ausente, merge_payout_sem_coluna; [discriminate |].
    unfold remover_colunas. apply List.Forall_forall. intros d Hd.
    apply List.in_map_iff in Hd. destruct Hd as (d0 & <- & Hd0).
    rewrite List.Forall_forall in Hsem.
    rewrite !lookup_delete_ne by discriminate. now apply Hsem. }
  split; [exact Hsem |]. split; [exact Hcol |].
  unfold tem_setor_financeiro. now rewrite Hcol.
Qed.

Lemma info_fora_do_ar_derruba_a_nota :
  tem_setor_financeiro (fun _ => false)
    (merge_payout
       (remover_colunas
          (data_indicadores
             (executar_lote (H := runtime_estavel) gw_info_fora_do_ar (fun _ => clk_2026)
                ["PETR4.SA"; "VALE3.SA"] 3 6 [1; 0]%nat)))
       (data_indicadores_extras
          (executar_lote (H := runtime_estavel) gw_info_fora_do_ar (fun _ => clk_2026)
             ["PETR4.SA"; "VALE3.SA"] 3 6 [1; 0]%nat)))
  = Raise "KeyError" /\
  map v_preco_teto
      (data_valuation
         (executar_lote (H := runtime_estavel) gw_info_fora_do_ar (fun _ => clk_2026)
            ["PETR4.SA"; "VALE3.SA"] 3 6 [1; 0]%nat))
  = [ (3.5 / 3 / (6 / 100))%float; (3.5 / 3 / (6 / 100))%float ].
Proof.
  split.
  - apply (sem_info_nao_ha_coluna_setor (H := runtime_estavel) (fun _ => false)
             gw_info_fora_do_ar (fun _ => clk_2026) ["PETR4.SA"; "VALE3.SA"] 3 6 [1; 0]%nat).
    intros t _. exists "timeout". reflexivity.
  - vm_compute. reflexivity.
Defined.

(** ** The median margin of the statistics table *)

Lemma SFltb_zero_div (sx sy : spec_float) :
  SFltb (S754_zero false) sy = true ->
  SFltb (S754_zero false) (SF64div sx sy) = true ->
  SFltb (S754_zero false) sx = true.
Proof.
  unfold SF64div, SFdiv.
  destruct sy as [s | s | | s my ey]; cbn; try discriminate;
    destruct s; try discriminate; intros _;
    destruct sx as [s | s | | s mx ex]; cbn; try discriminate;
    destruct s; cbn; try discriminate; auto.
  all: destruct (SFdiv_core_binary _ _ _ _ _ _) as [[mz ez] lz].
  all: unfold binary_round_aux.
  all: destruct (shr_fexp _ _ _ _ _) as [mrs' e'].
  all: destruct (shr_fexp _ _ _ _ _) as [mrs'' e''].
  all: destruct (shr_m mrs''); cbn; try discriminate.
  all: destruct (Z.leb _ _); cbn; discriminate.
Qed.

(** A quotient by a positive float is positive only for a positive
    numerator. *)
Lemma quociente_positivo (m t : float) :
  (0 <? t)%float = true -> (0 <? m / t)%float = true -> (0 <? m)%float = true.
Proof.
  rewrite !FloatAxioms.ltb_spec, FloatAxioms.div_spec, prim2sf_zero.
  apply SFltb_zero_div.
Qed.

(** X18. The median margin of the statistics table, computed inline
    from the median and the rate, is the margin of safety of the Bazin
    ceiling of the median: the two inline formulas agree with
    [calcular_margem_seguranca] and [calcular_preco_teto_bazin] for every
    rate, median and price, although the inline ceiling itself is the
    plain quotient even for a median that is not positive. *)
Theorem margem_mediana_e_a_de_bazin (taxa_retorno_decimal : float) (s : Estatisticas) :
  margem_seguranca_mediana taxa_retorno_decimal s
  = calcular_margem_seguranca
      (calcular_preco_teto_bazin (s_mediana_dpa s) taxa_retorno_decimal)
      (s_preco_atual s) /\
  ((0 <? s_mediana_dpa s)%float = true ->
   preco_teto_mediana taxa_retorno_decimal s
   = calcular_preco_teto_bazin (s_mediana_dpa s) taxa_retorno_decimal).
Proof.
  unfold margem_seguranca_mediana, preco_teto_mediana, calcular_margem_seguranca,
    calcular_preco_teto_bazin.
  split.
  - destruct (0 <? taxa_retorno_decimal)%float eqn:Ht.
    + destruct (0 <? s_mediana_dpa s)%float eqn:Hm; cbn [andb]; [reflexivity |].
      destruct (0 <? s_mediana_dpa s / taxa_retorno_decimal)%float eqn:Hq.
      * rewrite (quociente_positivo _ _ Ht Hq) in Hm. discriminate.
      * destruct (0 <? s_preco_atual s)%float; reflexivity.
    + destruct (0 <? s_mediana_dpa s)%float; destruct (0 <? s_preco_atual s)%float;
        reflexivity.
  - intros Hm. rewrite Hm. destruct (0 <? taxa_retorno_decimal)%float; reflexivity.
Qed.

(** ** From the button to the report *)

Lemma sanitizar_tickers_no_limite (ticker_input : string) :
  (length (fst (sanitizar_tickers ticker_input)) <= MAX_TICKERS_PERMITIDOS)%nat.
Proof. rewrite sanitizar_tickers_fst, length_firstn. lia. Qed.

Lemma executar_lote_completo `{Runtime}
    (gw : Gateway) (clk : string -> Relogio) (tickers : list string)
    (anos : nat) (taxa_input : float) (ordem : list nat) :
  Permutation ordem (seq 0 (length tickers)) ->
  length (data_valuation (executar_lote gw clk tickers anos taxa_input ordem))
  = length tickers.
Proof.
  intros Hperm.
  destruct (executar_lote_concluidos gw clk tickers anos taxa_input ordem) as (-> & _).
  rewrite length_map.
  rewrite (Permutation_length (concluidos_permutacao gw clk tickers anos taxa_input
                                 ordem Hperm)).
  apply length_map.
Qed.

Lemma tem_setor_financeiro_excecoes (contem_financial : string -> bool)
    (df_indicadores : list (gmap string pyval)) (e : string) :
  tem_setor_financeiro contem_financial df_indicadores = Raise e ->
  (e = "KeyError" /\ tem_coluna df_indicadores "Setor" = false) \/
  (e = "AttributeError" /\ tem_coluna df_indicadores "Setor" = true).
Proof.
  unfold tem_setor_financeiro.
  destruct (tem_coluna df_indicadores "Setor"); cbn [negb].
  - destruct (_ && _); [| discriminate]. intros [= <-]. now right.
  - intros [= <-]. now left.
Qed.

(** X19. Once every future completes, the run from the button ends in
    one of four ways and never in the branch for an empty batch: an error
    for the years, for the rate, or for an input without a valid ticker;
    the report, with a pool of one to five workers, no larger than the
    batch, and one valuation row per sanitised ticker; or an exception of
    the sector test, [KeyError] exactly when the indicators table has no
    [Setor] column.  The pool is never asked for zero workers. *)
Theorem gerar_relatorio_desfechos `{Runtime}
    (contem_financial : string -> bool)
    (gw : Gateway) (clk : string -> Relogio) (ordem : list string -> list nat)
    (ticker_input : string) (anos_input : Z) (taxa_retorno_input : float) :
  (forall ts, Permutation (ordem ts) (seq 0 (length ts))) ->
  let tickers := fst (sanitizar_tickers ticker_input) in
  let lote := executar_lote gw clk tickers (Z.to_nat anos_input) taxa_retorno_input
                (ordem tickers) in
  match gerar_relatorio contem_financial gw clk ordem ticker_input anos_input
          taxa_retorno_input with
  | ErroAnos => ~ (1 <= anos_input <= 20)
  | ErroTaxa =>
      1 <= anos_input <= 20 /\ validar_taxa_retorno (NFloat taxa_retorno_input) = false
  | ErroTickers avisos =>
      tickers = [] /\ avisos = snd (sanitizar_tickers ticker_input)
  | NaoProcessado _ => False
  | Excecao avisos e =>
      tickers <> [] /\ avisos = snd (sanitizar_tickers ticker_input) /\
      ((e = "KeyError" /\
        tem_coluna (merge_payout (remover_colunas (data_indicadores lote))
                                 (data_indicadores_extras lote)) "Setor" = false) \/
       (e = "AttributeError" /\
        tem_coluna (merge_payout (remover_colunas (data_indicadores lote))
                                 (data_indicadores_extras lote)) "Setor" = true))
  | Relatorio avisos workers sem_dados df_valuation df_indicadores nota lote' =>
      1 <= anos_input <= 20 /\
      validar_taxa_retorno (NFloat taxa_retorno_input) = true /\
      tickers <> [] /\ (length tickers <= MAX_TICKERS_PERMITIDOS)%nat /\
      avisos = snd (sanitizar_tickers ticker_input) /\
      (1 <= workers <= MAX_WORKERS_THREAD_POOL)%nat /\ (workers <= length tickers)%nat /\
      lote' = lote /\
      length (data_valuation lote) = length tickers /\
      sem_dados = tickers_sem_dados (data_valuation lote) /\
      df_valuation = ordenar_valuation (data_valuation lote) /\
      tem_setor_financeiro contem_financial df_indicadores = Ok nota
  end.
Proof.
  intros Hordem. cbv zeta.
  pose proof (sanitizar_tickers_no_limite ticker_input) as Hlim.
  unfold gerar_relatorio, validar_anos. cbn [bind].
  destruct ((1 <=? anos_input) && (anos_input <=? 20)) eqn:Hanos.
  2:{ intros [H1 H2]. apply Z.leb_le in H1. apply Z.leb_le in H2.
      rewrite H1, H2 in Hanos. discriminate. }
  apply andb_true_iff in Hanos. destruct Hanos as [H1 H2].
  apply Z.leb_le in H1. apply Z.leb_le in H2.
  destruct (validar_taxa_retorno (NFloat taxa_retorno_input)) eqn:Htaxa; cbn [negb];
    [| split; [lia | reflexivity]].
  destruct (sanitizar_tickers ticker_input) as [tickers avisos] eqn:Hs. cbn [fst snd] in *.
  destruct tickers as [| t ts] eqn:Hts; [split; reflexivity |].
  rewrite <- Hts in *.
  assert (Hne : tickers <> []) by (rewrite Hts; discriminate).
  assert (Hlen : (1 <= length tickers)%nat) by (rewrite Hts; cbn; lia).
  assert (Hw : (1 <= workers_dinamicos tickers <= MAX_WORKERS_THREAD_POOL)%nat /\
               (workers_dinamicos tickers <= length tickers)%nat).
  { unfold workers_dinamicos, MAX_WORKERS_THREAD_POOL. lia. }
  destruct (workers_dinamicos tickers =? 0)%nat eqn:Hw0.
  { apply Nat.eqb_eq in Hw0. lia. }
  pose proof (executar_lote_completo gw clk tickers (Z.to_nat anos_input)
                taxa_retorno_input (ordem tickers) (Hordem tickers)) as Hcompleto.
  destruct (data_valuation (executar_lote gw clk tickers (Z.to_nat anos_input)
                              taxa_retorno_input (ordem tickers))) as [| v vs] eqn:Hval.
  { cbn in Hcompleto. lia. }
  rewrite <- Hval in *.
  destruct (tem_setor_financeiro contem_financial _) as [nota | e] eqn:Hsetor.
  - repeat split; try assumption; try reflexivity; try lia.
  - split; [exact Hne |]. split; [reflexivity |].
    exact (tem_setor_financeiro_excecoes _ _ _ Hsetor).
Qed.

Lemma relatorio_com_um_ticker_em_falha :
  exists avisos workers sem_dados df_valuation df_indicadores nota lote,
    gerar_relatorio (H := runtime_estavel) (fun _ => false) gw_uma_falha (fun _ => clk_2026)
      (fun ts => seq 0 (length ts)) "aaaa3.sa, FALHA3.SA" 3 6
    = Relatorio avisos workers sem_dados df_valuation df_indicadores nota lote /\
    (1 <= workers <= MAX_WORKERS_THREAD_POOL)%nat /\
    length (data_valuation lote) = 2%nat /\
    sem_dados = ["FALHA3.SA"].
Proof.
  pose proof (gerar_relatorio_desfechos (H := runtime_estavel) (fun _ => false) gw_uma_falha
                (fun _ => clk_2026) (fun ts => seq 0 (length ts)) "aaaa3.sa, FALHA3.SA" 3 6
                (fun ts => Permutation_refl _)) as Hd.
  cbv zeta in Hd.
  destruct (gerar_relatorio (H := runtime_estavel) (fun _ => false) gw_uma_falha
              (fun _ => clk_2026) (fun ts => seq 0 (length ts)) "aaaa3.sa, FALHA3.SA" 3 6)
    as [| | avisos | avisos e | avisos | avisos workers sem_dados dfv dfi nota lote] eqn:Hg;
    try (vm_compute in Hg; discriminate).
  destruct Hd as (_ & _ & _ & _ & _ & Hw & _ & Hl & Hlen & Hsem & _).
  exists avisos, workers, sem_dados, dfv, dfi, nota, lote.
  split; [reflexivity |]. split; [exact Hw |]. split.
  - rewrite Hl, Hlen. reflexivity.
  - rewrite Hsem. vm_compute. reflexivity.
Defined.

(** ** What the provider mapping and the income statement decide *)

Lemma calcular_payout_ratio_campos `{Runtime} (d1 d2 : gmap string pyval) :
  dict_get d1 "_dividendRate" = dict_get d2 "_dividendRate" ->
  dict_get d1 "LPA" = dict_get d2 "LPA" ->
  calcular_payout_ratio d1 = calcular_payout_ratio d2.
Proof. intros Hd Hl. unfold calcular_payout_ratio. now rewrite Hd, Hl. Qed.

Lemma dict_get_dicionario (ticker_symbol : string) (i : gmap string pyval)
    (op : option float) (oe : pyval) :
  dict_get (dicionario_fundamentalista ticker_symbol i op oe) "LPA"
  = dict_get i "trailingEps" /\
  dict_get (dicionario_fundamentalista ticker_symbol i op oe) "VPA"
  = dict_get i "bookValue" /\
  dict_get (dicionario_fundamentalista ticker_symbol i op oe) "_dividendRate"
  = dict_get i "dividendRate".
Proof. unfold dict_get, dicionario_fundamentalista. repeat split. Qed.

(** X20. What the provider mapping decides in a result.  With a readable
    mapping on which the Graham price does not raise, the result shows
    that Graham price of the mapping's earnings and book value per share,
    and the payout ratio of its dividend rate and earnings per share.
    With a mapping that cannot be read the result is not the error
    structure: price, Graham price and payout ratio are 0.0, the margin is
    -100.0 and there is no alert, while the ceiling, the frame and the
    statistics still come from the dividends. *)
Theorem resultado_e_o_info `{Runtime}
    (gw : Gateway) (clk : string -> Relogio) (anos : nat) (taxa_retorno : float)
    (ticker : string) :
  let r := resultado_de gw clk anos taxa_retorno ticker in
  (forall i preco_graham,
     info (gw ticker) = Ok i ->
     calcular_preco_graham (dict_get i "trailingEps") (dict_get i "bookValue")
     = Ok preco_graham ->
     v_preco_graham (r_v r) = preco_graham /\
     x_payout_ratio (r_i_extras r)
     = calcular_payout_ratio
         (<["_dividendRate" := dict_get i "dividendRate"]>
            (<["LPA" := dict_get i "trailingEps"]> ∅)) /\
     result (obter_preco_atual gw ticker) = Ok (v_preco_atual (r_v r))) /\
  (forall e,
     info (gw ticker) = Raise e ->
     v_preco_atual (r_v r) = 0%float /\ v_preco_graham (r_v r) = 0%float /\
     x_payout_ratio (r_i_extras r) = 0%float /\
     v_margem_seguranca (r_v r) = (-100)%float /\ r_a r = None /\
     v_preco_teto (r_v r) = calcular_preco_teto_bazin (s_media_dpa (r_s r)) taxa_retorno /\
     result (obter_dados_dpa gw (clk ticker) ticker anos)
     = Ok (r_g r, s_media_dpa (r_s r), s_mediana_dpa (r_s r),
           match dividends (gw ticker) with
           | Ok _ => ""
           | Raise e' => "Erro: " +:+ e'
           end)).
Proof.
  cbv zeta. unfold resultado_de.
  destruct (processar_ticker_forma gw (clk ticker) ticker anos taxa_retorno)
    as (t1 & df & m & md & err & t2 & fund & t3 & cagr & t4 & mp & mb & t5 & preco
        & Hdpa & Hfund & Hcagr & _ & Hpreco & ->).
  destruct (obter_dados_cagr_so_cagr gw ticker 5) as (t3' & cagr' & Hcagr' & Hchaves).
  rewrite Hcagr in Hcagr'. injection Hcagr' as _ <-.
  rewrite !dict_get_uniao by (apply Hchaves; discriminate).
  split.
  - intros i g Hinfo Hg.
    destruct (obter_dados_fundamentalistas_forma gw ticker i Hinfo)
      as (tp & op & te & oe & _ & _ & Hforma).
    rewrite Hfund in Hforma. injection Hforma as _ ->.
    destruct (dict_get_dicionario ticker i op oe) as (Hl & Hv & Hd).
    rewrite Hl, Hv, Hg. cbn.
    split; [reflexivity |]. split; [| now rewrite Hpreco].
    apply calcular_payout_ratio_campos.
    + rewrite dict_get_uniao by (apply Hchaves; discriminate). rewrite Hd.
      unfold dict_get at 2. now rewrite lookup_insert_eq.
    + rewrite dict_get_uniao by (apply Hchaves; discriminate). rewrite Hl.
      unfold dict_get at 2.
      rewrite lookup_insert_ne by discriminate. now rewrite lookup_insert_eq.
  - intros e Hinfo.
    unfold obter_dados_fundamentalistas, fetch in Hfund. rewrite Hinfo in Hfund.
    cbn in Hfund. injection Hfund as _ <-.
    unfold obter_preco_atual, fetch in Hpreco. rewrite Hinfo in Hpreco.
    cbn in Hpreco. injection Hpreco as _ <-.
    assert (Hlpa : dict_get ({["Ticker" := PyStr ticker]} : gmap string pyval) "LPA" = PyNone).
    { unfold dict_get. now rewrite lookup_singleton_ne by discriminate. }
    assert (Hdr : dict_get ({["Ticker" := PyStr ticker]} : gmap string pyval) "_dividendRate"
                  = PyNone).
    { unfold dict_get. now rewrite lookup_singleton_ne by discriminate. }
    rewrite Hlpa. cbn.
    assert (Hpay : calcular_payout_ratio (cagr ∪ {["Ticker" := PyStr ticker]}) = 0%float).
    { unfold calcular_payout_ratio.
      rewrite !dict_get_uniao by (apply Hchaves; discriminate).
      rewrite Hlpa, Hdr. reflexivity. }
    rewrite Hpay.
    repeat (split; [reflexivity |]).
    rewrite Hdpa. cbn. repeat f_equal.
    destruct (dividends (gw ticker)) as [divs | e'] eqn:Hdivs.
    + rewrite (obter_dados_dpa_forma gw (clk ticker) ticker anos divs Hdivs) in Hdpa.
      now injection Hdpa as _ _ _ _ <-.
    + unfold obter_dados_dpa, fetch in Hdpa. rewrite Hdivs in Hdpa. cbn in Hdpa.
      now injection Hdpa as _ _ _ _ <-.
Qed.

(** X21. The growth columns of a result are read off the income
    statement over five years, whatever number of years the analysis was
    asked for: outside the error structure, both keys are missing from the
    indicators when the statement raises, both are [None] when it is [None]
    or empty, and otherwise they hold the growth of revenue and of net
    income over the trailing six annual points. *)
Theorem cagr_do_resultado `{Runtime}
    (gw : Gateway) (clk : string -> Relogio) (anos : nat) (taxa_retorno : float)
    (ticker : string) :
  let r := resultado_de gw clk anos taxa_retorno ticker in
  r = resultado_minimo ticker \/
  match financials (gw ticker) with
  | Raise _ =>
      r_i r !! "CAGR Receita 5a" = None /\ r_i r !! "CAGR Lucro 5a" = None
  | Ok demonstrativo =>
      match nao_vazio demonstrativo with
      | None =>
          r_i r !! "CAGR Receita 5a" = Some PyNone /\
          r_i r !! "CAGR Lucro 5a" = Some PyNone
      | Some df =>
          r_i r !! "CAGR Receita 5a"
          = Some (opt_pyval (calcular_cagr 5 df ["Total Revenue"])) /\
          r_i r !! "CAGR Lucro 5a"
          = Some (opt_pyval (calcular_cagr 5 df ["Net Income"]))
      end
  end.
Proof.
  cbv zeta. unfold resultado_de.
  destruct (processar_ticker_forma gw (clk ticker) ticker anos taxa_retorno)
    as (t1 & df & m & md & err & t2 & fund & t3 & cagr & t4 & mp & mb & t5 & preco
        & _ & Hfund & Hcagr & _ & _ & ->).
  destruct (calcular_preco_graham _ _) as [g | e]; [right | now left]. cbn.
  assert (Hsem : fund !! "CAGR Receita 5a" = None /\ fund !! "CAGR Lucro 5a" = None).
  { destruct (info (gw ticker)) as [i | e] eqn:Hinfo.
    - destruct (obter_dados_fundamentalistas_forma gw ticker i Hinfo)
        as (tp & op & te & oe & _ & _ & Hforma).
      rewrite Hfund in Hforma. injection Hforma as _ ->.
      unfold dicionario_fundamentalista.
      split; rewrite !lookup_insert_ne by discriminate; apply lookup_empty.
    - unfold obter_dados_fundamentalistas, fetch in Hfund. rewrite Hinfo in Hfund.
      cbn in Hfund. injection Hfund as _ <-.
      split; now apply lookup_singleton_ne. }
  destruct Hsem as [Hr Hl].
  unfold obter_dados_cagr, fetch in Hcagr.
  destruct (financials (gw ticker)) as [fin | e].
  - rewrite bind_io_ok in Hcagr.
    destruct (nao_vazio fin) as [dre |]; cbn in Hcagr; injection Hcagr as _ <-.
    + split.
      * erewrite lookup_union_Some_l; [reflexivity |]. apply lookup_insert_eq.
      * erewrite lookup_union_Some_l; [reflexivity |].
        rewrite lookup_insert_ne by discriminate. apply lookup_insert_eq.
    + split.
      * erewrite lookup_union_Some_l; [reflexivity |]. apply lookup_insert_eq.
      * erewrite lookup_union_Some_l; [reflexivity |].
        rewrite lookup_insert_ne by discriminate. apply lookup_insert_eq.
  - cbn in Hcagr. injection Hcagr as _ <-.
    rewrite !lookup_union_r by apply lookup_empty. auto.
Qed.

(** ** The indicators tab *)

(** Every row of the merged table carries the ticker of a collected
    result. *)
Lemma linhas_do_merge `{Runtime}
    (gw : Gateway) (clk : string -> Relogio) (tickers : list string)
    (anos : nat) (taxa_input : float) (ordem : list nat) :
  let lote := executar_lote gw clk tickers anos taxa_input ordem in
  Forall (fun linha =>
            exists t, In t tickers /\ linha !! "Ticker" = Some (PyStr t) /\
                      In t (map v_ticker (data_valuation lote)))
         (merge_payout (remover_colunas (data_indicadores lote))
                       (data_indicadores_extras lote)).
Proof.
  cbv zeta.
  destruct (executar_lote_concluidos gw clk tickers anos taxa_input ordem)
    as (Hval & Hind & Hext & _).
  rewrite Hval, Hind, Hext.
  rewrite (merge_payout_geral _ (concluidos_carregam_ticker gw clk tickers anos
                                   taxa_input ordem)).
  pose proof (concluidos_de_tickers gw clk tickers anos taxa_input ordem) as Hcs.
  rewrite List.Forall_forall in Hcs.
  apply List.Forall_forall. intros linha Hl.
  apply List.in_flat_map in Hl. destruct Hl as (r & Hr & Hl).
  apply List.in_map_iff in Hl. destruct Hl as (r' & <- & _).
  destruct (Hcs r Hr) as (t & Ht & Heq).
  destruct (resultado_de_coerente gw clk anos (taxa_input / 100)%float t)
    as (Hv & _ & _ & Hi & _).
  rewrite <- Heq in Hv, Hi.
  exists t. split; [exact Ht |]. split.
  - rewrite lookup_insert_ne by discriminate.
    rewrite !lookup_delete_ne by discriminate. exact Hi.
  - rewrite map_map. apply List.in_map_iff. exists r. auto.
Qed.

(** X22. The indicators tab shows every row of the merged table: as
    long as [sort_values] only rearranges the valuation rows, the [isin]
    mask on the ticker drops nothing.  Each shown row is the merged row cut
    to the listed columns that exist, so the sector and the three internal
    columns never appear, and it keeps its ticker, a submitted one. *)
Theorem aba_indicadores_mostra_todas_as_linhas `{Runtime}
    (gw : Gateway) (clk : string -> Relogio) (tickers : list string)
    (anos : nat) (taxa_input : float) (ordem : list nat) :
  contrato_sort_values sort_values_desc ->
  let lote := executar_lote gw clk tickers anos taxa_input ordem in
  let df_valuation := ordenar_valuation (data_valuation lote) in
  let df_indicadores :=
    merge_payout (remover_colunas (data_indicadores lote)) (data_indicadores_extras lote) in
  let tabela := df_indicadores_filtrado df_indicadores df_valuation in
  tabela
  = map (fun linha => filter (fun kv => fst kv ∈ colunas_existentes df_indicadores) linha)
        df_indicadores /\
  length tabela = length df_indicadores /\
  Forall (fun linha =>
            (forall k, is_Some (linha !! k) -> In k colunas_indicadores) /\
            linha !! "Setor" = None /\ linha !! "LPA" = None /\
            linha !! "VPA" = None /\ linha !! "_dividendRate" = None /\
            exists t, In t tickers /\ linha !! "Ticker" = Some (PyStr t))
         tabela.
Proof.
  intros Hsort. cbv zeta.
  pose proof (linhas_do_merge gw clk tickers anos taxa_input ordem) as Hlinhas.
  cbv zeta in Hlinhas.
  set (lote := executar_lote gw clk tickers anos taxa_input ordem) in *.
  set (dfi := merge_payout (remover_colunas (data_indicadores lote))
                (data_indicadores_extras lote)) in *.
  assert (Hmask : List.filter (isin_ticker (ordenar_valuation (data_valuation lote))) dfi
                  = dfi).
  { apply filter_todos_verdadeiros.
    eapply List.Forall_impl; [| exact Hlinhas]. cbn.
    intros linha (t & _ & Ht & Hin). unfold isin_ticker. rewrite Ht.
    apply List.existsb_exists. exists t. split; [| apply String.eqb_refl].
    unfold ordenar_valuation.
    destruct (Hsort Valuation v_margem_seguranca (data_valuation lote)) as [Hperm _].
    apply (Permutation_in _ (Permutation_map v_ticker (Permutation_sym Hperm))).
    exact Hin. }
  assert (Htab : df_indicadores_filtrado dfi (ordenar_valuation (data_valuation lote))
                 = map (fun linha =>
                          filter (fun kv => fst kv ∈ colunas_existentes dfi) linha) dfi).
  { unfold df_indicadores_filtrado. now rewrite Hmask. }
  split; [exact Htab |]. rewrite Htab. split; [apply length_map |].
  assert (Hcols : forall (linha : gmap string pyval) (k : string),
             is_Some (filter (fun kv : string * pyval => fst kv ∈ colunas_existentes dfi)
                        linha !! k) ->
             In k colunas_indicadores).
  { intros linha k [v Hv]. apply map_lookup_filter_Some in Hv. destruct Hv as [_ Hk].
    cbn [fst] in Hk. apply list_elem_of_In in Hk. unfold colunas_existentes in Hk.
    apply List.filter_In in Hk. tauto. }
  assert (Hfora : forall (linha : gmap string pyval) (k : string),
             ~ In k colunas_indicadores ->
             filter (fun kv : string * pyval => fst kv ∈ colunas_existentes dfi)
               linha !! k = None).
  { intros linha k Hk.
    destruct (filter _ linha !! k) as [v |] eqn:Hv; [| reflexivity].
    exfalso. apply Hk, (Hcols linha k). rewrite Hv. eauto. }
  rewrite List.Forall_forall in Hlinhas.
  apply List.Forall_forall. intros linha' Hl'.
  apply List.in_map_iff in Hl'. destruct Hl' as (linha & <- & Hl).
  split; [apply Hcols |].
  repeat (split; [apply Hfora; unfold colunas_indicadores; cbn;
                  intuition discriminate |]).
  destruct (Hlinhas linha Hl) as (t & Ht & Hti & _).
  exists t. split; [exact Ht |].
  apply map_lookup_filter_Some. split; [exact Hti |]. cbn [fst].
  apply list_elem_of_In. unfold colunas_existentes.
  apply List.filter_In. split; [now left |].
  unfold tem_coluna. apply List.existsb_exists. exists linha.
  split; [exact Hl |]. apply bool_decide_eq_true_2. rewrite Hti. eauto.
Qed.

Lemma aba_indicadores_com_uma_falha :
  length
    (df_indicadores_filtrado
       (merge_payout
          (remover_colunas
             (data_indicadores
                (executar_lote (H := runtime_estavel) gw_uma_falha (fun _ => clk_2026)
                   ["AAAA3.SA"; "FALHA3.SA"; "CCCC3.SA"] 3 6 [2; 0; 1]%nat)))
          (data_indicadores_extras
             (executar_lote (H := runtime_estavel) gw_uma_falha (fun _ => clk_2026)
                ["AAAA3.SA"; "FALHA3.SA"; "CCCC3.SA"] 3 6 [2; 0; 1]%nat)))
       (ordenar_valuation (H := runtime_estavel)
          (data_valuation
             (executar_lote (H := runtime_estavel) gw_uma_falha (fun _ => clk_2026)
                ["AAAA3.SA"; "FALHA3.SA"; "CCCC3.SA"] 3 6 [2; 0; 1]%nat))))
  = 3%nat.
Proof.
  rewrite (proj1 (proj2 (aba_indicadores_mostra_todas_as_linhas (H := runtime_estavel)
                           gw_uma_falha (fun _ => clk_2026)
                           ["AAAA3.SA"; "FALHA3.SA"; "CCCC3.SA"] 3 6 [2; 0; 1]%nat
                           sort_desc_estavel_contrato))).
  vm_compute. reflexivity.
Defined.
